(** * Checkpoint conversion pipeline of [convert_pytorch.py]

    A shallow embedding of [Resources/Scripts/convert_pytorch.py]: the
    event emitter, the checkpoint classifier and materializer
    ([load_pytorch_model]), the two format converters
    ([convert_to_coreml], [convert_to_mlx]), the architecture inferencer
    ([infer_architecture]) and the driver ([main]).

    Python values are an inductive type [PyObj]; the libraries the script
    calls (torch, coremltools, safetensors, the file system) are a record
    of oracles, [World]; the script itself is written in a writer/error
    monad whose trace lists, in order, every event printed and every
    external call attempted. *)

From Stdlib Require Import ZArith List String Ascii Bool Lia Sorted.
From Stdlib Require Import PrimFloat DecimalString DecimalPos DecimalZ.
From Stdlib Require Import Permutation.
Import ListNotations.

Set Warnings "-inexact-float,-register-all".

Local Open Scope string_scope.
Local Open Scope Z_scope.

(* ================================================================== *)
(** ** Python strings *)

Module PyStr.

(** [str.lower()] on ASCII text: the letters A-Z move to a-z, every
    other character stays. *)
Definition lower_ascii (c : ascii) : ascii :=
  let n := N_of_ascii c in
  if (N.leb 65 n && N.leb n 90)%bool then ascii_of_N (n + 32) else c.

Fixpoint lower (s : string) : string :=
  match s with
  | EmptyString => EmptyString
  | String c r => String (lower_ascii c) (lower r)
  end.

(** [needle in hay] on strings: [needle] occurs as a contiguous block. *)
Fixpoint contains (needle hay : string) : bool :=
  (String.prefix needle hay
   || match hay with
      | EmptyString => false
      | String _ r => contains needle r
      end)%bool.

(** [sep.join(l)]. *)
Fixpoint join (sep : string) (l : list string) : string :=
  match l with
  | [] => ""
  | [x] => x
  | x :: r => x ++ sep ++ join sep r
  end.

(** [s.split(sep)] for a one-character separator: a string with n
    separators gives n+1 pieces, the empty string gives one piece. *)
Fixpoint split (sep : ascii) (s : string) : list string :=
  match s with
  | EmptyString => [EmptyString]
  | String c r =>
      if Ascii.eqb c sep then EmptyString :: split sep r
      else match split sep r with
           | [] => [String c EmptyString]
           | t :: ts => String c t :: ts
           end
  end.

(** [str(n)] of an integer. Python prints an integer of at most 4300
    digits; every dimension of a parsed shape is one (lemma
    [parsed_dimensions_print]). *)
Definition of_Z (n : Z) : string := NilZero.string_of_int (Z.to_int n).

(** [str(t)] of a tuple of integers: [(1, 3, 224, 224)], [(5,)], [()]. *)
Definition of_tuple (t : list Z) : string :=
  match t with
  | [x] => "(" ++ of_Z x ++ ",)"
  | _ => "(" ++ join ", " (map of_Z t) ++ ")"
  end.

(** *** Characters

    A Python [str] is held as its bytes in the file-system encoding:
    UTF-8, and a byte of the command line that is no UTF-8 standing for
    itself (Python reads it as a lone surrogate, [surrogateescape]). *)

(** The value of a continuation byte of UTF-8. *)
Definition continuation (c : ascii) : option N :=
  let b := N_of_ascii c in
  if ((128 <=? b) && (b <? 192))%N then Some (b - 128)%N else None.

(** [cp] is a character that needs a sequence as long as the one it was
    read from: at least [least], no surrogate, at most U+10FFFF. *)
Definition scalar (least cp : N) : bool :=
  ((least <=? cp) && (cp <=? 1114111)
   && negb ((55296 <=? cp) && (cp <=? 57343)))%N.

(** The surrogate Python reads an undecodable byte as. *)
Definition escaped_byte (c : ascii) : N * string :=
  ((56320 + N_of_ascii c)%N, String c EmptyString).

(** The characters of a string: the code point of each, with its
    bytes. *)
Fixpoint decode (l : list ascii) : list (N * string) :=
  match l with
  | [] => []
  | c0 :: r0 =>
      let b0 := N_of_ascii c0 in
      if (b0 <? 128)%N then (b0, String c0 EmptyString) :: decode r0
      else if (b0 <? 192)%N then escaped_byte c0 :: decode r0
      else if (b0 <? 224)%N then
        match r0 with
        | c1 :: r1 =>
            match continuation c1 with
            | Some v1 =>
                let cp := ((b0 - 192) * 64 + v1)%N in
                if scalar 128 cp
                then (cp, String c0 (String c1 EmptyString)) :: decode r1
                else escaped_byte c0 :: decode r0
            | None => escaped_byte c0 :: decode r0
            end
        | [] => escaped_byte c0 :: decode r0
        end
      else if (b0 <? 240)%N then
        match r0 with
        | c1 :: c2 :: r2 =>
            match continuation c1, continuation c2 with
            | Some v1, Some v2 =>
                let cp := (((b0 - 224) * 64 + v1) * 64 + v2)%N in
                if scalar 2048 cp
                then (cp, String c0 (String c1 (String c2 EmptyString)))
                     :: decode r2
                else escaped_byte c0 :: decode r0
            | _, _ => escaped_byte c0 :: decode r0
            end
        | _ => escaped_byte c0 :: decode r0
        end
      else if (b0 <? 248)%N then
        match r0 with
        | c1 :: c2 :: c3 :: r3 =>
            match continuation c1, continuation c2, continuation c3 with
            | Some v1, Some v2, Some v3 =>
                let cp := ((((b0 - 240) * 64 + v1) * 64 + v2) * 64 + v3)%N in
                if scalar 65536 cp
                then (cp, String c0 (String c1 (String c2
                                                  (String c3 EmptyString))))
                     :: decode r3
                else escaped_byte c0 :: decode r0
            | _, _, _ => escaped_byte c0 :: decode r0
            end
        | _ => escaped_byte c0 :: decode r0
        end
      else escaped_byte c0 :: decode r0
  end.

Definition chars (s : string) : list (N * string) :=
  decode (list_ascii_of_string s).

(** The run of [table] that holds [cp], by its first code point. *)
Fixpoint run_of (cp : N) (table : list (N * N)) : option N :=
  match table with
  | [] => None
  | (first, last) :: r =>
      if ((first <=? cp) && (cp <=? last))%N then Some first
      else run_of cp r
  end.

(** The decimal digits above U+007F (Unicode 14.0, as in CPython 3.11): runs
    of code points, each run starting at a digit zero and counting 0 to 9
    again and again. *)
Definition decimal_ranges : list (N * N) :=
  [(1632, 1641); (1776, 1785); (1984, 1993); (2406, 2415); (2534, 2543);
   (2662, 2671); (2790, 2799); (2918, 2927); (3046, 3055); (3174, 3183);
   (3302, 3311); (3430, 3439); (3558, 3567); (3664, 3673); (3792, 3801);
   (3872, 3881); (4160, 4169); (4240, 4249); (6112, 6121); (6160, 6169);
   (6470, 6479); (6608, 6617); (6784, 6793); (6800, 6809); (6992, 7001);
   (7088, 7097); (7232, 7241); (7248, 7257); (42528, 42537); (43216, 43225);
   (43264, 43273); (43472, 43481); (43504, 43513); (43600, 43609);
   (44016, 44025); (65296, 65305); (66720, 66729); (68912, 68921);
   (69734, 69743); (69872, 69881); (69942, 69951); (70096, 70105);
   (70384, 70393); (70736, 70745); (70864, 70873); (71248, 71257);
   (71360, 71369); (71472, 71481); (71904, 71913); (72016, 72025);
   (72784, 72793); (73040, 73049); (73120, 73129); (92768, 92777);
   (92864, 92873); (93008, 93017); (120782, 120831); (123200, 123209);
   (123632, 123641); (125264, 125273); (130032, 130041)]%N.

(** The white-space characters above U+007F. *)
Definition blank_ranges : list (N * N) :=
  [(133, 133); (160, 160); (5760, 5760); (8192, 8202); (8232, 8233);
   (8239, 8239); (8287, 8287); (12288, 12288)]%N.

(** The code points above U+007F that [repr] escapes ([str.isprintable] is
    false): controls, formats, separators, surrogates, private use and
    unassigned code points. *)
Definition unprintable_ranges : list (N * N) :=
  [(128, 160); (173, 173); (888, 889); (896, 899); (907, 907); (909, 909);
   (930, 930); (1328, 1328); (1367, 1368); (1419, 1420); (1424, 1424);
   (1480, 1487); (1515, 1518); (1525, 1541); (1564, 1564); (1757, 1757);
   (1806, 1807); (1867, 1868); (1970, 1983); (2043, 2044); (2094, 2095);
   (2111, 2111); (2140, 2141); (2143, 2143); (2155, 2159); (2191, 2199);
   (2274, 2274); (2436, 2436); (2445, 2446); (2449, 2450); (2473, 2473);
   (2481, 2481); (2483, 2485); (2490, 2491); (2501, 2502); (2505, 2506);
   (2511, 2518); (2520, 2523); (2526, 2526); (2532, 2533); (2559, 2560);
   (2564, 2564); (2571, 2574); (2577, 2578); (2601, 2601); (2609, 2609);
   (2612, 2612); (2615, 2615); (2618, 2619); (2621, 2621); (2627, 2630);
   (2633, 2634); (2638, 2640); (2642, 2648); (2653, 2653); (2655, 2661);
   (2679, 2688); (2692, 2692); (2702, 2702); (2706, 2706); (2729, 2729);
   (2737, 2737); (2740, 2740); (2746, 2747); (2758, 2758); (2762, 2762);
   (2766, 2767); (2769, 2783); (2788, 2789); (2802, 2808); (2816, 2816);
   (2820, 2820); (2829, 2830); (2833, 2834); (2857, 2857); (2865, 2865);
   (2868, 2868); (2874, 2875); (2885, 2886); (2889, 2890); (2894, 2900);
   (2904, 2907); (2910, 2910); (2916, 2917); (2936, 2945); (2948, 2948);
   (2955, 2957); (2961, 2961); (2966, 2968); (2971, 2971); (2973, 2973);
   (2976, 2978); (2981, 2983); (2987, 2989); (3002, 3005); (3011, 3013);
   (3017, 3017); (3022, 3023); (3025, 3030); (3032, 3045); (3067, 3071);
   (3085, 3085); (3089, 3089); (3113, 3113); (3130, 3131); (3141, 3141);
   (3145, 3145); (3150, 3156); (3159, 3159); (3163, 3164); (3166, 3167);
   (3172, 3173); (3184, 3190); (3213, 3213); (3217, 3217); (3241, 3241);
   (3252, 3252); (3258, 3259); (3269, 3269); (3273, 3273); (3278, 3284);
   (3287, 3292); (3295, 3295); (3300, 3301); (3312, 3312); (3315, 3327);
   (3341, 3341); (3345, 3345); (3397, 3397); (3401, 3401); (3408, 3411);
   (3428, 3429); (3456, 3456); (3460, 3460); (3479, 3481); (3506, 3506);
   (3516, 3516); (3518, 3519); (3527, 3529); (3531, 3534); (3541, 3541);
   (3543, 3543); (3552, 3557); (3568, 3569); (3573, 3584); (3643, 3646);
   (3676, 3712); (3715, 3715); (3717, 3717); (3723, 3723); (3748, 3748);
   (3750, 3750); (3774, 3775); (3781, 3781); (3783, 3783); (3790, 3791);
   (3802, 3803); (3808, 3839); (3912, 3912); (3949, 3952); (3992, 3992);
   (4029, 4029); (4045, 4045); (4059, 4095); (4294, 4294); (4296, 4300);
   (4302, 4303); (4681, 4681); (4686, 4687); (4695, 4695); (4697, 4697);
   (4702, 4703); (4745, 4745); (4750, 4751); (4785, 4785); (4790, 4791);
   (4799, 4799); (4801, 4801); (4806, 4807); (4823, 4823); (4881, 4881);
   (4886, 4887); (4955, 4956); (4989, 4991); (5018, 5023); (5110, 5111);
   (5118, 5119); (5760, 5760); (5789, 5791); (5881, 5887); (5910, 5918);
   (5943, 5951); (5972, 5983); (5997, 5997); (6001, 6001); (6004, 6015);
   (6110, 6111); (6122, 6127); (6138, 6143); (6158, 6158); (6170, 6175);
   (6265, 6271); (6315, 6319); (6390, 6399); (6431, 6431); (6444, 6447);
   (6460, 6463); (6465, 6467); (6510, 6511); (6517, 6527); (6572, 6575);
   (6602, 6607); (6619, 6621); (6684, 6685); (6751, 6751); (6781, 6782);
   (6794, 6799); (6810, 6815); (6830, 6831); (6863, 6911); (6989, 6991);
   (7039, 7039); (7156, 7163); (7224, 7226); (7242, 7244); (7305, 7311);
   (7355, 7356); (7368, 7375); (7419, 7423); (7958, 7959); (7966, 7967);
   (8006, 8007); (8014, 8015); (8024, 8024); (8026, 8026); (8028, 8028);
   (8030, 8030); (8062, 8063); (8117, 8117); (8133, 8133); (8148, 8149);
   (8156, 8156); (8176, 8177); (8181, 8181); (8191, 8207); (8232, 8239);
   (8287, 8303); (8306, 8307); (8335, 8335); (8349, 8351); (8385, 8399);
   (8433, 8447); (8588, 8591); (9255, 9279); (9291, 9311); (11124, 11125);
   (11158, 11158); (11508, 11512); (11558, 11558); (11560, 11564);
   (11566, 11567); (11624, 11630); (11633, 11646); (11671, 11679);
   (11687, 11687); (11695, 11695); (11703, 11703); (11711, 11711);
   (11719, 11719); (11727, 11727); (11735, 11735); (11743, 11743);
   (11870, 11903); (11930, 11930); (12020, 12031); (12246, 12271);
   (12284, 12288); (12352, 12352); (12439, 12440); (12544, 12548);
   (12592, 12592); (12687, 12687); (12772, 12783); (12831, 12831);
   (42125, 42127); (42183, 42191); (42540, 42559); (42744, 42751);
   (42955, 42959); (42962, 42962); (42964, 42964); (42970, 42993);
   (43053, 43055); (43066, 43071); (43128, 43135); (43206, 43213);
   (43226, 43231); (43348, 43358); (43389, 43391); (43470, 43470);
   (43482, 43485); (43519, 43519); (43575, 43583); (43598, 43599);
   (43610, 43611); (43715, 43738); (43767, 43776); (43783, 43784);
   (43791, 43792); (43799, 43807); (43815, 43815); (43823, 43823);
   (43884, 43887); (44014, 44015); (44026, 44031); (55204, 55215);
   (55239, 55242); (55292, 63743); (64110, 64111); (64218, 64255);
   (64263, 64274); (64280, 64284); (64311, 64311); (64317, 64317);
   (64319, 64319); (64322, 64322); (64325, 64325); (64451, 64466);
   (64912, 64913); (64968, 64974); (64976, 65007); (65050, 65055);
   (65107, 65107); (65127, 65127); (65132, 65135); (65141, 65141);
   (65277, 65280); (65471, 65473); (65480, 65481); (65488, 65489);
   (65496, 65497); (65501, 65503); (65511, 65511); (65519, 65531);
   (65534, 65535); (65548, 65548); (65575, 65575); (65595, 65595);
   (65598, 65598); (65614, 65615); (65630, 65663); (65787, 65791);
   (65795, 65798); (65844, 65846); (65935, 65935); (65949, 65951);
   (65953, 65999); (66046, 66175); (66205, 66207); (66257, 66271);
   (66300, 66303); (66340, 66348); (66379, 66383); (66427, 66431);
   (66462, 66462); (66500, 66503); (66518, 66559); (66718, 66719);
   (66730, 66735); (66772, 66775); (66812, 66815); (66856, 66863);
   (66916, 66926); (66939, 66939); (66955, 66955); (66963, 66963);
   (66966, 66966); (66978, 66978); (66994, 66994); (67002, 67002);
   (67005, 67071); (67383, 67391); (67414, 67423); (67432, 67455);
   (67462, 67462); (67505, 67505); (67515, 67583); (67590, 67591);
   (67593, 67593); (67638, 67638); (67641, 67643); (67645, 67646);
   (67670, 67670); (67743, 67750); (67760, 67807); (67827, 67827);
   (67830, 67834); (67868, 67870); (67898, 67902); (67904, 67967);
   (68024, 68027); (68048, 68049); (68100, 68100); (68103, 68107);
   (68116, 68116); (68120, 68120); (68150, 68151); (68155, 68158);
   (68169, 68175); (68185, 68191); (68256, 68287); (68327, 68330);
   (68343, 68351); (68406, 68408); (68438, 68439); (68467, 68471);
   (68498, 68504); (68509, 68520); (68528, 68607); (68681, 68735);
   (68787, 68799); (68851, 68857); (68904, 68911); (68922, 69215);
   (69247, 69247); (69290, 69290); (69294, 69295); (69298, 69375);
   (69416, 69423); (69466, 69487); (69514, 69551); (69580, 69599);
   (69623, 69631); (69710, 69713); (69750, 69758); (69821, 69821);
   (69827, 69839); (69865, 69871); (69882, 69887); (69941, 69941);
   (69960, 69967); (70007, 70015); (70112, 70112); (70133, 70143);
   (70162, 70162); (70207, 70271); (70279, 70279); (70281, 70281);
   (70286, 70286); (70302, 70302); (70314, 70319); (70379, 70383);
   (70394, 70399); (70404, 70404); (70413, 70414); (70417, 70418);
   (70441, 70441); (70449, 70449); (70452, 70452); (70458, 70458);
   (70469, 70470); (70473, 70474); (70478, 70479); (70481, 70486);
   (70488, 70492); (70500, 70501); (70509, 70511); (70517, 70655);
   (70748, 70748); (70754, 70783); (70856, 70863); (70874, 71039);
   (71094, 71095); (71134, 71167); (71237, 71247); (71258, 71263);
   (71277, 71295); (71354, 71359); (71370, 71423); (71451, 71452);
   (71468, 71471); (71495, 71679); (71740, 71839); (71923, 71934);
   (71943, 71944); (71946, 71947); (71956, 71956); (71959, 71959);
   (71990, 71990); (71993, 71994); (72007, 72015); (72026, 72095);
   (72104, 72105); (72152, 72153); (72165, 72191); (72264, 72271);
   (72355, 72367); (72441, 72703); (72713, 72713); (72759, 72759);
   (72774, 72783); (72813, 72815); (72848, 72849); (72872, 72872);
   (72887, 72959); (72967, 72967); (72970, 72970); (73015, 73017);
   (73019, 73019); (73022, 73022); (73032, 73039); (73050, 73055);
   (73062, 73062); (73065, 73065); (73103, 73103); (73106, 73106);
   (73113, 73119); (73130, 73439); (73465, 73647); (73649, 73663);
   (73714, 73726); (74650, 74751); (74863, 74863); (74869, 74879);
   (75076, 77711); (77811, 77823); (78895, 82943); (83527, 92159);
   (92729, 92735); (92767, 92767); (92778, 92781); (92863, 92863);
   (92874, 92879); (92910, 92911); (92918, 92927); (92998, 93007);
   (93018, 93018); (93026, 93026); (93048, 93052); (93072, 93759);
   (93851, 93951); (94027, 94030); (94088, 94094); (94112, 94175);
   (94181, 94191); (94194, 94207); (100344, 100351); (101590, 101631);
   (101641, 110575); (110580, 110580); (110588, 110588); (110591, 110591);
   (110883, 110927); (110931, 110947); (110952, 110959); (111356, 113663);
   (113771, 113775); (113789, 113791); (113801, 113807); (113818, 113819);
   (113824, 118527); (118574, 118575); (118599, 118607); (118724, 118783);
   (119030, 119039); (119079, 119080); (119155, 119162); (119275, 119295);
   (119366, 119519); (119540, 119551); (119639, 119647); (119673, 119807);
   (119893, 119893); (119965, 119965); (119968, 119969); (119971, 119972);
   (119975, 119976); (119981, 119981); (119994, 119994); (119996, 119996);
   (120004, 120004); (120070, 120070); (120075, 120076); (120085, 120085);
   (120093, 120093); (120122, 120122); (120127, 120127); (120133, 120133);
   (120135, 120137); (120145, 120145); (120486, 120487); (120780, 120781);
   (121484, 121498); (121504, 121504); (121520, 122623); (122655, 122879);
   (122887, 122887); (122905, 122906); (122914, 122914); (122917, 122917);
   (122923, 123135); (123181, 123183); (123198, 123199); (123210, 123213);
   (123216, 123535); (123567, 123583); (123642, 123646); (123648, 124895);
   (124903, 124903); (124908, 124908); (124911, 124911); (124927, 124927);
   (125125, 125126); (125143, 125183); (125260, 125263); (125274, 125277);
   (125280, 126064); (126133, 126208); (126270, 126463); (126468, 126468);
   (126496, 126496); (126499, 126499); (126501, 126502); (126504, 126504);
   (126515, 126515); (126520, 126520); (126522, 126522); (126524, 126529);
   (126531, 126534); (126536, 126536); (126538, 126538); (126540, 126540);
   (126544, 126544); (126547, 126547); (126549, 126550); (126552, 126552);
   (126554, 126554); (126556, 126556); (126558, 126558); (126560, 126560);
   (126563, 126563); (126565, 126566); (126571, 126571); (126579, 126579);
   (126584, 126584); (126589, 126589); (126591, 126591); (126602, 126602);
   (126620, 126624); (126628, 126628); (126634, 126634); (126652, 126703);
   (126706, 126975); (127020, 127023); (127124, 127135); (127151, 127152);
   (127168, 127168); (127184, 127184); (127222, 127231); (127406, 127461);
   (127491, 127503); (127548, 127551); (127561, 127567); (127570, 127583);
   (127590, 127743); (128728, 128732); (128749, 128751); (128765, 128767);
   (128884, 128895); (128985, 128991); (129004, 129007); (129009, 129023);
   (129036, 129039); (129096, 129103); (129114, 129119); (129160, 129167);
   (129198, 129199); (129202, 129279); (129620, 129631); (129646, 129647);
   (129653, 129655); (129661, 129663); (129671, 129679); (129709, 129711);
   (129723, 129727); (129734, 129743); (129754, 129759); (129768, 129775);
   (129783, 129791); (129939, 129939); (129995, 130031); (130042, 131071);
   (173792, 173823); (177977, 177983); (178206, 178207); (183970, 183983);
   (191457, 194559); (195102, 196607); (201547, 917759); (918000, 1114111)]%N.

(** *** [int(s)]

    The literals of [int] in base 10, as CPython 3.11 reads a [str]:
    blanks around, one sign, decimal digits of any script with single
    underscores between two digits, and at most 4300 digits. *)

(** What [int] takes a character for. Below U+007F: the ten digits, the
    blanks 9 to 13 and 32 (not 28 to 31), the signs and the underscore.
    Above: the white space and the decimal digits of Unicode. *)
Inductive LitChar : Type :=
| Digit (d : Z)
| Blank
| Plus
| Minus
| Underscore
| Other.

Definition lit_char (cp : N) : LitChar :=
  if (cp <? 128)%N then
    if ((48 <=? cp) && (cp <=? 57))%N then Digit (Z.of_N (cp - 48))
    else if (((9 <=? cp) && (cp <=? 13)) || (cp =? 32))%N then Blank
    else if (cp =? 43)%N then Plus
    else if (cp =? 45)%N then Minus
    else if (cp =? 95)%N then Underscore
    else Other
  else
    match run_of cp blank_ranges with
    | Some _ => Blank
    | None =>
        match run_of cp decimal_ranges with
        | Some zero => Digit (Z.of_N ((cp - zero) mod 10))
        | None => Other
        end
    end.

Fixpoint skip_blanks (l : list LitChar) : list LitChar :=
  match l with
  | Blank :: r => skip_blanks r
  | _ => l
  end.

(** The digits of a literal, from the left: the value, the number of
    digits and what follows them, or [None] at two underscores in a row
    and at an underscore that ends the digits. *)
Fixpoint scan_digits (acc : Z) (count : N) (after_underscore : bool)
    (l : list LitChar) : option (Z * N * list LitChar) :=
  match l with
  | Digit d :: r => scan_digits (10 * acc + d) (count + 1) false r
  | Underscore :: r =>
      if after_underscore then None else scan_digits acc count true r
  | _ => if after_underscore then None else Some (acc, count, l)
  end.

(** The cap on the number of digits ([sys.int_info.default_max_str_digits]). *)
Definition max_str_digits : N := 4300.

(** How [int] ends on a [str]. *)
Inductive IntResult : Type :=
| IntValue (n : Z)
| InvalidLiteral
| TooManyDigits (count : N).

(** After the sign. *)
Definition unsigned_literal (l : list LitChar) : IntResult :=
  match l with
  | Underscore :: _ => InvalidLiteral
  | _ =>
      match scan_digits 0 0 false l with
      | None => InvalidLiteral
      | Some (n, count, rest) =>
          if (max_str_digits <? count)%N then TooManyDigits count
          else if (count =? 0)%N then InvalidLiteral
          else match skip_blanks rest with
               | [] => IntValue n
               | _ => InvalidLiteral
               end
      end
  end.

Definition negated (r : IntResult) : IntResult :=
  match r with IntValue n => IntValue (- n) | _ => r end.

Definition literal (s : string) : IntResult :=
  match skip_blanks (map (fun c => lit_char (fst c)) (chars s)) with
  | Plus :: r => unsigned_literal r
  | Minus :: r => negated (unsigned_literal r)
  | l => unsigned_literal l
  end.

(** [int(s)] where it returns. *)
Definition to_Z (s : string) : option Z :=
  match literal s with IntValue n => Some n | _ => None end.

(** *** [repr(s)] *)

Definition hex_digit (n : N) : ascii :=
  if (n <? 10)%N then ascii_of_N (48 + n) else ascii_of_N (87 + n).

(** [width] hexadecimal digits of [n], lower case. *)
Fixpoint hex (width : nat) (n : N) : string :=
  match width with
  | O => EmptyString
  | S k => hex k (n / 16) ++ String (hex_digit (n mod 16)) EmptyString
  end.

(** What [repr] prints for one character inside the quotes [quote], as
    the list of the characters printed. *)
Definition repr_char (quote : N) (c : N * string) : list string :=
  let '(cp, bytes) := c in
  let one (x : string) := [x] in
  let escaped (x : string) := map (fun a => String a EmptyString)
                                  (list_ascii_of_string x) in
  if ((cp =? 92) || (cp =? quote))%N then escaped ("\" ++ bytes)
  else if (cp =? 9)%N then escaped "\t"
  else if (cp =? 10)%N then escaped "\n"
  else if (cp =? 13)%N then escaped "\r"
  else if ((cp <? 32) || (cp =? 127))%N then escaped ("\x" ++ hex 2 cp)
  else if (cp <? 127)%N then one bytes
  else
    match run_of cp unprintable_ranges with
    | None => one bytes
    | Some _ =>
        if (cp <=? 255)%N then escaped ("\x" ++ hex 2 cp)
        else if (cp <=? 65535)%N then escaped ("\u" ++ hex 4 cp)
        else escaped ("\U" ++ hex 8 cp)
    end.

(** The characters of [repr(s)]: single quotes, unless [s] has a single
    quote and no double quote. *)
Definition repr_chars (s : string) : list string :=
  let cs := chars s in
  let has (q : N) := existsb (fun c => (fst c =? q)%N) cs in
  let quote := if (has 39%N && negb (has 34%N))%bool then 34%N else 39%N in
  let q := String (ascii_of_N quote) EmptyString in
  ([q] ++ flat_map (repr_char quote) cs ++ [q])%list.

Definition repr (s : string) : string := String.concat "" (repr_chars s).

(** *** The [ValueError] of [int] *)

(** The text of the exception: the literal by [%.200R], or the count of
    the digits. *)
Definition int_error (s : string) (r : IntResult) : string :=
  match r with
  | TooManyDigits count =>
      "Exceeds the limit (4300 digits) for integer string conversion: value has "
      ++ NilZero.string_of_uint (N.to_uint count)
      ++ " digits; use sys.set_int_max_str_digits() to increase the limit"
  | _ =>
      "invalid literal for int() with base 10: "
      ++ String.concat "" (firstn 200 (repr_chars s))
  end.

End PyStr.

(* ================================================================== *)
(** ** Tensors and Python objects *)

(** Element types of [torch.Tensor]. *)
Inductive dtype : Type :=
| float16 | bfloat16 | float32 | float64
| float8_e4m3fn | float8_e5m2
| complex64 | complex128
| uint8 | int8 | int16 | int32 | int64 | bool_.

Definition dtype_eqb (a b : dtype) : bool :=
  match a, b with
  | float16, float16 | bfloat16, bfloat16 | float32, float32
  | float64, float64 | float8_e4m3fn, float8_e4m3fn
  | float8_e5m2, float8_e5m2 | complex64, complex64
  | complex128, complex128 | uint8, uint8 | int8, int8 | int16, int16
  | int32, int32 | int64, int64 | bool_, bool_ => true
  | _, _ => false
  end.

(** [str(dtype)]. *)
Definition dtype_str (d : dtype) : string :=
  match d with
  | float16 => "torch.float16" | bfloat16 => "torch.bfloat16"
  | float32 => "torch.float32" | float64 => "torch.float64"
  | float8_e4m3fn => "torch.float8_e4m3fn"
  | float8_e5m2 => "torch.float8_e5m2"
  | complex64 => "torch.complex64" | complex128 => "torch.complex128"
  | uint8 => "torch.uint8" | int8 => "torch.int8" | int16 => "torch.int16"
  | int32 => "torch.int32" | int64 => "torch.int64" | bool_ => "torch.bool"
  end.

(** What the converter observes of a tensor: its shape, its element type
    and whether its memory layout is contiguous. *)
Record Tensor : Type := mkTensor {
  shape : list Z;
  dtype_of : dtype;
  is_contiguous : bool
}.

(** [tensor.numel()]. *)
Definition numel (t : Tensor) : Z := fold_right Z.mul 1 (shape t).

(** [tensor.float()]: same shape, element type float32. *)
Definition float_ (t : Tensor) : Tensor :=
  {| shape := shape t; dtype_of := float32; is_contiguous := is_contiguous t |}.

(** [tensor.contiguous()]. *)
Definition contiguous (t : Tensor) : Tensor :=
  {| shape := shape t; dtype_of := dtype_of t; is_contiguous := true |}.

(** A deserialized Python value. A [dict] keeps its entries in insertion
    order; an [PyObject] is any other object (a module, a custom class),
    known by its class name and an identifier, whose methods are answered
    by the [World]. *)
Inductive PyObj : Type :=
| PyNone
| PyInt (n : Z)
| PyString (s : string)
| PyTensor (t : Tensor)
| PyDict (entries : list (string * PyObj))
| PyObject (cls : string) (id : N).

Definition is_None (o : PyObj) : bool :=
  match o with PyNone => true | _ => false end.

(** [isinstance(o, torch.Tensor)]. *)
Definition is_tensor (o : PyObj) : bool :=
  match o with PyTensor _ => true | _ => false end.

(** The name of the type of [o] when [o] is an instance of the built-in
    type itself, not of a subclass. *)
Definition exact_type_name (o : PyObj) : string :=
  match o with
  | PyNone => "NoneType"
  | PyInt _ => "int"
  | PyString _ => "str"
  | PyTensor _ => "Tensor"
  | PyDict _ => "dict"
  | PyObject cls _ => cls
  end.

Module Dict.
Section Dict.
Context {V : Type}.

(** [d.get(k)]: the value stored under [k], if any. *)
Fixpoint get (k : string) (d : list (string * V)) : option V :=
  match d with
  | [] => None
  | (k', v) :: r => if String.eqb k k' then Some v else get k r
  end.

(** [k in d]. *)
Definition mem (k : string) (d : list (string * V)) : bool :=
  match get k d with Some _ => true | None => false end.

(** [d[k] = v]: overwrite in place, or append a new entry. *)
Fixpoint set (k : string) (v : V) (d : list (string * V))
  : list (string * V) :=
  match d with
  | [] => [(k, v)]
  | (k', v') :: r =>
      if String.eqb k k' then (k', v) :: r else (k', v') :: set k v r
  end.

Definition keys (d : list (string * V)) : list string := map fst d.
Definition values (d : list (string * V)) : list V := map snd d.
End Dict.
End Dict.

(* ================================================================== *)
(** ** Events, metadata and external calls *)

(** One entry of [layer_info]: the name, shape and dtype label recorded for
    a retained tensor. *)
Record LayerInfo : Type := mkLayer {
  name : string;
  layer_shape : list Z;
  layer_dtype : string
}.

(** The metadata dictionary [convert_to_coreml] returns. *)
Record CoremlMetadata : Type := mkCoremlMetadata {
  cm_inputShape : list Z;
  cm_format : string;
  cm_computeUnits : string;
  cm_deploymentTarget : string
}.

(** The sidecar document [convert_to_mlx] writes next to the archive. *)
Record MlxMetadata : Type := mkMlxMetadata {
  inputShape : list Z;
  format : string;
  layerCount : Z;
  layers : list LayerInfo;
  architectureType : string;
  totalParameters : Z
}.

(** The reduced dictionary [convert_to_mlx] returns. *)
Record MlxSummary : Type := mkMlxSummary {
  ms_inputShape : list Z;
  ms_format : string;
  ms_architectureType : string;
  ms_layerCount : Z;
  ms_totalParameters : Z
}.

Inductive Metadata : Type :=
| OfCoreml (m : CoremlMetadata)
| OfMlx (m : MlxSummary).

(** The JSON lines of the protocol, by their ["type"] tag. *)
Inductive Event : Type :=
| Log (level message : string)
| Progress (percent : float) (step : string)
| Completed (outputPath fmt : string) (metadata : Metadata)
| Error (message code : string).

(** The result of [torch.jit.trace] or [torch.jit.script]. *)
Inductive ScriptModule : Type :=
| Traced (model : PyObj) (input_shape : list Z)
| Scripted (model : PyObj).

Inductive ColorLayout : Type := RGB | GRAYSCALE.

Inductive InputType : Type :=
| ImageType (nm : string) (shp : list Z) (channel_first : bool)
            (color_layout : ColorLayout)
| TensorType (nm : string) (shp : list Z).

(** The calls the script makes into its libraries. *)
Inductive ExtCall : Type :=
| Import (module : string)
| TorchLoad (path : string) (weights_only : bool)
| ModelEval (model : PyObj)
| JitTrace (model : PyObj) (input_shape : list Z)
| JitScript (model : PyObj)
| StateDict (model : PyObj)
| Items (o : PyObj)
| CtInputType (ty : InputType)
| CtConvert (traced : ScriptModule) (ty : InputType)
| MlmodelAnnotate (author short_description : string)
| MlmodelSave (path : string)
| SaveFile (tensors : list (string * Tensor)) (path : string)
| WithSuffix (path suffix : string)
| JsonDump (path : string) (metadata : MlxMetadata).

Inductive Effect : Type :=
| Emit (e : Event)
| Call (c : ExtCall).

(* ================================================================== *)
(** ** Exceptions and the script monad *)

(** The exception classes the script tells apart. [Exception] stands for
    every subclass of Python's [Exception] other than [ImportError]. *)
Inductive exn : Type :=
| ImportError (msg : string)
| Exception (msg : string)
| KeyboardInterrupt
| SystemExit (code : Z).

(** [isinstance(e, Exception)]. *)
Definition is_Exception (e : exn) : bool :=
  match e with
  | ImportError _ | Exception _ => true
  | KeyboardInterrupt | SystemExit _ => false
  end.

(** [str(e)]. *)
Definition str (e : exn) : string :=
  match e with
  | ImportError m | Exception m => m
  | KeyboardInterrupt => ""
  | SystemExit c => PyStr.of_Z c
  end.

Inductive outcome (A : Type) : Type :=
| Returns (a : A)
| Raises (e : exn).
Arguments Returns {A} a.
Arguments Raises {A} e.

(** A computation: the effects it performed, in order, and how it ended. *)
Definition M (A : Type) : Type := (list Effect * outcome A)%type.

Definition ret {A} (a : A) : M A := ([], Returns a).

Definition bind {A B} (m : M A) (f : A -> M B) : M B :=
  match m with
  | (t, Returns a) => let '(t', r) := f a in ((t ++ t')%list, r)
  | (t, Raises e) => (t, Raises e)
  end.

Definition raise {A} (e : exn) : M A := ([], Raises e).

(** An external call: recorded in the trace, answered by the world. *)
Definition call {A} (c : ExtCall) (answer : outcome A) : M A :=
  ([Call c], answer).

(** [try: m  except ...: handler]. The handler says, by returning [Some],
    which exceptions its clauses catch; what a clause raises is not
    handled again. *)
Definition try_except {A} (m : M A) (handler : exn -> option (M A)) : M A :=
  match m with
  | (t, Returns a) => (t, Returns a)
  | (t, Raises e) =>
      match handler e with
      | Some h => let '(t', r) := h in ((t ++ t')%list, r)
      | None => (t, Raises e)
      end
  end.

Definition except_Exception {A} (h : exn -> M A) (e : exn) : option (M A) :=
  if is_Exception e then Some (h e) else None.

Definition except_ImportError {A} (h : M A) (e : exn) : option (M A) :=
  match e with ImportError _ => Some h | _ => None end.

(** [sys.exit(code)]. *)
Definition sys_exit {A} (code : Z) : M A := raise (SystemExit code).

Declare Scope script_scope.
Delimit Scope script_scope with script.
Notation "x <- m ;; k" := (bind m (fun x => k))
  (at level 61, m at next level, right associativity) : script_scope.
Notation "' p <- m ;; k" := (bind m (fun x => match x with p => k end))
  (at level 61, p pattern, m at next level, right associativity)
  : script_scope.
Notation "m ;; k" := (bind m (fun _ => k))
  (at level 61, right associativity) : script_scope.
Local Open Scope script_scope.

(** *** The event emitter *)

Definition emit (e : Event) : M unit := ([Emit e], Returns tt).

Definition log (level message : string) : M unit := emit (Log level message).

Definition progress (percent : float) (step : string) : M unit :=
  emit (Progress percent step).

Definition completed (output_path fmt : string) (metadata : Metadata)
  : M unit :=
  emit (Completed output_path fmt metadata).

Definition error (message code : string) : M unit :=
  emit (Error message code).

(* ================================================================== *)
(** ** The world *)

(** What the libraries answer. Each field is the outcome of one kind of
    call, as a function of the call's arguments. *)
Record World : Type := mkWorld {
  class_name : PyObj -> string;
  import_module : string -> outcome unit;
  torch_load : string -> bool -> outcome PyObj;
  model_eval : PyObj -> outcome unit;
  jit_trace : PyObj -> list Z -> outcome unit;
  jit_script : PyObj -> outcome unit;
  has_state_dict : PyObj -> bool;
  state_dict_of : PyObj -> outcome PyObj;
  items_of : PyObj -> outcome (list (string * PyObj));
  ct_input_type : InputType -> outcome unit;
  ct_convert : ScriptModule -> InputType -> outcome unit;
  mlmodel_annotate : string -> string -> outcome unit;
  mlmodel_save : string -> outcome unit;
  path_str : string -> string;
  save_file : list (string * Tensor) -> string -> outcome unit;
  with_suffix : string -> string -> outcome string;
  json_dump : string -> MlxMetadata -> outcome unit
}.

(** The name of the type of [o] as an [AttributeError] prints it. A
    mapping, a tensor, an integer or a string can be an instance of a
    subclass ([collections.OrderedDict], [Parameter], [bool]), which the
    value does not record: the world tells its name. *)
Definition type_name (w : World) (o : PyObj) : string :=
  match o with
  | PyNone => "NoneType"
  | PyObject cls _ => cls
  | _ => class_name w o
  end.

Definition AttributeError (w : World) (o : PyObj) (attr : string) : exn :=
  Exception ("'" ++ type_name w o ++ "' object has no attribute '" ++ attr
             ++ "'").

(** [hasattr(o, "state_dict")]: none of the built-in values has it. *)
Definition py_hasattr_state_dict (w : World) (o : PyObj) : bool :=
  match o with
  | PyObject _ _ => has_state_dict w o
  | _ => false
  end.

(** [o.state_dict()]. *)
Definition py_state_dict (w : World) (o : PyObj) : M PyObj :=
  match o with
  | PyObject _ _ => call (StateDict o) (state_dict_of w o)
  | _ => raise (AttributeError w o "state_dict")
  end.

(** [o.eval()]. *)
Definition py_eval (w : World) (o : PyObj) : M unit :=
  match o with
  | PyObject _ _ => call (ModelEval o) (model_eval w o)
  | _ => raise (AttributeError w o "eval")
  end.

(** [o.items()]: the entries of a dict, in order. *)
Definition py_items (w : World) (o : PyObj) : M (list (string * PyObj)) :=
  match o with
  | PyDict d => ret d
  | PyObject _ _ => call (Items o) (items_of w o)
  | _ => raise (AttributeError w o "items")
  end.

(* ================================================================== *)
(** ** [load_pytorch_model] *)

(** What [load_pytorch_model] returns: [(traced_model, state_dict,
    checkpoint)], where [traced_model] is [None] or a script module. *)
Definition Loaded : Type := (option ScriptModule * PyObj * PyObj)%type.

(** The two attempts at [torch.load]: if the second fails as well, the
    error raised carries the message of the first. *)
Definition load_checkpoint (w : World) (model_path : string) : M PyObj :=
  try_except
    (call (TorchLoad model_path false) (torch_load w model_path false))
    (except_Exception (fun e =>
       try_except
         (call (TorchLoad model_path true) (torch_load w model_path true))
         (except_Exception (fun _ =>
            raise (Exception ("Failed to load model: " ++ str e)))))).

(** "Handle different checkpoint formats": the values of the variables
    [(model, state_dict)] after the cascade over the checkpoint. *)
Definition classify_checkpoint (checkpoint : PyObj) : M (PyObj * PyObj) :=
  match checkpoint with
  | PyDict d =>
      match Dict.get "model" d with
      | Some m =>
          log "info" "Found 'model' key in checkpoint" ;;
          ret (m, PyNone)
      | None =>
          match Dict.get "state_dict" d with
          | Some sd =>
              log "info" "Found 'state_dict' key (model class required)" ;;
              ret (PyNone, sd)
          | None =>
              match Dict.get "model_state_dict" d with
              | Some sd =>
                  log "info"
                      "Found 'model_state_dict' key (model class required)" ;;
                  ret (PyNone, sd)
              | None =>
                  if forallb is_tensor (Dict.values d) then
                    log "info" "Checkpoint appears to be a state_dict" ;;
                    ret (PyNone, checkpoint)
                  else ret (checkpoint, PyNone)
              end
          end
      end
  | _ => ret (checkpoint, PyNone)
  end.

(** The fallback chain on a model that is not [None]: eval mode, tracing,
    scripting, then [model.state_dict()]. *)
Definition materialize (w : World) (model : PyObj) (input_shape : list Z)
    (checkpoint : PyObj) : M Loaded :=
  py_eval w model ;;
  log "info" ("Tracing model with input shape: " ++ PyStr.of_tuple input_shape) ;;
  progress 0.4 "Tracing model" ;;
  try_except
    (call (JitTrace model input_shape) (jit_trace w model input_shape) ;;
     log "info" "Model traced successfully" ;;
     ret (Some (Traced model input_shape), PyNone, checkpoint))
    (except_Exception (fun e =>
       log "warning" ("Tracing failed: " ++ str e) ;;
       log "info" "Attempting scripting instead..." ;;
       try_except
         (call (JitScript model) (jit_script w model) ;;
          log "info" "Model scripted successfully" ;;
          ret (Some (Scripted model), PyNone, checkpoint))
         (except_Exception (fun e2 =>
            log "warning" ("Scripting also failed: " ++ str e2) ;;
            if py_hasattr_state_dict w model then
              state_dict <- py_state_dict w model ;;
              log "info" "Extracted state_dict from model" ;;
              ret (None, state_dict, checkpoint)
            else
              raise (Exception ("Cannot process model: " ++ str e)))))).

Definition load_pytorch_model (w : World) (model_path : string)
    (input_shape : list Z) : M Loaded :=
  call (Import "torch") (import_module w "torch") ;;
  log "info" ("Loading PyTorch model from " ++ model_path) ;;
  progress 0.1 "Loading model" ;;
  checkpoint <- load_checkpoint w model_path ;;
  progress 0.2 "Analyzing checkpoint" ;;
  '(model, state_dict) <- classify_checkpoint checkpoint ;;
  progress 0.3 "Preparing model" ;;
  if (is_None model && negb (is_None state_dict))%bool then
    log "warning" "Checkpoint contains only weights (state_dict)" ;;
    log "info" "MLX conversion will proceed with raw weights" ;;
    ret (None, state_dict, checkpoint)
  else if negb (is_None model) then
    materialize w model input_shape checkpoint
  else
    raise (Exception "Could not extract model or state_dict from checkpoint").

(* ================================================================== *)
(** ** [convert_to_coreml] *)

(** The [except Exception] clause of the conversion: the error code is
    chosen by the lower-cased message. *)
Definition report_conversion_error {A} (e : exn) : M A :=
  let error_msg := str e in
  (if PyStr.contains "not supported" (PyStr.lower error_msg) then
     error ("Model contains unsupported operations: " ++ error_msg)
           "UNSUPPORTED_OP"
   else if PyStr.contains "shape" (PyStr.lower error_msg) then
     error ("Shape mismatch during conversion: " ++ error_msg)
           "SHAPE_MISMATCH"
   else
     error ("CoreML conversion failed: " ++ error_msg) "CONVERSION_FAILED") ;;
  sys_exit 1.

(** "Determine input type based on shape". *)
Definition choose_input_type (w : World) (input_shape : list Z)
  : M InputType :=
  let tensor_type :=
    let ty := TensorType "input" input_shape in
    call (CtInputType ty) (ct_input_type w ty) ;;
    log "info" ("Using TensorType input: " ++ PyStr.of_tuple input_shape) ;;
    ret ty in
  match input_shape with
  | [_; channels; height; width] =>
      if existsb (Z.eqb channels) [1; 3; 4] then
        let ty := ImageType "input" input_shape true
                    (if channels =? 3 then RGB else GRAYSCALE) in
        call (CtInputType ty) (ct_input_type w ty) ;;
        log "info" ("Using ImageType input: " ++ PyStr.of_Z channels ++ "ch "
                    ++ PyStr.of_Z height ++ "x" ++ PyStr.of_Z width) ;;
        ret ty
      else tensor_type
  | _ => tensor_type
  end.

(** The body of the [try] statement around the compiler: convert,
    annotate, save. *)
Definition compile_and_save (w : World) (traced_model : ScriptModule)
    (input_type : InputType) (input_shape : list Z)
    (output_path model_name : string) : M CoremlMetadata :=
  call (CtConvert traced_model input_type)
       (ct_convert w traced_model input_type) ;;
  progress 0.8 "Optimizing model" ;;
  (let author := "Performant3" in
   let short_description := "Converted from PyTorch: " ++ model_name in
   call (MlmodelAnnotate author short_description)
        (mlmodel_annotate w author short_description)) ;;
  progress 0.9 "Saving model" ;;
  log "info" ("Saving CoreML model to " ++ output_path) ;;
  call (MlmodelSave output_path) (mlmodel_save w output_path) ;;
  progress 1.0 "Complete" ;;
  ret {| cm_inputShape := input_shape;
         cm_format := "coreml";
         cm_computeUnits := "all";
         cm_deploymentTarget := "macOS14" |}.

Definition convert_to_coreml (w : World) (traced_model : ScriptModule)
    (input_shape : list Z) (output_path model_name : string)
  : M CoremlMetadata :=
  try_except
    (call (Import "coremltools") (import_module w "coremltools"))
    (except_ImportError
       (error "coremltools not installed. Run: pip install coremltools"
              "MISSING_PACKAGE" ;;
        sys_exit 1)) ;;
  log "info" "Converting to CoreML format" ;;
  progress 0.5 "Converting to CoreML" ;;
  input_type <- choose_input_type w input_shape ;;
  progress 0.6 "Running coremltools conversion" ;;
  try_except
    (compile_and_save w traced_model input_type input_shape output_path
                      model_name)
    (except_Exception report_conversion_error).

(* ================================================================== *)
(** ** [infer_architecture] *)

Definition infer_architecture (layer_info : list LayerInfo) : string :=
  let layer_names := map (fun l => PyStr.lower (name l)) layer_info in
  let layer_names_str := PyStr.join " " layer_names in
  let has := PyStr.contains in
  let rest :=
    if existsb (fun n => has "conv" n) layer_names then
      if existsb (fun n => has "bn" n || has "batch" n) layer_names
      then "CNN"
      else "CNN"
    else if existsb (fun n => has "attention" n || has "transformer" n
                              || has "encoder" n) layer_names
    then "Transformer"
    else if existsb (fun n => has "vit" n || has "patch_embed" n) layer_names
    then "Transformer"
    else if forallb (fun n => has "fc" n || has "linear" n || has "weight" n
                              || has "bias" n) layer_names
    then "MLP"
    else if existsb (fun n => has "yolo" n || has "detect" n) layer_names
    then "YOLOv8"
    else "Custom" in
  if (has "resnet" layer_names_str
      || existsb (fun n => has "layer" n && has "conv" n) layer_names)%bool
  then
    if existsb (fun n => has "downsample" n || has "shortcut" n) layer_names
    then "ResNet"
    else rest
  else rest.

(* ================================================================== *)
(** ** [convert_to_mlx] *)

(** "If state_dict is None, try to extract from checkpoint". *)
Definition extract_state_dict (w : World) (checkpoint : PyObj) : M PyObj :=
  match checkpoint with
  | PyDict d =>
      match Dict.get "state_dict" d with
      | Some sd => ret sd
      | None =>
          match Dict.get "model_state_dict" d with
          | Some sd => ret sd
          | None =>
              let model :=
                match Dict.get "model" d with Some m => m | None => PyNone end in
              if py_hasattr_state_dict w model then py_state_dict w model
              else ret (PyDict (filter (fun kv => is_tensor (snd kv)) d))
          end
      end
  | _ =>
      if py_hasattr_state_dict w checkpoint then py_state_dict w checkpoint
      else
        error "Cannot extract state_dict from checkpoint" "INVALID_CHECKPOINT" ;;
        sys_exit 1
  end.

(** [tensor.dtype in [torch.float16, torch.bfloat16]]. *)
Definition is_half (d : dtype) : bool :=
  existsb (dtype_eqb d) [float16; bfloat16].

(** One round of the loop over [state_dict.items()], on the pair
    [(tensors, layer_info)]. *)
Definition process_entry
    (acc : list (string * Tensor) * list LayerInfo) (entry : string * PyObj)
  : list (string * Tensor) * list LayerInfo :=
  let '(tensors, layer_info) := acc in
  let '(key, value) := entry in
  match value with
  | PyTensor tensor =>
      let tensor := if is_half (dtype_of tensor) then float_ tensor else tensor in
      let tensor := contiguous tensor in
      (Dict.set key tensor tensors,
       (layer_info ++ [{| name := key;
                          layer_shape := shape tensor;
                          layer_dtype := dtype_str (dtype_of tensor) |}])%list)
  | _ => acc
  end.

(** The loop over [state_dict.items()]. *)
Definition process_tensors (items : list (string * PyObj))
  : list (string * Tensor) * list LayerInfo :=
  fold_left process_entry items ([], []).

(** From "Processing tensors" to the end: the loop, the archive, the
    sidecar document and the returned summary. *)
Definition save_tensors (w : World) (state_dict : PyObj)
    (input_shape : list Z) (output_path : string) : M MlxSummary :=
  progress 0.6 "Processing tensors" ;;
  items <- py_items w state_dict ;;
  let '(tensors, layer_info) := process_tensors items in
  progress 0.8 "Saving safetensors" ;;
  let output_path := path_str w output_path in
  log "info" ("Saving MLX model to " ++ output_path) ;;
  call (SaveFile tensors output_path) (save_file w tensors output_path) ;;
  progress 0.9 "Saving metadata" ;;
  metadata_path <- call (WithSuffix output_path ".json")
                        (with_suffix w output_path ".json") ;;
  let metadata :=
    {| inputShape := input_shape;
       format := "mlx";
       layerCount := Z.of_nat (List.length layer_info);
       layers := layer_info;
       architectureType := infer_architecture layer_info;
       totalParameters :=
         fold_right Z.add 0 (map numel (Dict.values tensors)) |} in
  call (JsonDump metadata_path metadata) (json_dump w metadata_path metadata) ;;
  progress 1.0 "Complete" ;;
  ret {| ms_inputShape := input_shape;
         ms_format := "mlx";
         ms_architectureType := architectureType metadata;
         ms_layerCount := Z.of_nat (List.length layer_info);
         ms_totalParameters := totalParameters metadata |}.

Definition convert_to_mlx (w : World) (state_dict : PyObj)
    (input_shape : list Z) (output_path : string) (checkpoint : PyObj)
  : M MlxSummary :=
  try_except
    (call (Import "torch") (import_module w "torch") ;;
     call (Import "safetensors.torch") (import_module w "safetensors.torch"))
    (except_ImportError
       (error "safetensors not installed. Run: pip install safetensors"
              "MISSING_PACKAGE" ;;
        sys_exit 1)) ;;
  log "info" "Converting to MLX safetensors format" ;;
  progress 0.5 "Extracting weights" ;;
  state_dict <- (if is_None state_dict then extract_state_dict w checkpoint
                 else ret state_dict) ;;
  save_tensors w state_dict input_shape output_path.

(* ================================================================== *)
(** ** [main] *)

Inductive Format : Type := coreml | mlx.

Definition format_str (f : Format) : string :=
  match f with coreml => "coreml" | mlx => "mlx" end.

(** The parsed command line. *)
Record Args : Type := mkArgs {
  args_input : string;
  args_output : string;
  args_format : Format;
  args_input_shape : string;
  args_name : string
}.

(** [int(tok)], with the [ValueError] it raises on a malformed literal. *)
Definition py_int (tok : string) : M Z :=
  match PyStr.literal tok with
  | PyStr.IntValue n => ret n
  | r => raise (Exception (PyStr.int_error tok r))
  end.

Fixpoint map_int (toks : list string) : M (list Z) :=
  match toks with
  | [] => ret []
  | tok :: r => n <- py_int tok ;; ns <- map_int r ;; ret (n :: ns)
  end.

(** [tuple(map(int, s.split(",")))]. *)
Definition parse_input_shape (s : string) : M (list Z) :=
  map_int (PyStr.split "," s).

(** The body of the [try] statement of [main]. *)
Definition main_body (w : World) (args : Args) : M unit :=
  input_shape <- parse_input_shape (args_input_shape args) ;;
  log "info" ("Input shape: " ++ PyStr.of_tuple input_shape) ;;
  (if (List.length input_shape <? 2)%nat then
     error "Input shape must have at least 2 dimensions" "INVALID_SHAPE" ;;
     sys_exit 1
   else ret tt) ;;
  '(traced_model, state_dict, checkpoint) <-
     load_pytorch_model w (args_input args) input_shape ;;
  metadata <-
    match args_format args with
    | coreml =>
        match traced_model with
        | None =>
            error "CoreML conversion requires a traceable model. This checkpoint only contains weights (state_dict). Try MLX format instead."
                  "STATE_DICT_ONLY" ;;
            sys_exit 1
        | Some traced =>
            m <- convert_to_coreml w traced input_shape (args_output args)
                                   (args_name args) ;;
            ret (OfCoreml m)
        end
    | mlx =>
        m <- convert_to_mlx w state_dict input_shape (args_output args)
                            checkpoint ;;
        ret (OfMlx m)
    end ;;
  completed (args_output args) (format_str (args_format args)) metadata.

(** [main] with its two [except] clauses. *)
Definition main_script (w : World) (args : Args) : M unit :=
  try_except (main_body w args)
    (fun e =>
       match e with
       | KeyboardInterrupt =>
           Some (log "warning" "Conversion cancelled by user" ;; sys_exit 0)
       | ImportError _ | Exception _ =>
           Some (error (str e) "CONVERSION_FAILED" ;; sys_exit 1)
       | SystemExit _ => None
       end).

(** A finished run: what it printed and called, and its exit status. *)
Record Run : Type := mkRun {
  trace : list Effect;
  exit_status : Z
}.

(** The exit status of the interpreter: 0 when the script returns, the
    argument of [sys.exit], 1 for any other uncaught exception. *)
Definition main (w : World) (args : Args) : Run :=
  let '(t, r) := main_script w args in
  {| trace := t;
     exit_status := match r with
                    | Returns _ => 0
                    | Raises (SystemExit c) => c
                    | Raises _ => 1
                    end |}.

(** *** Observations on a trace *)

Definition events (t : list Effect) : list Event :=
  flat_map (fun x => match x with Emit e => [e] | Call _ => [] end) t.

Definition calls (t : list Effect) : list ExtCall :=
  flat_map (fun x => match x with Call c => [c] | Emit _ => [] end) t.

Definition is_error (e : Event) : bool :=
  match e with Error _ _ => true | _ => false end.

Definition is_completed (e : Event) : bool :=
  match e with Completed _ _ _ => true | _ => false end.

(** The values of the progress events among [es], in order. *)
Definition progress_of (es : list Event) : list float :=
  flat_map (fun e => match e with Progress p _ => [p] | _ => [] end) es.

Definition progress_values (t : list Effect) : list float :=
  progress_of (events t).

Definition error_codes (t : list Effect) : list string :=
  flat_map (fun e => match e with Error _ c => [c] | _ => [] end) (events t).

Definition error_events (t : list Effect) : list Event :=
  filter is_error (events t).

Definition completed_events (t : list Effect) : list Event :=
  filter is_completed (events t).

(** The archives and the sidecar documents a run asked to be written. *)
Definition archives (t : list Effect)
  : list (string * list (string * Tensor)) :=
  flat_map (fun c => match c with SaveFile ts p => [(p, ts)] | _ => [] end)
           (calls t).

Definition sidecars (t : list Effect) : list (string * MlxMetadata) :=
  flat_map (fun c => match c with JsonDump p md => [(p, md)] | _ => [] end)
           (calls t).

(** The calls of the materializer: eval mode, tracing, scripting and
    [model.state_dict()]. *)
Definition is_materializer_call (c : ExtCall) : bool :=
  match c with
  | ModelEval _ | JitTrace _ _ | JitScript _ | StateDict _ => true
  | _ => false
  end.

(** Order on progress values, and its decision on lists. *)
Definition float_le (a b : float) : Prop := PrimFloat.leb a b = true.

Fixpoint nondecreasingb (l : list float) : bool :=
  match l with
  | [] => true
  | x :: r => forallb (PrimFloat.leb x) r && nondecreasingb r
  end.

Definition in_unit_intervalb (p : float) : bool :=
  (PrimFloat.leb 0 p && PrimFloat.leb p 1)%bool.

(* ================================================================== *)
(** ** Vocabulary of the properties *)

(** [needle] occurs in [msg] up to the case of the letters of [msg]. *)
Definition occurs_ignoring_case (needle msg : string) : Prop :=
  exists a m b, msg = a ++ m ++ b /\ PyStr.lower m = needle.

(** The labels [infer_architecture] can answer. *)
Definition architecture_labels : list string :=
  ["ResNet"; "CNN"; "Transformer"; "MLP"; "YOLOv8"; "Custom"].

(** The entries of a mapping whose value is a tensor, in order. *)
Definition tensor_entries (items : list (string * PyObj))
  : list (string * Tensor) :=
  flat_map (fun kv => match snd kv with
                      | PyTensor t => [(fst kv, t)]
                      | _ => []
                      end) items.

(** What the loop stores for a source tensor. *)
Definition retained (t : Tensor) : Tensor :=
  contiguous (if is_half (dtype_of t) then float_ t else t).

Definition record_of (kt : string * Tensor) : LayerInfo :=
  {| name := fst kt;
     layer_shape := shape (retained (snd kt));
     layer_dtype := dtype_str (dtype_of (retained (snd kt))) |}.

Definition store (d : list (string * Tensor)) (kt : string * Tensor) :=
  Dict.set (fst kt) (retained (snd kt)) d.

(** The progress values of the stages, in the order they are printed, and
    their initial segments. *)
Definition load_progress_prefixes : list (list float) :=
  [ []; [0.1]; [0.1; 0.2]; [0.1; 0.2; 0.3]; [0.1; 0.2; 0.3; 0.4] ]%float.

Definition convert_schedule : list float := [0.5; 0.6; 0.8; 0.9; 1.0]%float.

Definition convert_progress_prefixes : list (list float) :=
  [ []; [0.5]; [0.5; 0.6]; [0.5; 0.6; 0.8]; [0.5; 0.6; 0.8; 0.9];
    [0.5; 0.6; 0.8; 0.9; 1.0] ]%float.

(** The computation ended in [sys.exit]. *)
Definition exits {A} (r : outcome A) : bool :=
  match r with Raises (SystemExit _) => true | _ => false end.

(** A stage that prints nothing about progress, completion or errors. *)
Definition silent {A} (m : M A) : Prop :=
  progress_values (fst m) = [] /\
  error_events (fst m) = [] /\
  completed_events (fst m) = [].

(** The error discipline of a stage: no completed event, an error event
    only when the stage ends in [sys.exit], and at most one. *)
Definition disciplined {A} (m : M A) : Prop :=
  completed_events (fst m) = [] /\
  (exits (snd m) = false -> error_events (fst m) = []) /\
  (List.length (error_events (fst m)) <= 1)%nat.

(** A converter: disciplined, its progress an initial segment of the
    schedule, the whole schedule when it returns. *)
Definition converter_summary {A} (m : M A) : Prop :=
  disciplined m /\
  In (progress_values (fst m)) convert_progress_prefixes /\
  (forall r, snd m = Returns r -> progress_values (fst m) = convert_schedule).

(** *** Scenarios *)

(** The end-to-end scenario: a mapping of two half-precision tensors (laid
    out contiguously or not), the archive and the sidecar document expected
    for it, and the summary sent with the completed event. *)
Definition scenario_checkpoint (c1 c2 : bool) : PyObj :=
  PyDict [("conv1.weight", PyTensor (mkTensor [16; 3; 3; 3] float16 c1));
          ("conv1.bias", PyTensor (mkTensor [16] float16 c2))].

Definition scenario_archive : list (string * Tensor) :=
  [("conv1.weight", mkTensor [16; 3; 3; 3] float32 true);
   ("conv1.bias", mkTensor [16] float32 true)].

Definition scenario_sidecar (total : Z) : MlxMetadata :=
  {| inputShape := [1; 3; 224; 224];
     format := "mlx";
     layerCount := 2;
     layers := [mkLayer "conv1.weight" [16; 3; 3; 3] "torch.float32";
                mkLayer "conv1.bias" [16] "torch.float32"];
     architectureType := "CNN";
     totalParameters := total |}.

Definition scenario_summary (total : Z) : MlxSummary :=
  {| ms_inputShape := [1; 3; 224; 224];
     ms_format := "mlx";
     ms_architectureType := "CNN";
     ms_layerCount := 2;
     ms_totalParameters := total |}.

(** The sidecar document and the summary of an empty mapping. *)
Definition empty_sidecar (input_shape : list Z) : MlxMetadata :=
  {| inputShape := input_shape;
     format := "mlx";
     layerCount := 0;
     layers := [];
     architectureType := "MLP";
     totalParameters := 0 |}.

Definition empty_summary (input_shape : list Z) : MlxSummary :=
  {| ms_inputShape := input_shape;
     ms_format := "mlx";
     ms_architectureType := "MLP";
     ms_layerCount := 0;
     ms_totalParameters := 0 |}.

(** *** Example worlds *)

(** A world in which every library call succeeds, but for the three
    answers given: what the two attempts at [torch.load] answer, and what
    the graph compiler answers. Objects trace and script, and have no
    [state_dict]. *)
Definition example_world (first_load second_load : outcome PyObj)
    (compiled : outcome unit) : World :=
  {| class_name := exact_type_name;
     import_module := fun _ => Returns tt;
     torch_load := fun _ weights_only =>
                     if weights_only then second_load else first_load;
     model_eval := fun _ => Returns tt;
     jit_trace := fun _ _ => Returns tt;
     jit_script := fun _ => Returns tt;
     has_state_dict := fun _ => false;
     state_dict_of := fun o =>
       Raises (Exception ("'" ++ exact_type_name o
                          ++ "' object has no attribute 'state_dict'"));
     items_of := fun o =>
       Raises (Exception ("'" ++ exact_type_name o
                          ++ "' object has no attribute 'items'"));
     ct_input_type := fun _ => Returns tt;
     ct_convert := fun _ _ => compiled;
     mlmodel_annotate := fun _ _ => Returns tt;
     mlmodel_save := fun _ => Returns tt;
     path_str := fun p => p;
     save_file := fun _ _ => Returns tt;
     with_suffix := fun p suffix => Returns (p ++ suffix);
     json_dump := fun _ _ => Returns tt |}.

(** The world that loads [checkpoint] at the first attempt. *)
Definition world_of (checkpoint : PyObj) : World :=
  example_world (Returns checkpoint) (Returns checkpoint) (Returns tt).

Definition example_args (fmt : Format) (input_shape : string) : Args :=
  {| args_input := "model.pt";
     args_output := "out/model";
     args_format := fmt;
     args_input_shape := input_shape;
     args_name := "Converted Model" |}.

(** *** Vocabulary of the run-level properties *)

(** What the properties on whole runs, on the shape argument, on the
    loader's result and on the archive are stated with. *)

(** The number of occurrences of a character in a string. *)
Fixpoint count_char (c : ascii) (s : string) : nat :=
  match s with
  | EmptyString => 0
  | String ch r => (if Ascii.eqb ch c then 1 else 0) + count_char c r
  end.

(** What [int] takes the characters of a decimal numeral for. *)
Fixpoint lits_of_uint (d : Decimal.uint) : list PyStr.LitChar :=
  match d with
  | Decimal.Nil => []
  | Decimal.D0 r => PyStr.Digit 0 :: lits_of_uint r
  | Decimal.D1 r => PyStr.Digit 1 :: lits_of_uint r
  | Decimal.D2 r => PyStr.Digit 2 :: lits_of_uint r
  | Decimal.D3 r => PyStr.Digit 3 :: lits_of_uint r
  | Decimal.D4 r => PyStr.Digit 4 :: lits_of_uint r
  | Decimal.D5 r => PyStr.Digit 5 :: lits_of_uint r
  | Decimal.D6 r => PyStr.Digit 6 :: lits_of_uint r
  | Decimal.D7 r => PyStr.Digit 7 :: lits_of_uint r
  | Decimal.D8 r => PyStr.Digit 8 :: lits_of_uint r
  | Decimal.D9 r => PyStr.Digit 9 :: lits_of_uint r
  end.

(** A digit [int] has read is one of the ten. *)
Definition digit_like (c : PyStr.LitChar) : Prop :=
  match c with PyStr.Digit d => 0 <= d <= 9 | _ => True end.

(** The number of digits [str(n)] prints. *)
Definition decimal_digits (n : Z) : N :=
  N.of_nat (String.length (PyStr.of_Z (Z.abs n))).

Definition comma_free (t : string) : Prop :=
  Forall (fun ch => ch <> ","%char) (list_ascii_of_string t).

Definition space_free (n : string) : Prop :=
  Forall (fun ch => ch <> " "%char) (list_ascii_of_string n).

Definition lower_names (li : list LayerInfo) : list string :=
  map (fun l => PyStr.lower (name l)) li.

(** The cascade of [infer_architecture] as one chain of tests on the
    lower-cased names. *)
Definition cascade (names : list string) : string :=
  let has := PyStr.contains in
  if ((existsb (has "resnet") names
       || existsb (fun n => has "layer" n && has "conv" n) names)
      && existsb (fun n => has "downsample" n || has "shortcut" n) names)%bool
  then "ResNet"
  else if existsb (fun n => has "conv" n) names then "CNN"
  else if existsb (fun n => has "attention" n || has "transformer" n
                            || has "encoder" n) names
  then "Transformer"
  else if existsb (fun n => has "vit" n || has "patch_embed" n) names
  then "Transformer"
  else if forallb (fun n => has "fc" n || has "linear" n || has "weight" n
                            || has "bias" n) names
  then "MLP"
  else if existsb (fun n => has "yolo" n || has "detect" n) names
  then "YOLOv8"
  else "Custom".

Definition t_resnet (n : string) : bool := PyStr.contains "resnet" n.
Definition t_layer_conv (n : string) : bool :=
  (PyStr.contains "layer" n && PyStr.contains "conv" n)%bool.
Definition t_skip (n : string) : bool :=
  (PyStr.contains "downsample" n || PyStr.contains "shortcut" n)%bool.
Definition t_conv (n : string) : bool := PyStr.contains "conv" n.
Definition t_attention (n : string) : bool :=
  (PyStr.contains "attention" n || PyStr.contains "transformer" n
   || PyStr.contains "encoder" n)%bool.
Definition t_vit (n : string) : bool :=
  (PyStr.contains "vit" n || PyStr.contains "patch_embed" n)%bool.
Definition t_dense (n : string) : bool :=
  (PyStr.contains "fc" n || PyStr.contains "linear" n
   || PyStr.contains "weight" n || PyStr.contains "bias" n)%bool.
Definition t_yolo (n : string) : bool :=
  (PyStr.contains "yolo" n || PyStr.contains "detect" n)%bool.

(** Some layer's lower-cased name passes the test; every one does. *)
Definition some_name (t : string -> bool) (li : list LayerInfo) : Prop :=
  exists l, In l li /\ t (PyStr.lower (name l)) = true.

Definition every_name (t : string -> bool) (li : list LayerInfo) : Prop :=
  forall l, In l li -> t (PyStr.lower (name l)) = true.

(** Every effect of the computation satisfies [Q]. *)
Definition always (Q : Effect -> Prop) {A} (m : M A) : Prop :=
  Forall Q (fst m).

(** The error codes of the protocol. *)
Definition error_code_set : list string :=
  ["MISSING_PACKAGE"; "INVALID_SHAPE"; "STATE_DICT_ONLY"; "UNSUPPORTED_OP";
   "SHAPE_MISMATCH"; "CONVERSION_FAILED"; "INVALID_CHECKPOINT"].

Definition codes_within (codes : list string) (x : Effect) : Prop :=
  match x with
  | Emit (Error _ c) => In c codes
  | _ => True
  end.

(** The codes a run for each format can report. *)
Definition codes_of_format (f : Format) : list string :=
  match f with
  | coreml => ["INVALID_SHAPE"; "STATE_DICT_ONLY"; "MISSING_PACKAGE";
               "UNSUPPORTED_OP"; "SHAPE_MISMATCH"; "CONVERSION_FAILED"]
  | mlx => ["INVALID_SHAPE"; "MISSING_PACKAGE"; "INVALID_CHECKPOINT";
            "CONVERSION_FAILED"]
  end.

(** What holds of each call that writes or compiles, in a run of [main]
    on [args]: the archive and the sidecar document belong to mlx runs,
    the package to coreml runs, each goes to the path asked for, the
    sidecar document follows a written archive and is consistent, and a
    package is saved only after the compiler and the annotation
    succeeded. *)
Definition write_rule (w : World) (args : Args) (x : Effect) : Prop :=
  match x with
  | Call (SaveFile ts p) =>
      args_format args = mlx /\ p = path_str w (args_output args)
  | Call (JsonDump p md) =>
      args_format args = mlx
      /\ (exists ts,
            save_file w ts (path_str w (args_output args)) = Returns tt)
      /\ with_suffix w (path_str w (args_output args)) ".json" = Returns p
      /\ format md = "mlx"
      /\ layerCount md = Z.of_nat (List.length (layers md))
      /\ architectureType md = infer_architecture (layers md)
  | Call (MlmodelSave p) =>
      args_format args = coreml /\ p = args_output args
      /\ (exists traced ty, ct_convert w traced ty = Returns tt)
      /\ mlmodel_annotate w "Performant3"
           ("Converted from PyTorch: " ++ args_name args) = Returns tt
  | Call (CtConvert _ _) | Call (CtInputType _) | Call (MlmodelAnnotate _ _) =>
      args_format args = coreml
  | Call (WithSuffix _ _) | Call (Items _) => args_format args = mlx
  | Call (Import m) =>
      m = "torch" \/ (m = "coremltools" /\ args_format args = coreml)
      \/ (m = "safetensors.torch" /\ args_format args = mlx)
  | _ => True
  end.

(** No event of [es] but the last is an error. *)
Fixpoint error_only_last (es : list Event) : bool :=
  match es with
  | [] => true
  | e :: r =>
      (negb (is_error e) || match r with [] => true | _ => false end)
      && error_only_last r
  end.

(** An error event, if any, is the last event, and then the computation
    ended in [sys.exit(1)]. *)
Definition final_error {A} (m : M A) : Prop :=
  error_only_last (events (fst m)) = true
  /\ (error_events (fst m) = [] \/ snd m = Raises (SystemExit 1)).

Definition not_completed (x : Effect) : Prop :=
  match x with Emit (Completed _ _ _) => False | _ => True end.

(** A computation that printed a completed event has returned. *)
Definition returns_if_completed {A} (m : M A) : Prop :=
  completed_events (fst m) = [] \/ exists a, snd m = Returns a.

(** The rest of [main]'s [try] body once the checkpoint is loaded: the
    conversion for the requested format, then the completed event. *)
Definition convert_and_complete (w : World) (args : Args)
    (input_shape : list Z) (loaded : Loaded) : M unit :=
  let '(traced_model, state_dict, checkpoint) := loaded in
  metadata <-
    match args_format args with
    | coreml =>
        match traced_model with
        | None =>
            error "CoreML conversion requires a traceable model. This checkpoint only contains weights (state_dict). Try MLX format instead."
                  "STATE_DICT_ONLY" ;;
            sys_exit 1
        | Some traced =>
            m <- convert_to_coreml w traced input_shape (args_output args)
                                   (args_name args) ;;
            ret (OfCoreml m)
        end
    | mlx =>
        m <- convert_to_mlx w state_dict input_shape (args_output args)
                            checkpoint ;;
        ret (OfMlx m)
    end ;;
  completed (args_output args) (format_str (args_format args)) metadata.

Definition shape_log (shape : list Z) : Effect :=
  Emit (Log "info" ("Input shape: " ++ PyStr.of_tuple shape)).

(** The world [w] with the package [pkg] not installed. *)
Definition without_package (pkg : string) (w : World) : World :=
  {| class_name := class_name w;
     import_module := fun m =>
       if String.eqb m pkg
       then Raises (ImportError ("No module named '" ++ pkg ++ "'"))
       else import_module w m;
     torch_load := torch_load w;
     model_eval := model_eval w;
     jit_trace := jit_trace w;
     jit_script := jit_script w;
     has_state_dict := has_state_dict w;
     state_dict_of := state_dict_of w;
     items_of := items_of w;
     ct_input_type := ct_input_type w;
     ct_convert := ct_convert w;
     mlmodel_annotate := mlmodel_annotate w;
     mlmodel_save := mlmodel_save w;
     path_str := path_str w;
     save_file := save_file w;
     with_suffix := with_suffix w;
     json_dump := json_dump w |}.

(** What [load_pytorch_model] does once the checkpoint is classified:
    lines 88 to 125 of the script. *)
Definition after_classification (w : World) (model state_dict : PyObj)
    (input_shape : list Z) (checkpoint : PyObj) : M Loaded :=
  if (is_None model && negb (is_None state_dict))%bool then
    log "warning" "Checkpoint contains only weights (state_dict)" ;;
    log "info" "MLX conversion will proceed with raw weights" ;;
    ret (None, state_dict, checkpoint)
  else if negb (is_None model) then
    materialize w model input_shape checkpoint
  else
    raise (Exception "Could not extract model or state_dict from checkpoint").

(** What is printed and called up to there. *)
Definition classification_trace (w : World) (path : string)
    (checkpoint : PyObj) : list Effect :=
  (Call (Import "torch")
   :: Emit (Log "info" ("Loading PyTorch model from " ++ path))
   :: Emit (Progress 0.1 "Loading model")
   :: fst (load_checkpoint w path)
   ++ Emit (Progress 0.2 "Analyzing checkpoint")
   :: fst (classify_checkpoint checkpoint)
   ++ [Emit (Progress 0.3 "Preparing model")])%list.


(** The world [w] in which tracing and scripting answer as given. *)
Definition with_jit (traced scripted : outcome unit) (w : World) : World :=
  {| class_name := class_name w;
     import_module := import_module w;
     torch_load := torch_load w;
     model_eval := model_eval w;
     jit_trace := fun _ _ => traced;
     jit_script := fun _ => scripted;
     has_state_dict := has_state_dict w;
     state_dict_of := state_dict_of w;
     items_of := items_of w;
     ct_input_type := ct_input_type w;
     ct_convert := ct_convert w;
     mlmodel_annotate := mlmodel_annotate w;
     mlmodel_save := mlmodel_save w;
     path_str := path_str w;
     save_file := save_file w;
     with_suffix := with_suffix w;
     json_dump := json_dump w |}.

(** How the materializer came to its result. *)
Definition materialized (w : World) (model : PyObj) (input_shape : list Z)
    (traced : option ScriptModule) (state_dict : PyObj) : Prop :=
  model_eval w model = Returns tt
  /\ match traced with
     | Some t =>
         state_dict = PyNone
         /\ ((t = Traced model input_shape
              /\ jit_trace w model input_shape = Returns tt)
             \/ (t = Scripted model
                 /\ (exists e, jit_trace w model input_shape = Raises e
                               /\ is_Exception e = true)
                 /\ jit_script w model = Returns tt))
     | None =>
         (exists e, jit_trace w model input_shape = Raises e
                    /\ is_Exception e = true)
         /\ (exists e, jit_script w model = Raises e /\ is_Exception e = true)
         /\ has_state_dict w model = true
         /\ state_dict_of w model = Returns state_dict
     end.

(** [shape] is that of a batch of images: four dimensions, the second one
    1, 3 or 4. *)
Definition image_shape (shape : list Z) : Prop :=
  exists b c h wd, shape = [b; c; h; wd] /\ (c = 1 \/ c = 3 \/ c = 4).

Definition compile_rule (w : World) (args : Args) (x : Effect) : Prop :=
  match x with
  | Call (CtConvert m ty) =>
      args_format args = coreml
      /\ exists shape sd checkpoint,
           snd (parse_input_shape (args_input_shape args)) = Returns shape
           /\ (2 <= List.length shape)%nat
           /\ snd (load_pytorch_model w (args_input args) shape)
              = Returns (Some m, sd, checkpoint)
           /\ import_module w "coremltools" = Returns tt
           /\ snd (choose_input_type w shape) = Returns ty
  | _ => True
  end.

Definition not_compile (x : Effect) : Prop :=
  match x with Call (CtConvert _ _) => False | _ => True end.

(** The sidecar document written for the items of a weight mapping, and
    the summary sent with the completed event. *)
Definition sidecar_of (input_shape : list Z) (items : list (string * PyObj))
  : MlxMetadata :=
  {| inputShape := input_shape;
     format := "mlx";
     layerCount := Z.of_nat (List.length (snd (process_tensors items)));
     layers := snd (process_tensors items);
     architectureType := infer_architecture (snd (process_tensors items));
     totalParameters :=
       fold_right Z.add 0
                  (map numel (Dict.values (fst (process_tensors items)))) |}.

Definition summary_of (md : MlxMetadata) : MlxSummary :=
  {| ms_inputShape := inputShape md;
     ms_format := "mlx";
     ms_architectureType := architectureType md;
     ms_layerCount := layerCount md;
     ms_totalParameters := totalParameters md |}.

(** What a completed event tells, for each format. *)
Definition completed_rule (w : World) (args : Args) (x : Effect) : Prop :=
  match x with
  | Emit (Completed out fmt md) =>
      out = args_output args /\ fmt = format_str (args_format args)
      /\ exists shape,
           snd (parse_input_shape (args_input_shape args)) = Returns shape
           /\ match md with
              | OfCoreml m =>
                  args_format args = coreml
                  /\ m = {| cm_inputShape := shape;
                            cm_format := "coreml";
                            cm_computeUnits := "all";
                            cm_deploymentTarget := "macOS14" |}
                  /\ mlmodel_save w (args_output args) = Returns tt
              | OfMlx s =>
                  args_format args = mlx
                  /\ exists items p,
                       save_file w (fst (process_tensors items))
                                 (path_str w (args_output args)) = Returns tt
                       /\ with_suffix w (path_str w (args_output args)) ".json"
                          = Returns p
                       /\ json_dump w p (sidecar_of shape items) = Returns tt
                       /\ s = summary_of (sidecar_of shape items)
              end
  | _ => True
  end.

(** The compile-and-save block raised [e], and the event reports it under
    the code chosen by its message. *)
Definition compiler_failure (e : exn) (msg code : string) : Prop :=
  is_Exception e = true
  /\ ((code = "UNSUPPORTED_OP"
       /\ occurs_ignoring_case "not supported" (str e)
       /\ msg = "Model contains unsupported operations: " ++ str e)
      \/ (code = "SHAPE_MISMATCH"
          /\ ~ occurs_ignoring_case "not supported" (str e)
          /\ occurs_ignoring_case "shape" (str e)
          /\ msg = "Shape mismatch during conversion: " ++ str e)
      \/ (code = "CONVERSION_FAILED"
          /\ ~ occurs_ignoring_case "not supported" (str e)
          /\ ~ occurs_ignoring_case "shape" (str e)
          /\ msg = "CoreML conversion failed: " ++ str e)).

(** Why a run on [args] printed the error event [msg], [code]. *)
Definition error_cause (w : World) (args : Args) (msg code : string) : Prop :=
  (code = "CONVERSION_FAILED"
   /\ exists e, snd (main_body w args) = Raises e
                /\ is_Exception e = true /\ msg = str e)
  \/ exists shape,
       snd (parse_input_shape (args_input_shape args)) = Returns shape
       /\ ((code = "INVALID_SHAPE" /\ (List.length shape < 2)%nat)
           \/ ((2 <= List.length shape)%nat
               /\ exists traced sd checkpoint,
                    snd (load_pytorch_model w (args_input args) shape)
                    = Returns (traced, sd, checkpoint)
                    /\ match args_format args with
                       | coreml =>
                           (code = "STATE_DICT_ONLY" /\ traced = None)
                           \/ (code = "MISSING_PACKAGE"
                               /\ traced <> None
                               /\ exists m,
                                    import_module w "coremltools"
                                    = Raises (ImportError m))
                           \/ (exists t ty e,
                                 traced = Some t
                                 /\ snd (choose_input_type w shape) = Returns ty
                                 /\ snd (compile_and_save w t ty shape
                                           (args_output args) (args_name args))
                                    = Raises e
                                 /\ compiler_failure e msg code)
                       | mlx =>
                           (code = "MISSING_PACKAGE"
                            /\ exists m,
                                 import_module w "safetensors.torch"
                                 = Raises (ImportError m))
                           \/ (code = "INVALID_CHECKPOINT"
                               /\ sd = PyNone
                               /\ (forall d, checkpoint <> PyDict d)
                               /\ py_hasattr_state_dict w checkpoint = false)
                       end)).

Definition no_error (x : Effect) : Prop :=
  match x with Emit (Error _ _) => False | _ => True end.

(* ================================================================== *)
(** * Properties *)

(** ** Substring tests *)

Section Substrings.

Lemma prefix_iff (n h : string) :
  String.prefix n h = true <-> exists b, h = n ++ b.
Proof.
  revert h; induction n as [|c n IH]; intros h; simpl.
  - split; [intros _; now exists h | now destruct h].
  - destruct h as [|c' h]; simpl.
    + split; [discriminate | intros [b Hb]; discriminate].
    + destruct (ascii_dec c c') as [->|Hne].
      * rewrite IH. split; intros [b Hb]; exists b; congruence.
      * split; [discriminate | intros [b Hb]; congruence].
Qed.

(** [needle in hay] holds exactly when [hay] splits around [needle]. *)
Lemma contains_iff (n h : string) :
  PyStr.contains n h = true <-> exists a b, h = a ++ n ++ b.
Proof.
  induction h as [|c h IH];
    [ change (PyStr.contains n "") with (String.prefix n "" || false)%bool
    | change (PyStr.contains n (String c h))
        with (String.prefix n (String c h) || PyStr.contains n h)%bool ];
    rewrite orb_true_iff, prefix_iff.
  - split.
    + intros [[b Hb]|Hf]; [now exists "", b | discriminate].
    + intros [a [b Hab]]. left. destruct a; [now exists b | discriminate].
  - rewrite IH. split.
    + intros [[b Hb]|[a [b Hab]]].
      * now exists "", b.
      * exists (String c a), b. simpl. now rewrite Hab.
    + intros [a [b Hab]]. destruct a as [|c' a]; simpl in Hab.
      * left. now exists b.
      * right. exists a, b. congruence.
Qed.

Lemma lower_app (a b : string) :
  PyStr.lower (a ++ b) = PyStr.lower a ++ PyStr.lower b.
Proof. induction a; simpl; congruence. Qed.

Lemma lower_split (s x y : string) :
  PyStr.lower s = x ++ y ->
  exists s1 s2, s = s1 ++ s2 /\ PyStr.lower s1 = x /\ PyStr.lower s2 = y.
Proof.
  revert s; induction x as [|c x IH]; intros s H; simpl in H.
  - now exists "", s.
  - destruct s as [|c' s]; [discriminate|]. simpl in H.
    injection H as Hc Hs. destruct (IH _ Hs) as [s1 [s2 [-> [H1 H2]]]].
    exists (String c' s1), s2. simpl. now rewrite Hc, H1.
Qed.


Lemma contains_lower_iff (needle msg : string) :
  PyStr.contains needle (PyStr.lower msg) = true
  <-> occurs_ignoring_case needle msg.
Proof.
  rewrite contains_iff. split.
  - intros [a [b H]].
    destruct (lower_split _ _ _ H) as [s1 [s2 [-> [H1 H2]]]].
    destruct (lower_split _ _ _ H2) as [m [s3 [-> [H3 H4]]]].
    now exists s1, m, s3.
  - intros [a [m [b [-> Hm]]]].
    exists (PyStr.lower a), (PyStr.lower b).
    now rewrite !lower_app, Hm.
Qed.

End Substrings.

(* ================================================================== *)
(** ** The architecture inferencer *)


Lemma infer_architecture_by_names (li li' : list LayerInfo) :
  map name li = map name li' ->
  infer_architecture li = infer_architecture li'.
Proof.
  intros H. unfold infer_architecture.
  assert (E : map (fun l => PyStr.lower (name l)) li
              = map (fun l => PyStr.lower (name l)) li').
  { rewrite <- (map_map name PyStr.lower li), <- (map_map name PyStr.lower li').
    now rewrite H. }
  now rewrite E.
Qed.

Lemma infer_architecture_label (li : list LayerInfo) :
  In (infer_architecture li) architecture_labels.
Proof.
  unfold infer_architecture, architecture_labels.
  repeat match goal with
         | |- context [if ?b then _ else _] => destruct b
         end; simpl; tauto.
Qed.

(** C3, as the code has it: the result depends on the names only and is
    always one of the six labels; on the names [conv1.weight; bn1.weight]
    it is CNN, on [attention.q.weight; encoder.layer.0] Transformer, on
    [fc1.weight; fc1.bias] MLP, and on the empty list MLP (the test that
    every name looks like a dense layer holds of no names at all). *)
Theorem infer_architecture_examples :
  (forall li li', map name li = map name li' ->
                  infer_architecture li = infer_architecture li') /\
  (forall li, In (infer_architecture li) architecture_labels) /\
  (forall li, map name li = ["conv1.weight"; "bn1.weight"] ->
              infer_architecture li = "CNN") /\
  (forall li, map name li = ["attention.q.weight"; "encoder.layer.0"] ->
              infer_architecture li = "Transformer") /\
  (forall li, map name li = [] -> infer_architecture li = "MLP") /\
  (forall li, map name li = ["fc1.weight"; "fc1.bias"] ->
              infer_architecture li = "MLP").
Proof.
  split; [exact infer_architecture_by_names|].
  split; [exact infer_architecture_label|].
  pose (mk := fun n => mkLayer n [] "").
  repeat split; intros li H.
  - rewrite (infer_architecture_by_names li (map mk ["conv1.weight"; "bn1.weight"]));
      [reflexivity | now rewrite H].
  - rewrite (infer_architecture_by_names li
               (map mk ["attention.q.weight"; "encoder.layer.0"]));
      [reflexivity | now rewrite H].
  - rewrite (infer_architecture_by_names li (map mk []));
      [reflexivity | now rewrite H].
  - rewrite (infer_architecture_by_names li (map mk ["fc1.weight"; "fc1.bias"]));
      [reflexivity | now rewrite H].
Qed.

Lemma infer_architecture_examples_witness :
  infer_architecture
    [mkLayer "conv1.weight" [16; 3; 3; 3] "torch.float32";
     mkLayer "bn1.weight" [16] "torch.float32"] = "CNN"
  /\ infer_architecture [] = "MLP".
Proof.
  split.
  - apply (proj1 (proj2 (proj2 infer_architecture_examples))). reflexivity.
  - apply (proj1 (proj2 (proj2 (proj2 (proj2 infer_architecture_examples))))).
    reflexivity.
Defined.

(** C3 as stated fails on the empty name list: the answer is not Custom. *)
Lemma infer_architecture_empty_not_custom :
  infer_architecture [] <> "Custom".
Proof. vm_compute. discriminate. Qed.

(* ================================================================== *)
(** ** The tensor loop of [convert_to_mlx] *)

Section TensorLoop.


Lemma retained_shape t : shape (retained t) = shape t.
Proof. unfold retained. now destruct (is_half (dtype_of t)). Qed.

Lemma retained_dtype t :
  dtype_of (retained t)
  = if is_half (dtype_of t) then float32 else dtype_of t.
Proof. unfold retained. now destruct (is_half (dtype_of t)). Qed.

Lemma retained_not_half t : is_half (dtype_of (retained t)) = false.
Proof.
  rewrite retained_dtype. destruct (is_half (dtype_of t)) eqn:E; auto.
Qed.

Lemma tensor_entries_In k t items :
  In (k, t) (tensor_entries items) <-> In (k, PyTensor t) items.
Proof.
  unfold tensor_entries. rewrite in_flat_map. split.
  - intros [[k' v] [Hin H]]. simpl in H.
    destruct v; simpl in H; try tauto.
    destruct H as [H|[]]. now inversion H; subst.
  - intros H. exists (k, PyTensor t). split; [assumption | now left].
Qed.

Lemma process_tensors_fold items : forall ts li,
  fold_left process_entry items (ts, li)
  = (fold_left store (tensor_entries items) ts,
     (li ++ map record_of (tensor_entries items))%list).
Proof.
  induction items as [|[k v] items IH]; intros ts li; simpl.
  - now rewrite app_nil_r.
  - destruct v; simpl; rewrite IH; try reflexivity.
    now rewrite <- app_assoc.
Qed.

Lemma set_In {V} k (v : V) d k' v' :
  In (k', v') (Dict.set k v d) -> (k' = k /\ v' = v) \/ In (k', v') d.
Proof.
  induction d as [|[k0 v0] d IH]; simpl.
  - intros [H|[]]. left. now inversion H.
  - destruct (String.eqb_spec k k0) as [->|Hne]; simpl.
    + intros [H|H]; [left; now inversion H | right; now right].
    + intros [H|H]; [right; now left |].
      destruct (IH H) as [?|?]; [now left | right; now right].
Qed.

Lemma mem_set {V} k (v : V) d k' :
  Dict.mem k' (Dict.set k v d) = (String.eqb k' k || Dict.mem k' d)%bool.
Proof.
  unfold Dict.mem. induction d as [|[k0 v0] d IH]; simpl.
  - now destruct (String.eqb k' k).
  - destruct (String.eqb_spec k k0) as [->|Hne]; simpl.
    + now destruct (String.eqb k' k0).
    + destruct (String.eqb_spec k' k0) as [->|Hne'].
      * now rewrite orb_true_r.
      * exact IH.
Qed.

Lemma store_fold_In entries : forall ts k t,
  In (k, t) (fold_left store entries ts) ->
  In (k, t) ts \/ exists src, In (k, src) entries /\ t = retained src.
Proof.
  induction entries as [|[k0 t0] entries IH]; intros ts k t H; simpl in *.
  - now left.
  - destruct (IH _ _ _ H) as [Hin|[src [Hin ->]]].
    + destruct (set_In _ _ _ _ _ Hin) as [[-> ->]|Hts]; [|now left].
      right. exists t0. split; [now left | reflexivity].
    + right. exists src. split; [now right | reflexivity].
Qed.

Lemma store_fold_mem entries : forall ts k,
  Dict.mem k (fold_left store entries ts)
  = (Dict.mem k ts || existsb (fun kt => String.eqb k (fst kt)) entries)%bool.
Proof.
  induction entries as [|[k0 t0] entries IH]; intros ts k; simpl.
  - now rewrite orb_false_r.
  - rewrite IH. unfold store. simpl. rewrite mem_set.
    now destruct (String.eqb k k0), (Dict.mem k ts).
Qed.

End TensorLoop.

(* ================================================================== *)
(** ** Reading a trace *)

Section Observations.

Lemma events_app a b : events (a ++ b) = (events a ++ events b)%list.
Proof. apply flat_map_app. Qed.

Lemma calls_app a b : calls (a ++ b) = (calls a ++ calls b)%list.
Proof. apply flat_map_app. Qed.

Lemma progress_values_app a b :
  progress_values (a ++ b) = (progress_values a ++ progress_values b)%list.
Proof.
  unfold progress_values, progress_of. now rewrite events_app, flat_map_app.
Qed.

Lemma error_events_app a b :
  error_events (a ++ b) = (error_events a ++ error_events b)%list.
Proof. unfold error_events. now rewrite events_app, filter_app. Qed.

Lemma error_codes_app a b :
  error_codes (a ++ b) = (error_codes a ++ error_codes b)%list.
Proof. unfold error_codes. now rewrite events_app, flat_map_app. Qed.

Lemma completed_events_app a b :
  completed_events (a ++ b) = (completed_events a ++ completed_events b)%list.
Proof. unfold completed_events. now rewrite events_app, filter_app. Qed.

Lemma error_codes_of_events t :
  error_codes t
  = flat_map (fun e => match e with Error _ c => [c] | _ => [] end)
             (error_events t).
Proof.
  unfold error_codes, error_events.
  induction (events t) as [|e l IH]; simpl; [reflexivity|].
  destruct e; simpl; now rewrite IH.
Qed.

End Observations.

(** Symbolic execution of a script: unfold the monad, split on the answer
    of each external call and on each test. *)
Ltac break_innermost x :=
  lazymatch x with
  | context [match ?y with _ => _ end] => break_innermost y
  | _ => destruct x eqn:?
  end.

Ltac break_match :=
  match goal with
  | |- context [match ?x with _ => _ end] => break_innermost x
  end.

Ltac unfold_script :=
  progress unfold except_Exception, except_ImportError, sys_exit, log,
    progress, completed, error, emit, raise, ret, call in *.

Ltac break_script m :=
  lazymatch m with
  | bind _ _ => fail
  | try_except _ _ => fail
  | context [match ?x with _ => _ end] => break_innermost x
  | _ => destruct m as [? [?|?]] eqn:?
  end.

Ltac exec :=
  repeat (first
    [ unfold_script
    | progress cbn [bind try_except fst snd is_Exception app] in *
    | match goal with
      | |- context [is_Exception ?e] => destruct e
      end
    | match goal with
      | |- context [bind ?m _] => break_script m
      | |- context [try_except ?m _] => break_script m
      end
    | break_match ]).

(* ================================================================== *)
(** ** What each stage prints *)

(** Push the readings of a trace through its conses and appends. *)
Ltac obs :=
  unfold progress_values, progress_of, error_events, error_codes,
    completed_events, calls, events, load_progress_prefixes,
    convert_progress_prefixes, convert_schedule in *;
  repeat (progress (cbn [flat_map filter app List.length fst snd In exits
                         is_error is_completed] in *;
                    rewrite ?flat_map_app, ?filter_app, ?app_nil_r in * )).

(** Use what is known of the parts: split the cases, rewrite the
    readings. *)
Ltac use_facts :=
  repeat match goal with
         | H : _ /\ _ |- _ => destruct H
         | H : _ \/ _ |- _ => destruct H
         | H : False |- _ => contradiction
         | H : forall r, Returns ?x = Returns r -> _ |- _ =>
             specialize (H _ eq_refl)
         | H : forall r, Raises _ = Returns r -> _ |- _ => clear H
         | H : ?a = ?a -> _ |- _ => specialize (H eq_refl)
         | H : true = false -> _ |- _ => clear H
         | H : flat_map _ _ = _ |- _ => rewrite H in *; clear H
         | H : filter _ _ = _ |- _ => rewrite H in *; clear H
         | H : _ = flat_map _ _ |- _ => rewrite <- H in *; clear H
         | H : _ = filter _ _ |- _ => rewrite <- H in *; clear H
         end.

(** Close a goal about concrete readings. *)
Ltac finish :=
  cbn [flat_map filter app List.length In is_error is_completed] in *;
  repeat split; auto 10; intros; subst; use_facts;
  cbn [flat_map filter app List.length In is_error is_completed] in *;
  auto 10; try discriminate; try lia.

Lemma map_int_pure toks : fst (map_int toks) = [].
Proof.
  induction toks as [|tok r IH]; cbn [map_int]; [reflexivity|].
  unfold py_int. destruct (PyStr.literal tok); try reflexivity.
  cbn [bind ret fst snd app]. destruct (map_int r) as [t [ns|e]];
    cbn [fst snd app] in *; subst; reflexivity.
Qed.

Lemma parse_input_shape_pure s : fst (parse_input_shape s) = [].
Proof. apply map_int_pure. Qed.

(** [int] on some texts, as CPython 3.11 answers them. The separators 28
    to 31 are no blanks; the digits and the blanks of other scripts are
    read (here U+0663, U+FF11 and U+00A0); a sign and single underscores
    between digits are; and the text of the [ValueError] is [repr] of the
    literal. A shape argument that starts with the separator 28 is
    malformed, not too short. *)
Lemma int_literal_examples :
  PyStr.to_Z (String (ascii_of_N 28) "5") = None
  /\ PyStr.to_Z (String "1" (String (ascii_of_N 31) "")) = None
  /\ PyStr.to_Z (String (ascii_of_N 217) (String (ascii_of_N 163) "")) = Some 3
  /\ PyStr.to_Z (String (ascii_of_N 239)
                   (String (ascii_of_N 188) (String (ascii_of_N 145) "")))
     = Some 1
  /\ PyStr.to_Z (String (ascii_of_N 194) (String (ascii_of_N 160) "-7")) = Some (-7)
  /\ PyStr.to_Z " +1_000 " = Some 1000
  /\ PyStr.to_Z "1__0" = None
  /\ py_int "1,5"
     = ([], Raises (Exception "invalid literal for int() with base 10: '1,5'"))
  /\ error_codes (trace (main (world_of (PyDict []))
                              (example_args mlx (String (ascii_of_N 28) "5"))))
     = ["CONVERSION_FAILED"].
Proof. vm_compute. repeat split. Qed.

Lemma classify_checkpoint_silent c : silent (classify_checkpoint c).
Proof. unfold silent, classify_checkpoint. exec; repeat split; reflexivity. Qed.

Lemma classify_checkpoint_calls c : calls (fst (classify_checkpoint c)) = [].
Proof. unfold classify_checkpoint. exec; reflexivity. Qed.

Lemma load_checkpoint_silent w path : silent (load_checkpoint w path).
Proof. unfold silent, load_checkpoint. exec; repeat split; reflexivity. Qed.

Lemma materialize_summary w model shape ckpt :
  let m := materialize w model shape ckpt in
  error_events (fst m) = [] /\
  completed_events (fst m) = [] /\
  In (progress_values (fst m)) [[]; [0.4%float]] /\
  (forall r, snd m = Returns r -> progress_values (fst m) = [0.4%float]).
Proof.
  unfold materialize, py_eval, py_state_dict. exec; obs; finish.
Qed.

Lemma choose_input_type_silent w shape : silent (choose_input_type w shape).
Proof. unfold silent, choose_input_type. exec; repeat split; reflexivity. Qed.

Lemma compile_and_save_summary w traced ty shape out nm :
  let m := compile_and_save w traced ty shape out nm in
  error_events (fst m) = [] /\
  completed_events (fst m) = [] /\
  In (progress_values (fst m)) [[]; [0.8]; [0.8; 0.9]; [0.8; 0.9; 1.0]]%float /\
  (forall r, snd m = Returns r -> progress_values (fst m) = [0.8; 0.9; 1.0]%float).
Proof.
  unfold compile_and_save. exec; obs; finish.
Qed.

Lemma extract_state_dict_summary w ckpt :
  progress_values (fst (extract_state_dict w ckpt)) = [] /\
  disciplined (extract_state_dict w ckpt).
Proof.
  unfold disciplined, extract_state_dict, py_state_dict. exec; obs; finish.
Qed.

Lemma save_tensors_summary w sd shape out :
  let m := save_tensors w sd shape out in
  error_events (fst m) = [] /\
  completed_events (fst m) = [] /\
  In (progress_values (fst m))
     [[0.6]; [0.6; 0.8]; [0.6; 0.8; 0.9]; [0.6; 0.8; 0.9; 1.0]]%float /\
  (forall r, snd m = Returns r ->
             progress_values (fst m) = [0.6; 0.8; 0.9; 1.0]%float).
Proof.
  unfold save_tensors, py_items. exec; obs; finish.
Qed.

(** Replace what is known of a stage's run by the stage's summary. *)
Ltac recall_stage :=
  repeat match goal with
       | H : load_checkpoint ?w ?p = _ |- _ =>
           let E := fresh in
           pose proof (load_checkpoint_silent w p) as E; unfold silent in E;
           rewrite H in E; clear H
       | H : classify_checkpoint ?c = _ |- _ =>
           let E := fresh in
           pose proof (classify_checkpoint_silent c) as E; unfold silent in E;
           rewrite H in E; clear H
       | H : materialize ?w ?m ?s ?c = _ |- _ =>
           let E := fresh in
           pose proof (materialize_summary w m s c) as E; rewrite H in E; clear H
       | H : choose_input_type ?w ?s = _ |- _ =>
           let E := fresh in
           pose proof (choose_input_type_silent w s) as E; unfold silent in E;
           rewrite H in E; clear H
       | H : compile_and_save ?w ?t ?ty ?s ?o ?n = _ |- _ =>
           let E := fresh in
           pose proof (compile_and_save_summary w t ty s o n) as E;
           rewrite H in E; clear H
       | H : extract_state_dict ?w ?c = _ |- _ =>
           let E := fresh in
           pose proof (extract_state_dict_summary w c) as E;
           unfold disciplined in E; rewrite H in E; clear H
       | H : save_tensors ?w ?sd ?s ?o = _ |- _ =>
           let E := fresh in
           pose proof (save_tensors_summary w sd s o) as E;
           rewrite H in E; clear H
       end.

Lemma load_pytorch_model_summary w path shape :
  let m := load_pytorch_model w path shape in
  error_events (fst m) = [] /\
  completed_events (fst m) = [] /\
  In (progress_values (fst m)) load_progress_prefixes /\
  (forall r, snd m = Returns r ->
     In (progress_values (fst m)) [[0.1; 0.2; 0.3]; [0.1; 0.2; 0.3; 0.4]]%float).
Proof.
  unfold load_pytorch_model. exec.
  all: recall_stage; obs; use_facts; finish.
Qed.

Lemma convert_to_coreml_summary w traced shape out nm :
  converter_summary (convert_to_coreml w traced shape out nm).
Proof.
  unfold converter_summary, disciplined, convert_to_coreml,
    report_conversion_error.
  exec.
  all: recall_stage; obs; use_facts; finish.
Qed.

Lemma convert_to_mlx_summary w sd shape out ckpt :
  converter_summary (convert_to_mlx w sd shape out ckpt).
Proof.
  unfold converter_summary, disciplined, convert_to_mlx.
  exec.
  all: recall_stage; obs; use_facts; finish.
Qed.

(* ================================================================== *)
(** ** The driver *)

(** Name the run of the shape parser and of the loader, with what is known
    of them. *)
Ltac name_parse args tp rp :=
  let Hp := fresh "Hpure" in
  pose proof (parse_input_shape_pure (args_input_shape args)) as Hp;
  destruct (parse_input_shape (args_input_shape args)) as [tp rp];
  cbn [fst snd] in *; subst tp.

Ltac name_load w args shape tl rl :=
  let Hl := fresh "Hload" in
  pose proof (load_pytorch_model_summary w (args_input args) shape) as Hl;
  destruct (load_pytorch_model w (args_input args) shape) as [tl rl];
  cbn [fst snd] in *; destruct Hl as (? & ? & ? & ?).

(** C8: a shape of fewer than two dimensions stops the run at once. The
    whole trace is the shape log line and one INVALID_SHAPE error: no
    external call is made (nothing is loaded or converted), no completed
    event is printed, and the exit status is 1. *)
Theorem invalid_shape_is_fatal (w : World) (args : Args) (shape : list Z) :
  snd (parse_input_shape (args_input_shape args)) = Returns shape ->
  (List.length shape < 2)%nat ->
  trace (main w args)
  = [Emit (Log "info" ("Input shape: " ++ PyStr.of_tuple shape));
     Emit (Error "Input shape must have at least 2 dimensions"
                 "INVALID_SHAPE")]
  /\ calls (trace (main w args)) = []
  /\ error_codes (trace (main w args)) = ["INVALID_SHAPE"]
  /\ completed_events (trace (main w args)) = []
  /\ exit_status (main w args) = 1.
Proof.
  intros Hparse Hlen.
  assert (E : main w args
              = {| trace := [Emit (Log "info" ("Input shape: "
                                               ++ PyStr.of_tuple shape));
                             Emit (Error "Input shape must have at least 2 dimensions"
                                         "INVALID_SHAPE")];
                   exit_status := 1 |}).
  { unfold main, main_script, main_body.
    name_parse args tp rp. subst rp.
    apply Nat.ltb_lt in Hlen. unfold_script.
    cbn [bind try_except fst snd app]. rewrite Hlen. reflexivity. }
  rewrite E. repeat split.
Qed.

Lemma invalid_shape_is_fatal_witness :
  (List.length [224] < 2)%nat
  /\ error_codes (trace (main (world_of (scenario_checkpoint true true))
                              (example_args coreml "224")))
     = ["INVALID_SHAPE"]
  /\ exit_status (main (world_of (scenario_checkpoint true true)) (example_args coreml "224"))
     = 1.
Proof.
  assert (H : (List.length [224] < 2)%nat) by (simpl; lia).
  split; [exact H|].
  pose proof (invalid_shape_is_fatal (world_of (scenario_checkpoint true true))
                (example_args coreml "224") [224] eq_refl H) as T.
  split; apply T.
Defined.

(** C2: when the loader hands back no script module, a run asked for
    coreml prints exactly one error event, with code STATE_DICT_ONLY (not
    CONVERSION_FAILED), prints no completed event and exits with 1. *)
Theorem weights_only_refused_for_coreml
    (w : World) (args : Args) (shape : list Z) (state_dict checkpoint : PyObj) :
  args_format args = coreml ->
  snd (parse_input_shape (args_input_shape args)) = Returns shape ->
  (2 <= List.length shape)%nat ->
  snd (load_pytorch_model w (args_input args) shape)
  = Returns (None, state_dict, checkpoint) ->
  error_codes (trace (main w args)) = ["STATE_DICT_ONLY"]
  /\ ~ In "CONVERSION_FAILED" (error_codes (trace (main w args)))
  /\ completed_events (trace (main w args)) = []
  /\ exit_status (main w args) = 1.
Proof.
  intros Hfmt Hparse Hlen Hload.
  unfold main, main_script, main_body. rewrite Hfmt.
  name_parse args tp rp. subst rp.
  assert (Hlt : (List.length shape <? 2)%nat = false)
    by (apply Nat.ltb_ge; exact Hlen).
  unfold_script. cbn [bind try_except fst snd app]. rewrite Hlt.
  cbn [bind try_except fst snd app].
  name_load w args shape tload rload. subst rload.
  cbn [bind try_except fst snd app trace exit_status].
  rewrite error_codes_of_events.
  match goal with H : In _ _ |- _ => clear H end.
  match goal with H : forall r, _ -> In _ _ |- _ => clear H end.
  obs; use_facts. cbn [flat_map app In].
  repeat split; auto. intros [H'|[]]. discriminate.
Qed.

Lemma weights_only_refused_for_coreml_witness :
  error_codes (trace (main (world_of (scenario_checkpoint true true))
                           (example_args coreml "1,3,224,224")))
  = ["STATE_DICT_ONLY"]
  /\ exit_status (main (world_of (scenario_checkpoint true true))
                       (example_args coreml "1,3,224,224")) = 1.
Proof.
  pose proof (weights_only_refused_for_coreml (world_of (scenario_checkpoint true true))
                (example_args coreml "1,3,224,224") [1; 3; 224; 224]
                (scenario_checkpoint true true) (scenario_checkpoint true true) eq_refl eq_refl
                ltac:(simpl; lia) eq_refl) as T.
  split; apply T.
Defined.

(** The error code [report_conversion_error] chooses for a message. *)
Lemma report_conversion_error_code {A} (e : exn) :
  exists message code,
    @report_conversion_error A e
    = ([Emit (Error message code)], Raises (SystemExit 1))
    /\ (occurs_ignoring_case "not supported" (str e) ->
        code = "UNSUPPORTED_OP")
    /\ (~ occurs_ignoring_case "not supported" (str e) ->
        occurs_ignoring_case "shape" (str e) -> code = "SHAPE_MISMATCH")
    /\ (~ occurs_ignoring_case "not supported" (str e) ->
        ~ occurs_ignoring_case "shape" (str e) ->
        code = "CONVERSION_FAILED").
Proof.
  unfold report_conversion_error.
  destruct (PyStr.contains "not supported" (PyStr.lower (str e))) eqn:E1;
    [|destruct (PyStr.contains "shape" (PyStr.lower (str e))) eqn:E2].
  - apply contains_lower_iff in E1.
    eexists; eexists; split; [reflexivity|]. tauto.
  - apply contains_lower_iff in E2.
    assert (~ occurs_ignoring_case "not supported" (str e))
      by (rewrite <- contains_lower_iff; congruence).
    eexists; eexists; split; [reflexivity|]. tauto.
  - assert (~ occurs_ignoring_case "not supported" (str e))
      by (rewrite <- contains_lower_iff; congruence).
    assert (~ occurs_ignoring_case "shape" (str e))
      by (rewrite <- contains_lower_iff; congruence).
    eexists; eexists; split; [reflexivity|]. tauto.
Qed.

(** C7: when the compile-and-save block of the coreml converter raises an
    exception [e], the run prints exactly one error event and exits with 1.
    The code of the event is UNSUPPORTED_OP if "not supported" occurs in
    the message of [e] up to letter case, else SHAPE_MISMATCH if "shape"
    does, else CONVERSION_FAILED. *)
Theorem compiler_errors_are_classified
    (w : World) (args : Args) (shape : list Z) (traced : ScriptModule)
    (state_dict checkpoint : PyObj) (ty : InputType) (e : exn) :
  args_format args = coreml ->
  snd (parse_input_shape (args_input_shape args)) = Returns shape ->
  (2 <= List.length shape)%nat ->
  snd (load_pytorch_model w (args_input args) shape)
  = Returns (Some traced, state_dict, checkpoint) ->
  import_module w "coremltools" = Returns tt ->
  snd (choose_input_type w shape) = Returns ty ->
  snd (compile_and_save w traced ty shape (args_output args) (args_name args))
  = Raises e ->
  is_Exception e = true ->
  exists message code,
    error_events (trace (main w args)) = [Error message code]
    /\ (occurs_ignoring_case "not supported" (str e) ->
        code = "UNSUPPORTED_OP")
    /\ (~ occurs_ignoring_case "not supported" (str e) ->
        occurs_ignoring_case "shape" (str e) -> code = "SHAPE_MISMATCH")
    /\ (~ occurs_ignoring_case "not supported" (str e) ->
        ~ occurs_ignoring_case "shape" (str e) ->
        code = "CONVERSION_FAILED")
    /\ completed_events (trace (main w args)) = []
    /\ exit_status (main w args) = 1.
Proof.
  intros Hfmt Hparse Hlen Hload Himport Hty Hraise Hexc.
  destruct (@report_conversion_error_code CoremlMetadata e)
    as (message & code & Hreport & Hcodes).
  exists message, code.
  unfold main, main_script, main_body. rewrite Hfmt.
  name_parse args tp rp. subst rp.
  assert (Hlt : (List.length shape <? 2)%nat = false)
    by (apply Nat.ltb_ge; exact Hlen).
  unfold_script. cbn [bind try_except fst snd app]. rewrite Hlt.
  cbn [bind try_except fst snd app].
  name_load w args shape tload rload. subst rload.
  cbn [bind try_except fst snd app].
  unfold convert_to_coreml. rewrite Himport.
  unfold except_ImportError, log, progress, error, emit, call, ret.
  cbn [bind try_except fst snd app].
  pose proof (choose_input_type_silent w shape) as Hc. unfold silent in Hc.
  destruct (choose_input_type w shape) as [tc rc]. cbn [fst snd] in *.
  subst rc. cbn [bind try_except fst snd app].
  pose proof (compile_and_save_summary w traced ty shape (args_output args)
                (args_name args)) as Hs.
  destruct (compile_and_save w traced ty shape (args_output args)
              (args_name args)) as [ts rs]. cbn [fst snd] in *.
  subst rs. cbn [bind try_except fst snd app].
  unfold except_Exception. rewrite Hexc, Hreport.
  cbn [bind try_except fst snd app trace exit_status].
  match goal with H : In _ _ |- _ => clear H end.
  match goal with H : forall r, _ -> In _ _ |- _ => clear H end.
  destruct Hs as (Hs1 & Hs2 & _ & _).
  obs; use_facts. cbn [flat_map filter app].
  repeat split; auto.
Qed.

Lemma compiler_errors_are_classified_witness :
  exists message,
    error_events
      (trace (main (example_world (Returns (PyObject "Net" 0))
                                  (Returns (PyObject "Net" 0))
                                  (Raises (Exception
                                     "Op 'aten::foo' is NOT SUPPORTED")))
                   (example_args coreml "1,3,224,224")))
    = [Error message "UNSUPPORTED_OP"].
Proof.
  destruct (compiler_errors_are_classified
              (example_world (Returns (PyObject "Net" 0))
                             (Returns (PyObject "Net" 0))
                             (Raises (Exception
                                "Op 'aten::foo' is NOT SUPPORTED")))
              (example_args coreml "1,3,224,224") [1; 3; 224; 224]
              (Traced (PyObject "Net" 0) [1; 3; 224; 224])
              PyNone (PyObject "Net" 0)
              (ImageType "input" [1; 3; 224; 224] true RGB)
              (Exception "Op 'aten::foo' is NOT SUPPORTED")
              eq_refl eq_refl ltac:(simpl; lia) eq_refl eq_refl eq_refl
              eq_refl eq_refl)
    as (message & code & Hev & Hcode & _).
  exists message. rewrite Hev.
  rewrite Hcode; [reflexivity|].
  exists "Op 'aten::foo' is ", "NOT SUPPORTED", "". split; reflexivity.
Defined.

Ltac recall_main :=
  repeat match goal with
       | H : parse_input_shape ?s = _ |- _ =>
           let E := fresh in
           pose proof (parse_input_shape_pure s) as E;
           rewrite H in E; cbn [fst] in E; subst; clear H
       | H : load_pytorch_model ?w ?p ?s = _ |- _ =>
           let E := fresh in
           pose proof (load_pytorch_model_summary w p s) as E;
           rewrite H in E; clear H
       | H : convert_to_coreml ?w ?t ?s ?o ?n = _ |- _ =>
           let E := fresh in
           pose proof (convert_to_coreml_summary w t s o n) as E;
           unfold converter_summary, disciplined in E; rewrite H in E; clear H
       | H : convert_to_mlx ?w ?sd ?s ?o ?c = _ |- _ =>
           let E := fresh in
           pose proof (convert_to_mlx_summary w sd s o c) as E;
           unfold converter_summary, disciplined in E; rewrite H in E; clear H
       end.

(** The body of [main] keeps the error discipline, and has printed no
    completed event when it raises. *)
Lemma main_body_disciplined w args :
  let m := main_body w args in
  (exits (snd m) = false -> error_events (fst m) = [])
  /\ (List.length (error_events (fst m)) <= 1)%nat
  /\ (forall e, snd m = Raises e -> completed_events (fst m) = []).
Proof.
  unfold main_body. exec.
  all: recall_main; obs; use_facts; finish.
Qed.

(** An exception that leaves the body of [main] is reported once, as
    CONVERSION_FAILED, and the run exits with 1. *)
Lemma main_reports_exception w args e :
  snd (main_body w args) = Raises e -> is_Exception e = true ->
  error_events (trace (main w args)) = [Error (str e) "CONVERSION_FAILED"]
  /\ completed_events (trace (main w args)) = []
  /\ exit_status (main w args) = 1.
Proof.
  intros Hraise Hexc.
  pose proof (main_body_disciplined w args) as (Hquiet & _ & Hdone).
  unfold main, main_script.
  destruct (main_body w args) as [t r]. cbn [fst snd] in *. subst r.
  specialize (Hdone e eq_refl).
  assert (Herr : error_events t = [])
    by (apply Hquiet; destruct e; try discriminate; reflexivity).
  destruct e; try discriminate; unfold_script;
    cbn [bind try_except fst snd app trace exit_status];
    rewrite error_events_app, completed_events_app, Herr, Hdone;
    repeat split.
Qed.

(** When both attempts at [torch.load] fail, the body of [main] raises
    with the message of the first attempt. *)
Lemma main_body_load_failure w args shape e1 e2 :
  snd (parse_input_shape (args_input_shape args)) = Returns shape ->
  (2 <= List.length shape)%nat ->
  import_module w "torch" = Returns tt ->
  torch_load w (args_input args) false = Raises e1 ->
  is_Exception e1 = true ->
  torch_load w (args_input args) true = Raises e2 ->
  is_Exception e2 = true ->
  snd (main_body w args)
  = Raises (Exception ("Failed to load model: " ++ str e1)).
Proof.
  intros Hparse Hlen Himport H1 Hexc1 H2 Hexc2.
  unfold main_body. name_parse args tp rp. subst rp.
  assert (Hlt : (List.length shape <? 2)%nat = false)
    by (apply Nat.ltb_ge; exact Hlen).
  unfold_script. cbn [bind try_except fst snd app]. rewrite Hlt.
  cbn [bind try_except fst snd app].
  unfold load_pytorch_model, load_checkpoint. unfold_script.
  rewrite Himport, H1, H2. cbn [bind try_except fst snd app].
  rewrite Hexc1. cbn [bind try_except fst snd app].
  rewrite Hexc2. reflexivity.
Qed.

(** A token of the shape argument that [int] rejects makes the parser
    raise a [ValueError]. *)
Lemma map_int_rejects toks tok :
  In tok toks -> PyStr.to_Z tok = None ->
  exists msg, snd (map_int toks) = Raises (Exception msg).
Proof.
  induction toks as [|t r IH]; intros Hin Hbad; [contradiction|].
  cbn [map_int]. unfold py_int.
  destruct (PyStr.literal t) eqn:Et; try (eexists; reflexivity).
  destruct Hin as [->|Hin];
    [unfold PyStr.to_Z in Hbad; rewrite Et in Hbad; discriminate|].
  destruct (IH Hin Hbad) as [msg Hmsg].
  unfold_script. cbn [bind fst snd].
  destruct (map_int r) as [tr [ns|e]]; cbn [fst snd] in *;
    [discriminate|]. exists msg. unfold bind. now rewrite Hmsg.
Qed.

Lemma main_body_shape_failure w args tok :
  In tok (PyStr.split "," (args_input_shape args)) ->
  PyStr.to_Z tok = None ->
  exists msg, snd (main_body w args) = Raises (Exception msg).
Proof.
  intros Hin Hbad.
  destruct (map_int_rejects _ _ Hin Hbad) as [msg Hmsg].
  exists msg. unfold main_body.
  change (parse_input_shape (args_input_shape args))
    with (map_int (PyStr.split "," (args_input_shape args))).
  destruct (map_int (PyStr.split "," (args_input_shape args))) as [t r].
  cbn [fst snd] in *. subst r. reflexivity.
Qed.

(** C10: every exception that reaches the top of [main] is reported by
    exactly one error event, with code CONVERSION_FAILED, and exit status
    1. That is the case of a checkpoint that fails to load at both
    attempts (the message is that of the first attempt) and of a shape
    argument with a token [int] rejects; neither INVALID_CHECKPOINT nor
    INVALID_SHAPE is used for them. *)
Theorem unhandled_failures_are_generic (w : World) (args : Args) :
  (forall e,
     snd (main_body w args) = Raises e -> is_Exception e = true ->
     error_events (trace (main w args)) = [Error (str e) "CONVERSION_FAILED"]
     /\ completed_events (trace (main w args)) = []
     /\ exit_status (main w args) = 1)
  /\ (forall shape e1 e2,
        snd (parse_input_shape (args_input_shape args)) = Returns shape ->
        (2 <= List.length shape)%nat ->
        import_module w "torch" = Returns tt ->
        torch_load w (args_input args) false = Raises e1 ->
        is_Exception e1 = true ->
        torch_load w (args_input args) true = Raises e2 ->
        is_Exception e2 = true ->
        error_events (trace (main w args))
        = [Error ("Failed to load model: " ++ str e1) "CONVERSION_FAILED"]
        /\ exit_status (main w args) = 1)
  /\ (forall tok,
        In tok (PyStr.split "," (args_input_shape args)) ->
        PyStr.to_Z tok = None ->
        exists msg,
          error_events (trace (main w args))
          = [Error msg "CONVERSION_FAILED"]
          /\ exit_status (main w args) = 1).
Proof.
  split; [intros e; apply main_reports_exception|]. split.
  - intros shape e1 e2 Hparse Hlen Himport H1 Hexc1 H2 Hexc2.
    pose proof (main_body_load_failure w args shape e1 e2 Hparse Hlen Himport
                  H1 Hexc1 H2 Hexc2) as Hbody.
    destruct (main_reports_exception w args _ Hbody eq_refl) as (He & _ & Hx).
    split; assumption.
  - intros tok Hin Hbad.
    destruct (main_body_shape_failure w args tok Hin Hbad) as [msg Hbody].
    destruct (main_reports_exception w args _ Hbody eq_refl) as (He & _ & Hx).
    exists msg. split; assumption.
Qed.

Lemma unhandled_failures_are_generic_witness :
  error_events
    (trace (main (example_world (Raises (Exception "invalid load key"))
                                (Raises (Exception "unsupported pickle"))
                                (Returns tt))
                 (example_args mlx "1,3,224,224")))
  = [Error "Failed to load model: invalid load key" "CONVERSION_FAILED"]
  /\ exists msg,
       error_events (trace (main (world_of (scenario_checkpoint true true))
                                 (example_args mlx "1,3,abc")))
       = [Error msg "CONVERSION_FAILED"].
Proof.
  split.
  - apply (proj1 (proj2 (unhandled_failures_are_generic
                           (example_world (Raises (Exception "invalid load key"))
                              (Raises (Exception "unsupported pickle"))
                              (Returns tt))
                           (example_args mlx "1,3,224,224")))
             [1; 3; 224; 224] (Exception "invalid load key")
             (Exception "unsupported pickle") eq_refl ltac:(simpl; lia)
             eq_refl eq_refl eq_refl eq_refl eq_refl).
  - destruct (proj2 (proj2 (unhandled_failures_are_generic
                              (world_of (scenario_checkpoint true true))
                              (example_args mlx "1,3,abc")))
                "abc" ltac:(simpl; tauto) eq_refl) as [msg [H _]].
    exists msg. exact H.
Defined.

(* ================================================================== *)
(** ** Progress *)

Lemma nondecreasingb_sound l :
  nondecreasingb l = true -> StronglySorted float_le l.
Proof.
  induction l as [|x r IH]; simpl; intros H; constructor.
  - apply IH. now apply andb_true_iff in H.
  - apply andb_true_iff in H. destruct H as [H _].
    rewrite forallb_forall in H. apply Forall_forall. exact H.
Qed.

Lemma in_unit_interval_sound l :
  forallb in_unit_intervalb l = true ->
  Forall (fun p => float_le 0 p /\ float_le p 1) l.
Proof.
  rewrite forallb_forall. intros H. apply Forall_forall. intros p Hp.
  specialize (H p Hp). unfold in_unit_intervalb in H.
  now apply andb_true_iff in H.
Qed.

Lemma main_progress_checked w args :
  (nondecreasingb (progress_values (trace (main w args)))
   && forallb in_unit_intervalb (progress_values (trace (main w args))))%bool
  = true.
Proof.
  unfold main, main_script, main_body. exec.
  all: recall_main; cbn [trace]; obs.
  all: repeat match goal with
              | H : _ /\ _ |- _ => destruct H
              | H : filter _ _ = _ |- _ => clear H
              | H : (_ <= _)%nat |- _ => clear H
              | H : _ -> filter _ _ = _ |- _ => clear H
              end.
  all: use_facts.
  all: reflexivity.
Qed.

(** A completed event, when there is one, is the last effect of the run,
    and the progress before it ends with 1.0. *)
Lemma main_completed_last w args :
  completed_events (trace (main w args)) = []
  \/ exists t0 out fmt md ps,
       trace (main w args) = (t0 ++ [Emit (Completed out fmt md)])%list
       /\ completed_events t0 = []
       /\ progress_values t0 = (ps ++ [1.0%float])%list.
Proof.
  unfold main, main_script, main_body. exec.
  all: recall_main; cbn [trace].
  all: try (left; obs; use_facts; reflexivity).
  all: right.
  all: repeat rewrite app_assoc; repeat rewrite app_comm_cons.
  all: do 5 eexists.
  all: split; [reflexivity|].
  all: cbv zeta in *; cbn [fst snd] in *.
  all: repeat match goal with H : _ /\ _ |- _ => destruct H end.
  all: repeat match goal with
              | H : In _ _ |- _ => clear H
              | H : forall r : Loaded, @?P r |- _ => clear H
              end.
  all: obs; use_facts.
  all: split; [reflexivity|].
  all: apply (app_assoc _ [_; _; _; _] [_]).
Qed.

Lemma completed_is_last (E pre post : list Event) (c c0 : Event) :
  (pre ++ c :: post)%list = (E ++ [c0])%list ->
  filter is_completed E = [] -> is_completed c = true ->
  pre = E.
Proof.
  revert pre; induction E as [|x E IH]; intros pre Heq Hnone Hc.
  - destruct pre as [|y pre]; [reflexivity|].
    simpl in Heq. injection Heq as _ Heq.
    destruct pre; discriminate.
  - simpl in Hnone. destruct (is_completed x) eqn:Ex; [discriminate|].
    destruct pre as [|y pre]; simpl in Heq; injection Heq as Hy Heq.
    + congruence.
    + subst y. f_equal. now apply IH.
Qed.

(** C6: in every run the progress values are non-decreasing, each lies
    between 0.0 and 1.0, and the progress events printed before a completed
    event end with the value 1.0. *)
Theorem progress_is_monotone (w : World) (args : Args) :
  StronglySorted float_le (progress_values (trace (main w args)))
  /\ Forall (fun p => float_le 0 p /\ float_le p 1)
            (progress_values (trace (main w args)))
  /\ (forall pre c post,
        events (trace (main w args)) = (pre ++ c :: post)%list ->
        is_completed c = true ->
        exists ps, progress_of pre = (ps ++ [1.0%float])%list).
Proof.
  pose proof (main_progress_checked w args) as Hc.
  apply andb_true_iff in Hc. destruct Hc as [Hs Hb].
  split; [now apply nondecreasingb_sound|].
  split; [now apply in_unit_interval_sound|].
  intros pre c post Hsplit Hc.
  destruct (main_completed_last w args)
    as [Hnone|(t0 & out & fmt & md & ps & Ht & Hnone & Hps)].
  - exfalso. unfold completed_events in Hnone. rewrite Hsplit in Hnone.
    rewrite filter_app in Hnone. simpl in Hnone. rewrite Hc in Hnone.
    destruct (filter is_completed pre); discriminate.
  - rewrite Ht, events_app in Hsplit. simpl in Hsplit.
    exists ps. rewrite <- Hps. unfold progress_values. f_equal.
    symmetry in Hsplit.
    exact (completed_is_last _ _ _ _ _ Hsplit Hnone Hc).
Qed.

Lemma progress_is_monotone_witness :
  exists ps,
    progress_of
      (removelast (events (trace (main (world_of (scenario_checkpoint true true))
                                       (example_args mlx "1,3,224,224")))))
    = (ps ++ [1.0%float])%list.
Proof.
  apply (proj2 (proj2 (progress_is_monotone
                         (world_of (scenario_checkpoint true true))
                         (example_args mlx "1,3,224,224")))
           _
           (Completed "out/model" "mlx"
              (OfMlx {| ms_inputShape := [1; 3; 224; 224];
                        ms_format := "mlx";
                        ms_architectureType := "CNN";
                        ms_layerCount := 2;
                        ms_totalParameters := 448 |}))
           []).
  - vm_compute. reflexivity.
  - reflexivity.
Defined.

(* ================================================================== *)
(** ** End-to-end runs *)

(** C5, as the code has it: on the shape 1,3,224,224 and the all-tensor
    mapping with conv1.weight [16,3,3,3] float16 and conv1.bias [16]
    float16, a run for mlx in a world whose libraries succeed writes an
    archive of exactly two float32 tensors of unchanged shapes, writes a
    sidecar document with architectureType CNN, layerCount 2 and
    totalParameters 448 (16*3*3*3 + 16), prints exactly one completed
    event, with format mlx, prints no error event and exits with 0. *)
Theorem end_to_end_mlx_scenario
    (w : World) (args : Args) (c1 c2 : bool) (meta_path : string) :
  args_format args = mlx ->
  args_input_shape args = "1,3,224,224" ->
  import_module w "torch" = Returns tt ->
  import_module w "safetensors.torch" = Returns tt ->
  torch_load w (args_input args) false = Returns (scenario_checkpoint c1 c2) ->
  save_file w scenario_archive (path_str w (args_output args)) = Returns tt ->
  with_suffix w (path_str w (args_output args)) ".json" = Returns meta_path ->
  json_dump w meta_path (scenario_sidecar 448) = Returns tt ->
  archives (trace (main w args))
  = [(path_str w (args_output args), scenario_archive)]
  /\ sidecars (trace (main w args)) = [(meta_path, scenario_sidecar 448)]
  /\ completed_events (trace (main w args))
     = [Completed (args_output args) "mlx" (OfMlx (scenario_summary 448))]
  /\ error_events (trace (main w args)) = []
  /\ exit_status (main w args) = 0.
Proof.
  intros Hfmt Hshape Htorch Hsafe Hload Hsave Hsuffix Hdump.
  unfold main, main_script, main_body. rewrite Hfmt, Hshape.
  change (parse_input_shape "1,3,224,224") with (ret [1; 3; 224; 224]).
  unfold load_pytorch_model, load_checkpoint, convert_to_mlx, save_tensors.
  unfold_script. rewrite Htorch, Hsafe, Hload.
  unfold scenario_archive, scenario_sidecar, scenario_summary in *.
  cbn -[path_str save_file with_suffix json_dump String.append].
  unfold contiguous, float_.
  cbn -[path_str save_file with_suffix json_dump String.append].
  rewrite Hsave.
  cbn -[path_str save_file with_suffix json_dump String.append].
  rewrite Hsuffix.
  cbn -[path_str save_file with_suffix json_dump String.append].
  match goal with
  | |- context [json_dump w meta_path ?md] =>
      let md' := eval vm_compute in md in change md with md'
  end.
  rewrite Hdump.
  cbn -[path_str save_file with_suffix json_dump String.append].
  repeat split.
Qed.

Lemma end_to_end_mlx_scenario_witness :
  sidecars (trace (main (world_of (scenario_checkpoint true true))
                        (example_args mlx "1,3,224,224")))
  = [("out/model.json", scenario_sidecar 448)]
  /\ exit_status (main (world_of (scenario_checkpoint true true))
                       (example_args mlx "1,3,224,224")) = 0.
Proof.
  pose proof (end_to_end_mlx_scenario
                (world_of (scenario_checkpoint true true))
                (example_args mlx "1,3,224,224") true true "out/model.json"
                eq_refl eq_refl eq_refl eq_refl eq_refl eq_refl eq_refl
                eq_refl) as T.
  split; apply T.
Defined.

(** C5 as stated fails: the sidecar document of the scenario does not
    report 451 parameters. *)
Lemma scenario_total_is_not_451 :
  map (fun d => totalParameters (snd d))
      (sidecars (trace (main (world_of (scenario_checkpoint true true))
                             (example_args mlx "1,3,224,224"))))
  <> [451].
Proof. vm_compute. intros H. discriminate H. Qed.

(** C9: the empty mapping is classified as a weight mapping, and a run for
    mlx on it, in a world whose libraries succeed, writes an empty archive
    and a sidecar document with layerCount 0, totalParameters 0 and
    architectureType MLP, prints one completed event and exits with 0. *)
Theorem empty_mapping_converts
    (w : World) (args : Args) (shape : list Z) (meta_path : string) :
  args_format args = mlx ->
  snd (parse_input_shape (args_input_shape args)) = Returns shape ->
  (2 <= List.length shape)%nat ->
  import_module w "torch" = Returns tt ->
  import_module w "safetensors.torch" = Returns tt ->
  torch_load w (args_input args) false = Returns (PyDict []) ->
  save_file w [] (path_str w (args_output args)) = Returns tt ->
  with_suffix w (path_str w (args_output args)) ".json" = Returns meta_path ->
  json_dump w meta_path (empty_sidecar shape) = Returns tt ->
  snd (classify_checkpoint (PyDict [])) = Returns (PyNone, PyDict [])
  /\ archives (trace (main w args)) = [(path_str w (args_output args), [])]
  /\ sidecars (trace (main w args)) = [(meta_path, empty_sidecar shape)]
  /\ completed_events (trace (main w args))
     = [Completed (args_output args) "mlx" (OfMlx (empty_summary shape))]
  /\ error_events (trace (main w args)) = []
  /\ exit_status (main w args) = 0.
Proof.
  intros Hfmt Hparse Hlen Htorch Hsafe Hload Hsave Hsuffix Hdump.
  split; [reflexivity|].
  unfold main, main_script, main_body. rewrite Hfmt.
  name_parse args tp rp. subst rp.
  assert (Hlt : (List.length shape <? 2)%nat = false)
    by (apply Nat.ltb_ge; exact Hlen).
  unfold load_pytorch_model, load_checkpoint, convert_to_mlx, save_tensors.
  unfold empty_sidecar, empty_summary in *.
  unfold_script. rewrite Htorch, Hsafe, Hload.
  cbn -[path_str save_file with_suffix json_dump String.append PyStr.of_tuple
        Nat.ltb].
  rewrite Hlt.
  cbn -[path_str save_file with_suffix json_dump String.append PyStr.of_tuple
        Nat.ltb].
  rewrite Hsave.
  cbn -[path_str save_file with_suffix json_dump String.append PyStr.of_tuple].
  rewrite Hsuffix.
  cbn -[path_str save_file with_suffix json_dump String.append PyStr.of_tuple].
  change (infer_architecture []) with "MLP".
  rewrite Hdump.
  cbn -[path_str save_file with_suffix json_dump String.append PyStr.of_tuple].
  repeat split.
Qed.

Lemma empty_mapping_converts_witness :
  sidecars (trace (main (world_of (PyDict []))
                        (example_args mlx "1,3,224,224")))
  = [("out/model.json", empty_sidecar [1; 3; 224; 224])]
  /\ exit_status (main (world_of (PyDict []))
                       (example_args mlx "1,3,224,224")) = 0.
Proof.
  pose proof (empty_mapping_converts
                (world_of (PyDict [])) (example_args mlx "1,3,224,224")
                [1; 3; 224; 224] "out/model.json"
                eq_refl eq_refl ltac:(simpl; lia) eq_refl eq_refl eq_refl
                eq_refl eq_refl eq_refl) as T.
  split; apply T.
Defined.

(* ================================================================== *)
(** ** The classifier *)

Lemma load_checkpoint_calls w path :
  existsb is_materializer_call (calls (fst (load_checkpoint w path))) = false.
Proof. unfold load_checkpoint. exec; reflexivity. Qed.

(** When the classifier leaves [model] at [None], [load_pytorch_model]
    makes no call of the materializer, and returns the weights when there
    are any. *)
Lemma load_bypasses_materializer w path shape checkpoint sd :
  snd (load_checkpoint w path) = Returns checkpoint ->
  snd (classify_checkpoint checkpoint) = Returns (PyNone, sd) ->
  existsb is_materializer_call
          (calls (fst (load_pytorch_model w path shape))) = false
  /\ (import_module w "torch" = Returns tt -> is_None sd = false ->
      snd (load_pytorch_model w path shape) = Returns (None, sd, checkpoint)).
Proof.
  intros Hload Hclass.
  pose proof (load_checkpoint_calls w path) as Hc1.
  pose proof (classify_checkpoint_calls checkpoint) as Hc2.
  unfold load_pytorch_model.
  destruct (load_checkpoint w path) as [t1 r1].
  cbn [fst snd] in *. subst r1.
  destruct (import_module w "torch") as [[]|e]; unfold_script;
    cbn [bind fst snd app]; [|split; [reflexivity | discriminate]].
  destruct (classify_checkpoint checkpoint) as [t2 r2].
  cbn [fst snd] in *. subst r2.
  cbn [bind fst snd app is_None andb negb].
  destruct (is_None sd) eqn:Esd; cbn [bind fst snd app is_None andb negb];
    (split; [|intros; congruence]);
    unfold calls in *;
    repeat (progress (cbn [flat_map app existsb is_materializer_call orb];
                      rewrite ?flat_map_app, ?existsb_app));
    rewrite ?Hc1, ?Hc2; reflexivity.
Qed.

(** C1: the classifier follows the ordered rules. On a mapping: with a key
    [model], the variable [model] takes the nested value whatever the other
    keys; else with a key [state_dict], else [model_state_dict],
    [state_dict] takes the nested value; else, if every value is a tensor,
    [state_dict] takes the whole mapping; else [model] takes the whole
    mapping. A checkpoint that is not a mapping goes to [model]. And
    whenever the classifier yields a weight mapping, [load_pytorch_model]
    makes no call of the materializer (eval, trace, script, state_dict) and
    returns the weights as they are. *)
Theorem classification_follows_rule_order (checkpoint : PyObj) :
  let classified := snd (classify_checkpoint checkpoint) in
  let RunnableModel (m : PyObj) := Returns (m, PyNone) in
  let WeightMapping (sd : PyObj) := Returns (PyNone, sd) in
  (forall d m,
     checkpoint = PyDict d -> Dict.get "model" d = Some m ->
     classified = RunnableModel m)
  /\ (forall d sd,
        checkpoint = PyDict d -> Dict.get "model" d = None ->
        Dict.get "state_dict" d = Some sd ->
        classified = WeightMapping sd)
  /\ (forall d sd,
        checkpoint = PyDict d -> Dict.get "model" d = None ->
        Dict.get "state_dict" d = None ->
        Dict.get "model_state_dict" d = Some sd ->
        classified = WeightMapping sd)
  /\ (forall d,
        checkpoint = PyDict d -> Dict.get "model" d = None ->
        Dict.get "state_dict" d = None ->
        Dict.get "model_state_dict" d = None ->
        (forallb is_tensor (Dict.values d) = true ->
         classified = WeightMapping checkpoint)
        /\ (forallb is_tensor (Dict.values d) = false ->
            classified = RunnableModel checkpoint))
  /\ ((forall d, checkpoint <> PyDict d) ->
      classified = RunnableModel checkpoint)
  /\ (forall w path shape sd,
        snd (load_checkpoint w path) = Returns checkpoint ->
        classified = WeightMapping sd ->
        existsb is_materializer_call
                (calls (fst (load_pytorch_model w path shape))) = false
        /\ (import_module w "torch" = Returns tt -> is_None sd = false ->
            snd (load_pytorch_model w path shape)
            = Returns (None, sd, checkpoint))).
Proof.
  cbv zeta.
  split; [|split; [|split; [|split; [|split]]]].
  - intros d m -> Hm. cbn [classify_checkpoint]. now rewrite Hm.
  - intros d sd -> Hm Hsd. cbn [classify_checkpoint]. now rewrite Hm, Hsd.
  - intros d sd -> Hm Hsd Hmsd. cbn [classify_checkpoint].
    now rewrite Hm, Hsd, Hmsd.
  - intros d -> Hm Hsd Hmsd. cbn [classify_checkpoint].
    rewrite Hm, Hsd, Hmsd. split; intros ->; reflexivity.
  - intros Hnd. destruct checkpoint; try reflexivity.
    exfalso. eapply Hnd. reflexivity.
  - intros w path shape sd. apply load_bypasses_materializer.
Qed.

Lemma classification_follows_rule_order_witness :
  snd (classify_checkpoint
         (PyDict [("epoch", PyInt 3);
                  ("state_dict", PyDict [("fc.weight",
                                          PyTensor (mkTensor [4; 2] float32 true))]);
                  ("model", PyObject "Net" 0)]))
  = Returns (PyObject "Net" 0, PyNone)
  /\ existsb is_materializer_call
       (calls (fst (load_pytorch_model (world_of (PyDict [])) "model.pt"
                                       [1; 3; 224; 224]))) = false.
Proof.
  split.
  - apply (proj1 (classification_follows_rule_order _)
             [("epoch", PyInt 3);
              ("state_dict", PyDict [("fc.weight",
                                      PyTensor (mkTensor [4; 2] float32 true))]);
              ("model", PyObject "Net" 0)]
             (PyObject "Net" 0) eq_refl eq_refl).
  - apply (proj2 (proj2 (proj2 (proj2 (proj2
             (classification_follows_rule_order (PyDict []))))))
             (world_of (PyDict [])) "model.pt" [1; 3; 224; 224] (PyDict [])
             eq_refl eq_refl).
Defined.

(* ================================================================== *)
(** ** Tensor records *)

Lemma process_tensors_eq items :
  process_tensors items
  = (fold_left store (tensor_entries items) [],
     map record_of (tensor_entries items)).
Proof. unfold process_tensors. now rewrite process_tensors_fold. Qed.

Lemma dtype_str_half d :
  dtype_str d = "torch.float16" \/ dtype_str d = "torch.bfloat16" ->
  is_half d = true.
Proof. destruct d; simpl; intros [H|H]; try discriminate; reflexivity. Qed.

Lemma existsb_key_iff k (entries : list (string * Tensor)) :
  existsb (fun kt => String.eqb k (fst kt)) entries = true
  <-> exists t, In (k, t) entries.
Proof.
  rewrite existsb_exists. split.
  - intros [[k' t] [Hin Heq]]. simpl in Heq.
    apply String.eqb_eq in Heq. subst. now exists t.
  - intros [t Hin]. exists (k, t). split; [assumption|].
    simpl. apply String.eqb_refl.
Qed.

(** The archive and the sidecar document of [save_tensors] on a dict are
    the two results of the loop. *)
Lemma save_tensors_outputs w items shape out :
  (forall p ts, In (p, ts) (archives (fst (save_tensors w (PyDict items) shape out))) ->
                ts = fst (process_tensors items))
  /\ (forall p md, In (p, md) (sidecars (fst (save_tensors w (PyDict items) shape out))) ->
                   layers md = snd (process_tensors items)).
Proof.
  unfold save_tensors, py_items. exec.
  all: unfold archives, sidecars; obs.
  all: split; intros ? ? Hin; repeat destruct Hin as [Hin|Hin];
    try contradiction; inversion Hin; subst; reflexivity.
Qed.

Lemma convert_to_mlx_outputs w items shape out ckpt :
  (forall p ts,
     In (p, ts) (archives (fst (convert_to_mlx w (PyDict items) shape out ckpt))) ->
     ts = fst (process_tensors items))
  /\ (forall p md,
        In (p, md) (sidecars (fst (convert_to_mlx w (PyDict items) shape out ckpt))) ->
        layers md = snd (process_tensors items)).
Proof.
  unfold convert_to_mlx. cbn [is_None]. exec.
  all: try match goal with
       | H : save_tensors _ _ _ _ = _ |- _ =>
           pose proof (save_tensors_outputs w items shape out) as [Ha Hs];
           rewrite H in Ha, Hs; cbn [fst snd] in Ha, Hs
       end.
  all: unfold archives, sidecars in *; obs.
  all: split; intros ? ? Hin; try contradiction; eauto.
Qed.

(** C4: the loop of [convert_to_mlx] over a weight mapping records one
    entry per tensor-valued item, in order, under the item's key and with
    exactly the source tensor's shape, and none for the other items; every
    archived tensor has the shape of a source tensor under its key, with
    float16 and bfloat16 replaced by float32 and every other element type
    kept, so that no archived tensor and no recorded dtype label is float16
    or bfloat16; the archived keys are exactly the keys of tensor-valued
    items; and what [convert_to_mlx] hands to the archive writer and to the
    sidecar document are these tensors and these records. *)
Theorem tensor_records_match_sources (items : list (string * PyObj)) :
  Forall2 (fun r kt => name r = fst kt /\ layer_shape r = shape (snd kt))
          (snd (process_tensors items)) (tensor_entries items)
  /\ (forall k t,
        In (k, t) (fst (process_tensors items)) ->
        exists src,
          In (k, PyTensor src) items
          /\ shape t = shape src
          /\ dtype_of t
             = if is_half (dtype_of src) then float32 else dtype_of src)
  /\ (forall k t,
        In (k, t) (fst (process_tensors items)) ->
        dtype_of t <> float16 /\ dtype_of t <> bfloat16)
  /\ Forall (fun r => layer_dtype r <> "torch.float16"
                      /\ layer_dtype r <> "torch.bfloat16")
            (snd (process_tensors items))
  /\ (forall k,
        Dict.mem k (fst (process_tensors items)) = true
        <-> exists src, In (k, PyTensor src) items)
  /\ (forall w shape out ckpt p ts,
        In (p, ts)
           (archives (fst (convert_to_mlx w (PyDict items) shape out ckpt))) ->
        ts = fst (process_tensors items))
  /\ (forall w shape out ckpt p md,
        In (p, md)
           (sidecars (fst (convert_to_mlx w (PyDict items) shape out ckpt))) ->
        layers md = snd (process_tensors items)).
Proof.
  rewrite process_tensors_eq. cbn [fst snd].
  split; [|split; [|split; [|split; [|split; [|split]]]]].
  - induction (tensor_entries items) as [|kt l IH]; simpl; constructor.
    + split; [reflexivity | apply retained_shape].
    + exact IH.
  - intros k t Hin.
    destruct (store_fold_In _ _ _ _ Hin) as [[]|[src [Hsrc ->]]].
    exists src. split; [now apply tensor_entries_In|].
    split; [apply retained_shape | apply retained_dtype].
  - intros k t Hin.
    destruct (store_fold_In _ _ _ _ Hin) as [[]|[src [Hsrc ->]]].
    pose proof (retained_not_half src) as Hnh.
    split; intros E; rewrite E in Hnh; discriminate.
  - apply Forall_forall. intros r Hr. apply in_map_iff in Hr.
    destruct Hr as [[k t] [<- _]]. cbn [record_of layer_dtype snd].
    pose proof (retained_not_half t) as Hnh.
    split; intros E;
      rewrite dtype_str_half in Hnh; auto; discriminate.
  - intros k. rewrite store_fold_mem. cbn [Dict.mem Dict.get orb].
    rewrite existsb_key_iff. split; intros [t Ht]; exists t;
      now apply tensor_entries_In.
  - intros w shape out ckpt p ts Hin.
    pose proof (proj1 (convert_to_mlx_outputs w items shape out ckpt) p ts Hin)
      as H.
    now rewrite process_tensors_eq in H.
  - intros w shape out ckpt p md Hin.
    pose proof (proj2 (convert_to_mlx_outputs w items shape out ckpt) p md Hin)
      as H.
    now rewrite process_tensors_eq in H.
Qed.

Lemma tensor_records_match_sources_witness :
  exists src,
    In ("conv1.bias", PyTensor src)
       [("conv1.weight", PyTensor (mkTensor [16; 3; 3; 3] float16 true));
        ("step", PyInt 7);
        ("conv1.bias", PyTensor (mkTensor [16] bfloat16 false))]
    /\ shape (mkTensor [16] float32 true) = shape src
    /\ float32 = if is_half (dtype_of src) then float32 else dtype_of src.
Proof.
  apply (proj1 (proj2 (tensor_records_match_sources
                         [("conv1.weight",
                           PyTensor (mkTensor [16; 3; 3; 3] float16 true));
                          ("step", PyInt 7);
                          ("conv1.bias",
                           PyTensor (mkTensor [16] bfloat16 false))]))
           "conv1.bias" (mkTensor [16] float32 true)).
  vm_compute. tauto.
Defined.

(* ================================================================== *)
(** * Properties of whole runs and of the parts *)

(** ** The shape argument *)

Lemma split_length (c : ascii) (s : string) :
  List.length (PyStr.split c s) = S (count_char c s).
Proof.
  induction s as [|ch r IH]; [reflexivity|].
  cbn [PyStr.split count_char].
  destruct (Ascii.eqb ch c).
  - simpl. now rewrite IH.
  - destruct (PyStr.split c r); simpl in *; [discriminate | exact IH].
Qed.

Lemma map_int_length toks : forall ns,
  snd (map_int toks) = Returns ns -> List.length ns = List.length toks.
Proof.
  induction toks as [|tok r IH]; intros ns H.
  - cbn in H. injection H as <-. reflexivity.
  - cbn [map_int] in H. unfold py_int in H.
    destruct (PyStr.literal tok); try discriminate.
    unfold_script. cbn [bind fst snd app] in H.
    destruct (map_int r) as [t [ms|e]]; cbn [fst snd bind] in *;
      [|discriminate].
    injection H as <-. simpl. f_equal. now apply IH.
Qed.

(** X1: a parsed shape has one dimension more than the argument has commas;
    it is never empty. *)
Theorem parsed_shape_dimensions (s : string) (shape : list Z) :
  snd (parse_input_shape s) = Returns shape ->
  List.length shape = S (count_char "," s) /\ shape <> [].
Proof.
  intros H. apply map_int_length in H. rewrite split_length in H.
  split; [exact H|]. intros ->. discriminate.
Qed.

Lemma parsed_shape_dimensions_witness :
  List.length [1; 3; 224; 224] = S (count_char "," "1,3,224,224")
  /\ [1; 3; 224; 224] <> [].
Proof. exact (parsed_shape_dimensions "1,3,224,224" [1; 3; 224; 224] eq_refl). Defined.

(** *** Printing and parsing an integer *)

Lemma decode_ascii c l :
  (N_of_ascii c <? 128)%N = true ->
  PyStr.decode (c :: l) = (N_of_ascii c, String c EmptyString) :: PyStr.decode l.
Proof. intros H. cbn [PyStr.decode]. now rewrite H. Qed.

(** [int] reads each character of a decimal numeral as its digit. *)
Lemma lit_chars_of_uint d :
  map (fun c => PyStr.lit_char (fst c)) (PyStr.chars (NilEmpty.string_of_uint d))
  = lits_of_uint d.
Proof.
  unfold PyStr.chars.
  induction d; cbn [NilEmpty.string_of_uint list_ascii_of_string lits_of_uint];
    [reflexivity|..];
    rewrite decode_ascii by reflexivity; cbn [map fst]; rewrite IHd;
    reflexivity.
Qed.

Lemma nb_digits_length d :
  String.length (NilEmpty.string_of_uint d) = Decimal.nb_digits d.
Proof.
  induction d; cbn [NilEmpty.string_of_uint String.length Decimal.nb_digits];
    congruence.
Qed.

Lemma scan_digits_acc d : forall p n,
  PyStr.scan_digits (Z.pos p) n false (lits_of_uint d)
  = Some (Z.pos (Pos.of_uint_acc d p), (n + N.of_nat (Decimal.nb_digits d))%N,
          []).
Proof.
  induction d; intros p n;
    cbn [lits_of_uint PyStr.scan_digits Pos.of_uint_acc Decimal.nb_digits];
    [now rewrite N.add_0_r|..];
    replace (n + N.of_nat (S (Decimal.nb_digits d)))%N
      with ((n + 1) + N.of_nat (Decimal.nb_digits d))%N by lia;
    rewrite <- IHd; f_equal; lia.
Qed.

Lemma scan_digits_uint d : forall n,
  PyStr.scan_digits 0 n false (lits_of_uint d)
  = Some (Z.of_N (Pos.of_uint d), (n + N.of_nat (Decimal.nb_digits d))%N, []).
Proof.
  induction d; intros n;
    cbn [lits_of_uint PyStr.scan_digits Pos.of_uint Decimal.nb_digits];
    [now rewrite N.add_0_r|..];
    replace (n + N.of_nat (S (Decimal.nb_digits d)))%N
      with ((n + 1) + N.of_nat (Decimal.nb_digits d))%N by lia.
  - rewrite <- IHd. reflexivity.
  - rewrite (scan_digits_acc d 1). reflexivity.
  - rewrite (scan_digits_acc d 2). reflexivity.
  - rewrite (scan_digits_acc d 3). reflexivity.
  - rewrite (scan_digits_acc d 4). reflexivity.
  - rewrite (scan_digits_acc d 5). reflexivity.
  - rewrite (scan_digits_acc d 6). reflexivity.
  - rewrite (scan_digits_acc d 7). reflexivity.
  - rewrite (scan_digits_acc d 8). reflexivity.
  - rewrite (scan_digits_acc d 9). reflexivity.
Qed.

(** [int] reads a decimal numeral of at most 4300 digits as its value. *)
Lemma unsigned_literal_uint d :
  d <> Decimal.Nil ->
  (N.of_nat (Decimal.nb_digits d) <= PyStr.max_str_digits)%N ->
  PyStr.unsigned_literal (lits_of_uint d)
  = PyStr.IntValue (Z.of_N (Pos.of_uint d)).
Proof.
  intros Hd Hcap. unfold PyStr.unsigned_literal.
  rewrite scan_digits_uint. rewrite N.add_0_l.
  assert (Hlt : (PyStr.max_str_digits <? N.of_nat (Decimal.nb_digits d))%N
                = false) by (apply N.ltb_ge; exact Hcap).
  assert (Hnz : (N.of_nat (Decimal.nb_digits d) =? 0)%N = false).
  { apply N.eqb_neq. destruct d; cbn [Decimal.nb_digits]; try lia.
    congruence. }
  rewrite Hlt, Hnz. cbn [PyStr.skip_blanks].
  destruct d; reflexivity.
Qed.

Lemma skip_blanks_uint d :
  PyStr.skip_blanks (lits_of_uint d) = lits_of_uint d.
Proof. destruct d; reflexivity. Qed.

Lemma lits_of_uint_unsigned d :
  match lits_of_uint d with
  | PyStr.Plus :: r => PyStr.unsigned_literal r
  | PyStr.Minus :: r => PyStr.negated (PyStr.unsigned_literal r)
  | l => PyStr.unsigned_literal l
  end = PyStr.unsigned_literal (lits_of_uint d).
Proof. destruct d; reflexivity. Qed.

Lemma literal_of_uint d :
  d <> Decimal.Nil ->
  (N.of_nat (Decimal.nb_digits d) <= PyStr.max_str_digits)%N ->
  PyStr.literal (NilEmpty.string_of_uint d)
  = PyStr.IntValue (Z.of_N (Pos.of_uint d)).
Proof.
  intros Hd Hcap. unfold PyStr.literal.
  rewrite lit_chars_of_uint, skip_blanks_uint, lits_of_uint_unsigned.
  now apply unsigned_literal_uint.
Qed.

Lemma literal_of_negative d :
  d <> Decimal.Nil ->
  (N.of_nat (Decimal.nb_digits d) <= PyStr.max_str_digits)%N ->
  PyStr.literal (String "-" (NilEmpty.string_of_uint d))
  = PyStr.IntValue (- Z.of_N (Pos.of_uint d)).
Proof.
  intros Hd Hcap. unfold PyStr.literal, PyStr.chars.
  cbn [list_ascii_of_string]. rewrite decode_ascii by reflexivity.
  cbn [map fst]. fold (PyStr.chars (NilEmpty.string_of_uint d)).
  rewrite lit_chars_of_uint.
  change (PyStr.lit_char (N_of_ascii "-")) with PyStr.Minus.
  cbn [PyStr.skip_blanks]. now rewrite unsigned_literal_uint.
Qed.

Lemma string_of_nonnil d :
  d <> Decimal.Nil -> NilZero.string_of_uint d = NilEmpty.string_of_uint d.
Proof. destruct d; [congruence | reflexivity..]. Qed.

(** [int(str(n))] is [n], for an [n] that [str] prints with at most 4300
    digits. *)
Lemma literal_of_Z n :
  (decimal_digits n <= PyStr.max_str_digits)%N ->
  PyStr.literal (PyStr.of_Z n) = PyStr.IntValue n.
Proof.
  unfold decimal_digits, PyStr.of_Z.
  destruct n as [|p|p]; cbn [Z.abs Z.to_int NilZero.string_of_int];
    intros Hcap.
  - reflexivity.
  - pose proof (Unsigned.to_uint_nonnil p) as Hnn.
    rewrite string_of_nonnil in * by exact Hnn.
    rewrite nb_digits_length in Hcap.
    rewrite literal_of_uint by assumption.
    now rewrite Unsigned.of_to.
  - pose proof (Unsigned.to_uint_nonnil p) as Hnn.
    rewrite string_of_nonnil in * by exact Hnn.
    rewrite nb_digits_length in Hcap.
    rewrite literal_of_negative by assumption.
    now rewrite Unsigned.of_to.
Qed.

(** *** Joining and splitting *)

Lemma uint_comma_free d : comma_free (NilEmpty.string_of_uint d).
Proof.
  unfold comma_free.
  induction d; cbn [NilEmpty.string_of_uint list_ascii_of_string];
    constructor; try exact IHd; discriminate.
Qed.

Lemma of_Z_comma_free n : comma_free (PyStr.of_Z n).
Proof.
  unfold PyStr.of_Z.
  destruct n as [|p|p]; cbn [Z.to_int NilZero.string_of_int].
  - repeat constructor. discriminate.
  - rewrite string_of_nonnil by apply Unsigned.to_uint_nonnil.
    apply uint_comma_free.
  - rewrite string_of_nonnil by apply Unsigned.to_uint_nonnil.
    unfold comma_free. cbn [list_ascii_of_string].
    constructor; [discriminate | apply uint_comma_free].
Qed.

Lemma split_comma_free t : comma_free t -> PyStr.split "," t = [t].
Proof.
  unfold comma_free. induction t as [|ch r IH]; intros H; [reflexivity|].
  cbn [list_ascii_of_string] in H. inversion H as [|? ? Hch Hr]; subst.
  cbn [PyStr.split]. destruct (Ascii.eqb_spec ch ","); [contradiction|].
  now rewrite IH.
Qed.

Lemma split_comma_app t rest :
  comma_free t ->
  PyStr.split "," (t ++ String "," rest) = t :: PyStr.split "," rest.
Proof.
  unfold comma_free. induction t as [|ch r IH]; intros H; [reflexivity|].
  cbn [list_ascii_of_string] in H. inversion H as [|? ? Hch Hr]; subst.
  cbn [String.append PyStr.split].
  destruct (Ascii.eqb_spec ch ","); [contradiction|].
  now rewrite IH.
Qed.

(** [",".join(toks).split(",")] gives back [toks], for at least one token
    and tokens without commas. *)
Lemma split_join toks :
  toks <> [] -> Forall comma_free toks ->
  PyStr.split "," (PyStr.join "," toks) = toks.
Proof.
  induction toks as [|t r IH]; intros Hne H; [congruence|].
  inversion H as [|? ? Ht Hr]; subst.
  destruct r as [|t' r'].
  - cbn [PyStr.join]. now apply split_comma_free.
  - change (PyStr.join "," (t :: t' :: r'))
      with (t ++ String "," (PyStr.join "," (t' :: r'))).
    rewrite split_comma_app by exact Ht. f_equal.
    apply IH; [discriminate | exact Hr].
Qed.

Lemma map_int_of_Z shape :
  Forall (fun n => (decimal_digits n <= PyStr.max_str_digits)%N) shape ->
  map_int (map PyStr.of_Z shape) = ([], Returns shape).
Proof.
  induction 1 as [|n r Hn Hr IH]; [reflexivity|].
  cbn [map map_int]. unfold py_int. rewrite (literal_of_Z n Hn), IH.
  reflexivity.
Qed.

(** X2: round trip of the shape argument. The dimensions printed with
    [str] and joined with commas parse back to the same shape, without
    any effect, when there is a dimension (the empty string is no integer)
    and none has more than 4300 digits (the most that [str] prints and
    [int] reads). *)
Theorem input_shape_round_trip (shape : list Z) :
  shape <> [] ->
  Forall (fun n => (decimal_digits n <= PyStr.max_str_digits)%N) shape ->
  parse_input_shape (PyStr.join "," (map PyStr.of_Z shape))
  = ([], Returns shape).
Proof.
  intros Hne Hcap. unfold parse_input_shape. rewrite split_join.
  - now apply map_int_of_Z.
  - destruct shape; [congruence | discriminate].
  - apply Forall_forall. intros t Ht. apply in_map_iff in Ht.
    destruct Ht as [n [<- _]]. apply of_Z_comma_free.
Qed.

Lemma input_shape_round_trip_witness :
  parse_input_shape (PyStr.join "," (map PyStr.of_Z [1; -1; 224; 0]))
  = ([], Returns [1; -1; 224; 0]).
Proof.
  apply input_shape_round_trip; [discriminate|].
  repeat constructor; vm_compute; discriminate.
Defined.

(** *** The integers [int] reads can be printed *)

Lemma lit_char_digit cp : digit_like (PyStr.lit_char cp).
Proof.
  unfold PyStr.lit_char, digit_like.
  destruct (cp <? 128)%N.
  - destruct ((48 <=? cp) && (cp <=? 57))%N eqn:E.
    + apply andb_true_iff in E. destruct E as [E1 E2].
      apply N.leb_le in E1, E2. cbv beta iota. lia.
    + destruct (((9 <=? cp) && (cp <=? 13)) || (cp =? 32))%N; [exact I|].
      destruct (cp =? 43)%N; [exact I|].
      destruct (cp =? 45)%N; [exact I|].
      destruct (cp =? 95)%N; exact I.
  - destruct (PyStr.run_of cp PyStr.blank_ranges); [exact I|].
    destruct (PyStr.run_of cp PyStr.decimal_ranges) as [zero|]; [|exact I].
    assert (H : ((cp - zero) mod 10 < 10)%N)
      by (apply N.mod_upper_bound; discriminate).
    cbv beta iota. revert H. generalize ((cp - zero) mod 10)%N. intros x H.
    lia.
Qed.

Lemma scan_digits_bound l : forall acc count u v count' rest,
  Forall digit_like l ->
  0 <= acc < 10 ^ Z.of_N count ->
  PyStr.scan_digits acc count u l = Some (v, count', rest) ->
  0 <= v < 10 ^ Z.of_N count'.
Proof.
  induction l as [|c l IH]; intros acc count u v count' rest Hl Hacc H.
  - cbn in H. destruct u; [discriminate|]. now injection H as <- <- <-.
  - inversion Hl as [|? ? Hc Hl']; subst.
    destruct c; cbn [PyStr.scan_digits] in H;
      try (destruct u; [discriminate|]; now injection H as <- <- <-).
    + apply (IH _ _ _ _ _ _ Hl') in H; [exact H|].
      cbn [digit_like] in Hc.
      rewrite N2Z.inj_add, Z.pow_add_r by lia.
      change (10 ^ Z.of_N 1) with 10. nia.
    + destruct u; [discriminate|]. now apply (IH _ _ _ _ _ _ Hl') in H.
Qed.

Lemma unsigned_literal_bound l n :
  Forall digit_like l ->
  PyStr.unsigned_literal l = PyStr.IntValue n ->
  0 <= n < 10 ^ Z.of_N PyStr.max_str_digits.
Proof.
  intros Hl. unfold PyStr.unsigned_literal.
  assert (H0 : 0 <= 0 < 10 ^ Z.of_N 0) by (cbn; lia).
  destruct (PyStr.scan_digits 0 0 false l) as [[[v count] rest]|] eqn:E.
  2:{ destruct l as [|[] ?]; discriminate. }
  pose proof (scan_digits_bound _ _ _ _ _ _ _ Hl H0 E) as Hv.
  assert (Hgoal : (if (PyStr.max_str_digits <? count)%N
                   then PyStr.TooManyDigits count
                   else if (count =? 0)%N then PyStr.InvalidLiteral
                   else match PyStr.skip_blanks rest with
                        | [] => PyStr.IntValue v
                        | _ => PyStr.InvalidLiteral
                        end) = PyStr.IntValue n ->
                  0 <= n < 10 ^ Z.of_N PyStr.max_str_digits).
  { destruct (PyStr.max_str_digits <? count)%N eqn:Ecap; [discriminate|].
    destruct (count =? 0)%N; [discriminate|].
    destruct (PyStr.skip_blanks rest); [|discriminate].
    intros [= <-]. apply N.ltb_ge in Ecap.
    assert (10 ^ Z.of_N count <= 10 ^ Z.of_N PyStr.max_str_digits)
      by (apply Z.pow_le_mono_r; lia).
    lia. }
  destruct l as [|[] ?]; try exact Hgoal. discriminate.
Qed.

Lemma literal_bound s n :
  PyStr.literal s = PyStr.IntValue n ->
  Z.abs n < 10 ^ Z.of_N PyStr.max_str_digits.
Proof.
  unfold PyStr.literal.
  set (l := map (fun c => PyStr.lit_char (fst c)) (PyStr.chars s)).
  assert (Hl : Forall digit_like (PyStr.skip_blanks l)).
  { assert (Hall : Forall digit_like l).
    { apply Forall_forall. intros c Hc. apply in_map_iff in Hc.
      destruct Hc as [x [<- _]]. apply lit_char_digit. }
    clearbody l. induction Hall as [|c l Hc Hall IH]; [constructor|].
    destruct c; cbn [PyStr.skip_blanks]; try (constructor; assumption).
    exact IH. }
  destruct (PyStr.skip_blanks l) as [|c r] eqn:E.
  - intros H. apply unsigned_literal_bound in H; [lia | constructor].
  - inversion Hl as [|? ? Hc Hr]; subst.
    destruct c; intros H;
      try (apply unsigned_literal_bound in H; [lia | assumption]).
    destruct (PyStr.unsigned_literal r) as [m| |] eqn:Er; try discriminate.
    cbn [PyStr.negated] in H. injection H as <-.
    apply unsigned_literal_bound in Er; [lia | assumption].
Qed.

(** A numeral that starts the decimal text of a positive number weighs at
    least a power of ten. *)
Lemma of_uint_acc_lower d : forall acc,
  Z.pos acc * 10 ^ Z.of_nat (Decimal.nb_digits d)
  <= Z.pos (Pos.of_uint_acc d acc).
Proof.
  induction d; intros acc;
    cbn [Pos.of_uint_acc Decimal.nb_digits];
    [cbn; lia|..];
    rewrite Nat2Z.inj_succ, Z.pow_succ_r by lia;
    (etransitivity; [|apply IHd]);
    pose proof (Z.pow_pos_nonneg 10 (Z.of_nat (Decimal.nb_digits d))
                  ltac:(lia) ltac:(lia));
    nia.
Qed.

Lemma canonical_lower d :
  Decimal.unorm d = d -> d <> Decimal.Nil -> d <> Decimal.zero ->
  10 ^ (Z.of_nat (Decimal.nb_digits d) - 1) <= Z.of_N (Pos.of_uint d).
Proof.
  intros Hn Hnil Hz.
  assert (Hpow : forall r (k : positive),
            10 ^ Z.of_nat (Decimal.nb_digits r)
            <= Z.pos (Pos.of_uint_acc r k)).
  { intros r k. etransitivity; [|apply of_uint_acc_lower].
    pose proof (Z.pow_pos_nonneg 10 (Z.of_nat (Decimal.nb_digits r))
                  ltac:(lia) ltac:(lia)).
    nia. }
  destruct d; try congruence;
    cbn [Decimal.nb_digits Pos.of_uint];
    try (replace (Z.of_nat (S (Decimal.nb_digits d)) - 1)
           with (Z.of_nat (Decimal.nb_digits d)) by lia;
         cbn [Z.of_N]; apply Hpow).
  exfalso.
  destruct d as [|d| | | | | | | | |]; [congruence | |discriminate Hn..].
  change (Decimal.unorm (Decimal.D0 d) = Decimal.D0 (Decimal.D0 d)) in Hn.
  pose proof (DecimalFacts.nb_digits_unorm (Decimal.D0 d)) as Hlen.
  rewrite Hn in Hlen. cbn [Decimal.nb_digits] in Hlen.
  specialize (Hlen ltac:(discriminate)). lia.
Qed.

Lemma decimal_digits_bound n k :
  (1 <= k)%N -> Z.abs n < 10 ^ Z.of_N k -> (decimal_digits n <= k)%N.
Proof.
  intros Hk Hn. unfold decimal_digits, PyStr.of_Z.
  destruct (Z.abs n) as [|p|p] eqn:E; cbn [Z.to_int NilZero.string_of_int];
    [cbn; lia | | lia].
  pose proof (Unsigned.to_uint_nonnil p) as Hnn.
  rewrite string_of_nonnil by exact Hnn. rewrite nb_digits_length.
  assert (Hcanon : Decimal.unorm (Pos.to_uint p) = Pos.to_uint p).
  { pose proof (Unsigned.to_of (Pos.to_uint p)) as H.
    rewrite Unsigned.of_to in H. cbn [N.to_uint] in H. congruence. }
  assert (Hzero : Pos.to_uint p <> Decimal.zero).
  { intros H. pose proof (Unsigned.of_to p) as H'. rewrite H in H'.
    discriminate H'. }
  pose proof (canonical_lower _ Hcanon Hnn Hzero) as Hlow.
  rewrite Unsigned.of_to in Hlow. cbn [Z.of_N] in Hlow.
  destruct (N.le_gt_cases (N.of_nat (Decimal.nb_digits (Pos.to_uint p))) k)
    as [Hle|Hgt]; [exact Hle | exfalso].
  assert (10 ^ Z.of_N k
          <= 10 ^ (Z.of_nat (Decimal.nb_digits (Pos.to_uint p)) - 1))
    by (apply Z.pow_le_mono_r; lia).
  lia.
Qed.

(** Every dimension of a parsed shape has at most 4300 digits: [str]
    prints it. *)
Lemma parsed_dimensions_print s shape :
  snd (parse_input_shape s) = Returns shape ->
  Forall (fun n => (decimal_digits n <= PyStr.max_str_digits)%N) shape.
Proof.
  unfold parse_input_shape. generalize (PyStr.split "," s) as toks.
  intros toks. revert shape.
  induction toks as [|tok r IH]; intros shape H.
  - cbn in H. injection H as <-. constructor.
  - cbn [map_int] in H. unfold py_int in H.
    destruct (PyStr.literal tok) as [n| |] eqn:E; try discriminate.
    unfold_script. cbn [bind fst snd app] in H.
    destruct (map_int r) as [t [ms|e]]; cbn [fst snd bind] in *;
      [|discriminate].
    injection H as <-. constructor; [|now apply IH].
    apply decimal_digits_bound; [unfold PyStr.max_str_digits; lia|].
    now apply literal_bound in E.
Qed.

(** ** More on the architecture inferencer *)

Lemma prefix_before_space n : forall a b,
  space_free n ->
  String.prefix n (a ++ String " " b) = String.prefix n a.
Proof.
  unfold space_free.
  induction n as [|c n IH]; intros a b H; [now destruct a|].
  cbn [list_ascii_of_string] in H. inversion H as [|? ? Hc Hn]; subst.
  destruct a as [|ch a]; cbn [String.append String.prefix].
  - destruct (ascii_dec c " "); [contradiction | reflexivity].
  - destruct (ascii_dec c ch); [now apply IH | reflexivity].
Qed.

Lemma contains_cons n c h :
  PyStr.contains n (String c h)
  = (String.prefix n (String c h) || PyStr.contains n h)%bool.
Proof. now destruct n. Qed.

Lemma contains_across_space n a b :
  n <> "" -> space_free n ->
  PyStr.contains n (a ++ String " " b)
  = (PyStr.contains n a || PyStr.contains n b)%bool.
Proof.
  intros Hne Hsf. induction a as [|ch a IH].
  - cbn [String.append]. rewrite contains_cons.
    change "" with ("" ++ "") at 1.
    destruct n as [|c n]; [congruence|].
    unfold space_free in Hsf. cbn [list_ascii_of_string] in Hsf.
    inversion Hsf as [|? ? Hc Hn]; subst.
    cbn [String.prefix PyStr.contains].
    destruct (ascii_dec c " "); [contradiction | reflexivity].
  - cbn [String.append]. rewrite !contains_cons, IH.
    change (String ch (a ++ String " " b)) with (String ch a ++ String " " b).
    rewrite prefix_before_space by exact Hsf.
    now rewrite orb_assoc.
Qed.

(** A needle without spaces occurs in the joined names exactly when it
    occurs in one of them. *)
Lemma contains_join n names :
  n <> "" -> space_free n ->
  PyStr.contains n (PyStr.join " " names) = existsb (PyStr.contains n) names.
Proof.
  intros Hne Hsf. induction names as [|x r IH].
  - destruct n; [congruence | reflexivity].
  - destruct r as [|y r'].
    + cbn [PyStr.join existsb]. now rewrite orb_false_r.
    + change (PyStr.join " " (x :: y :: r'))
        with (x ++ String " " (PyStr.join " " (y :: r'))).
      rewrite contains_across_space by assumption.
      now rewrite IH.
Qed.

Lemma existsb_perm {A} (f : A -> bool) l l' :
  Permutation l l' -> existsb f l = existsb f l'.
Proof.
  intros H. induction H; simpl; try congruence.
  now destruct (f x), (f y).
Qed.

Lemma forallb_perm {A} (f : A -> bool) l l' :
  Permutation l l' -> forallb f l = forallb f l'.
Proof.
  intros H. induction H; simpl; try congruence.
  now destruct (f x), (f y).
Qed.

Lemma infer_architecture_cascade li :
  infer_architecture li = cascade (lower_names li).
Proof.
  unfold infer_architecture, cascade, lower_names. cbv zeta.
  rewrite contains_join; [| discriminate | repeat constructor; discriminate].
  set (names := map (fun l => PyStr.lower (name l)) li).
  destruct (existsb (fun n => PyStr.contains "conv" n) names);
    destruct (existsb (fun n => PyStr.contains "bn" n
                                || PyStr.contains "batch" n) names);
    destruct (existsb (PyStr.contains "resnet") names
              || existsb (fun n => PyStr.contains "layer" n
                                   && PyStr.contains "conv" n) names)%bool;
    destruct (existsb (fun n => PyStr.contains "downsample" n
                                || PyStr.contains "shortcut" n) names);
    reflexivity.
Qed.

(** X3: the answer of [infer_architecture] does not depend on the order of
    the layers nor on the case of the letters of their names. *)
Theorem infer_architecture_order_and_case (li li' : list LayerInfo) :
  Permutation (lower_names li) (lower_names li') ->
  infer_architecture li = infer_architecture li'.
Proof.
  intros H. rewrite !infer_architecture_cascade. unfold cascade. cbv zeta.
  assert (E : forall f, existsb f (lower_names li) = existsb f (lower_names li'))
    by (intros f; now apply existsb_perm).
  assert (F : forall f, forallb f (lower_names li) = forallb f (lower_names li'))
    by (intros f; now apply forallb_perm).
  now rewrite !E, F.
Qed.

Lemma infer_architecture_order_and_case_witness :
  infer_architecture [mkLayer "Layer1.0.CONV1.weight" [] "";
                      mkLayer "layer1.0.downsample.0.weight" [] ""]
  = infer_architecture [mkLayer "layer1.0.Downsample.0.weight" [] "";
                        mkLayer "layer1.0.conv1.weight" [] ""].
Proof.
  apply infer_architecture_order_and_case. vm_compute. apply perm_swap.
Defined.

(** *** What each label means *)

Lemma existsb_lower_names t li :
  existsb t (lower_names li) = true <-> some_name t li.
Proof.
  unfold lower_names, some_name. rewrite existsb_exists. split.
  - intros [n [Hin Ht]]. apply in_map_iff in Hin.
    destruct Hin as [l [<- Hl]]. now exists l.
  - intros [l [Hl Ht]]. exists (PyStr.lower (name l)). split; [|exact Ht].
    apply in_map_iff. now exists l.
Qed.

Lemma forallb_lower_names t li :
  forallb t (lower_names li) = true <-> every_name t li.
Proof.
  unfold lower_names, every_name. rewrite forallb_forall. split.
  - intros H l Hl. apply H. apply in_map_iff. now exists l.
  - intros H n Hin. apply in_map_iff in Hin.
    destruct Hin as [l [<- Hl]]. now apply H.
Qed.

Lemma cascade_cases names :
  let r := (existsb t_resnet names || existsb t_layer_conv names)%bool in
  let d := existsb t_skip names in
  let c := existsb t_conv names in
  let a := (existsb t_attention names || existsb t_vit names)%bool in
  let m := forallb t_dense names in
  let y := existsb t_yolo names in
  (cascade names = "ResNet" /\ r = true /\ d = true)
  \/ (cascade names = "CNN" /\ (r && d)%bool = false /\ c = true)
  \/ (cascade names = "Transformer" /\ (r && d)%bool = false /\ c = false
      /\ a = true)
  \/ (cascade names = "MLP" /\ (r && d)%bool = false /\ c = false
      /\ a = false /\ m = true)
  \/ (cascade names = "YOLOv8" /\ (r && d)%bool = false /\ c = false
      /\ a = false /\ m = false /\ y = true)
  \/ (cascade names = "Custom" /\ (r && d)%bool = false /\ c = false
      /\ a = false /\ m = false /\ y = false).
Proof.
  unfold cascade. cbv zeta.
  change (fun n => PyStr.contains "layer" n && PyStr.contains "conv" n)%bool
    with t_layer_conv.
  change (PyStr.contains "resnet") with t_resnet.
  change (fun n => PyStr.contains "downsample" n || PyStr.contains "shortcut" n)%bool
    with t_skip.
  change (fun n => PyStr.contains "conv" n) with t_conv.
  change (fun n => PyStr.contains "attention" n || PyStr.contains "transformer" n
                   || PyStr.contains "encoder" n)%bool with t_attention.
  change (fun n => PyStr.contains "vit" n || PyStr.contains "patch_embed" n)%bool
    with t_vit.
  change (fun n => PyStr.contains "fc" n || PyStr.contains "linear" n
                   || PyStr.contains "weight" n || PyStr.contains "bias" n)%bool
    with t_dense.
  change (fun n => PyStr.contains "yolo" n || PyStr.contains "detect" n)%bool
    with t_yolo.
  destruct (existsb t_resnet names || existsb t_layer_conv names)%bool,
    (existsb t_skip names), (existsb t_conv names),
    (existsb t_attention names), (existsb t_vit names),
    (forallb t_dense names), (existsb t_yolo names); cbn; tauto.
Qed.

(** X4: what the answer of [infer_architecture] says about the layer names
    (all tests on lower-cased names): ResNet exactly when some name has
    "resnet", or "layer" and "conv", and some name has "downsample" or
    "shortcut"; a name with "conv" always gives CNN or ResNet, whatever
    else is there; Transformer, MLP, YOLOv8 and Custom are only answered
    when no name has "conv"; MLP needs every name to look dense; YOLOv8
    needs a name that does not; Custom is never the answer for an empty
    list. *)
Theorem infer_architecture_label_conditions (li : list LayerInfo) :
  (infer_architecture li = "ResNet"
   <-> (some_name t_resnet li \/ some_name t_layer_conv li)
       /\ some_name t_skip li)
  /\ (some_name t_conv li ->
      infer_architecture li = "CNN" \/ infer_architecture li = "ResNet")
  /\ (infer_architecture li = "CNN" -> some_name t_conv li)
  /\ (infer_architecture li = "Transformer" ->
      ~ some_name t_conv li
      /\ (some_name t_attention li \/ some_name t_vit li))
  /\ (infer_architecture li = "MLP" ->
      ~ some_name t_conv li /\ every_name t_dense li)
  /\ (infer_architecture li = "YOLOv8" ->
      ~ some_name t_conv li /\ some_name t_yolo li
      /\ ~ every_name t_dense li)
  /\ (infer_architecture li = "Custom" ->
      li <> [] /\ ~ some_name t_conv li /\ ~ some_name t_yolo li).
Proof.
  rewrite infer_architecture_cascade.
  pose proof (cascade_cases (lower_names li)) as H. cbv zeta in H.
  rewrite <- !existsb_lower_names, <- !forallb_lower_names.
  assert (Hempty : li = [] -> forallb t_dense (lower_names li) = true)
    by (intros ->; reflexivity).
  destruct (existsb t_resnet (lower_names li)),
    (existsb t_layer_conv (lower_names li)),
    (existsb t_skip (lower_names li)),
    (existsb t_conv (lower_names li)),
    (existsb t_attention (lower_names li)),
    (existsb t_vit (lower_names li)),
    (forallb t_dense (lower_names li)),
    (existsb t_yolo (lower_names li));
    cbn in H;
    destruct H as [H|[H|[H|[H|[H|H]]]]]; destruct H as [-> H];
    try (exfalso; intuition discriminate);
    repeat split; intros; try discriminate; intuition (try discriminate; auto).
Qed.

(** ** A logic of traces *)

Section Always.
Variable Q : Effect -> Prop.

Lemma always_ret {A} (a : A) : always Q (ret a).
Proof. constructor. Qed.

Lemma always_raise {A} (e : exn) : always Q (@raise A e).
Proof. constructor. Qed.

Lemma always_call {A} c (r : outcome A) : Q (Call c) -> always Q (call c r).
Proof. intros H. repeat constructor. exact H. Qed.

Lemma always_emit e : Q (Emit e) -> always Q (emit e).
Proof. intros H. repeat constructor. exact H. Qed.

Lemma always_bind {A B} (m : M A) (f : A -> M B) :
  always Q m -> (forall a, snd m = Returns a -> always Q (f a)) ->
  always Q (bind m f).
Proof.
  unfold always. destruct m as [t [a|e]]; cbn [bind fst snd]; intros Hm Hf;
    [|exact Hm].
  specialize (Hf a eq_refl). destruct (f a) as [t' r]. cbn [fst] in *.
  apply Forall_app. now split.
Qed.

Lemma always_try {A} (m : M A) handler :
  always Q m -> (forall e h, handler e = Some h -> always Q h) ->
  always Q (try_except m handler).
Proof.
  unfold always. destruct m as [t [a|e]]; cbn [try_except fst]; intros Hm Hh;
    [exact Hm|].
  destruct (handler e) as [h|] eqn:E; [|exact Hm].
  specialize (Hh e h E). destruct h as [t' r]. cbn [fst] in *.
  apply Forall_app. now split.
Qed.

Lemma always_try_Exception {A} (m : M A) h :
  always Q m -> (forall e, always Q (h e)) ->
  always Q (try_except m (except_Exception h)).
Proof.
  intros Hm Hh. apply always_try; [exact Hm|]. intros e x.
  unfold except_Exception. destruct (is_Exception e); [|discriminate].
  intros [= <-]. apply Hh.
Qed.

Lemma always_try_ImportError {A} (m : M A) h :
  always Q m -> always Q h ->
  always Q (try_except m (except_ImportError h)).
Proof.
  intros Hm Hh. apply always_try; [exact Hm|]. intros e x.
  unfold except_ImportError. destruct e; try discriminate.
  intros [= <-]. exact Hh.
Qed.

End Always.

(** Walk through a script, leaving what [Q] says of each effect. *)
Ltac always_step :=
  lazymatch goal with
  | |- always _ (bind _ _) => apply always_bind; [|intros ? ?]
  | |- always _ (try_except _ (except_Exception _)) =>
      apply always_try_Exception; [|intros]
  | |- always _ (try_except _ (except_ImportError _)) =>
      apply always_try_ImportError
  | |- always _ (ret _) => apply always_ret
  | |- always _ (raise _) => apply always_raise
  | |- always _ (sys_exit _) => apply always_raise
  | |- always _ (call _ _) => apply always_call
  | |- always _ (emit _) => apply always_emit
  | |- always _ (log _ _) => apply always_emit
  | |- always _ (progress _ _) => apply always_emit
  | |- always _ (error _ _) => apply always_emit
  | |- always _ (completed _ _ _) => apply always_emit
  | |- always _ (match ?x with _ => _ end) => destruct x
  | |- always _ (let x := _ in _) => cbv zeta
  end.

Ltac always_walk := repeat always_step.

Lemma map_int_always Q toks : always Q (map_int toks).
Proof. unfold always. rewrite map_int_pure. constructor. Qed.

Lemma load_pytorch_model_no_error w path shape :
  always (codes_within []) (load_pytorch_model w path shape).
Proof.
  unfold load_pytorch_model, load_checkpoint, classify_checkpoint,
    materialize, py_eval, py_state_dict.
  always_walk; exact I.
Qed.

Lemma trace_main w args : trace (main w args) = fst (main_script w args).
Proof. unfold main. now destruct (main_script w args). Qed.

Lemma exit_status_main w args :
  exit_status (main w args)
  = match snd (main_script w args) with
    | Returns _ => 0
    | Raises (SystemExit c) => c
    | Raises _ => 1
    end.
Proof. unfold main. now destruct (main_script w args). Qed.

Lemma always_main_script Q w args :
  always Q (main_body w args) ->
  Q (Emit (Log "warning" "Conversion cancelled by user")) ->
  (forall msg, Q (Emit (Error msg "CONVERSION_FAILED"))) ->
  always Q (main_script w args).
Proof.
  intros Hb Hl He. unfold main_script. apply always_try; [exact Hb|].
  intros e h. destruct e; intros [= <-]; repeat constructor; auto.
Qed.

Lemma error_codes_within codes t :
  Forall (codes_within codes) t ->
  Forall (fun c => In c codes) (error_codes t).
Proof.
  unfold error_codes, events. induction 1 as [|x t Hx Ht IH]; [constructor|].
  destruct x as [e|c]; cbn [flat_map app]; [|exact IH].
  destruct e; cbn [flat_map app]; try exact IH. constructor; assumption.
Qed.

Lemma main_body_codes w args :
  always (codes_within (codes_of_format (args_format args)))
         (main_body w args).
Proof.
  unfold main_body, parse_input_shape.
  apply always_bind; [apply map_int_always | intros shape _].
  unfold load_pytorch_model, load_checkpoint, classify_checkpoint,
    materialize, py_eval, py_state_dict, convert_to_coreml, convert_to_mlx,
    choose_input_type, compile_and_save, report_conversion_error,
    extract_state_dict, save_tensors, py_items, py_state_dict.
  destruct (args_format args); always_walk; cbn; tauto.
Qed.

(** X5: every error code a run reports is one the format can report: the
    default code UNKNOWN is never used, a coreml run never reports
    INVALID_CHECKPOINT, and an mlx run never reports STATE_DICT_ONLY,
    UNSUPPORTED_OP or SHAPE_MISMATCH. *)
Theorem error_codes_by_format (w : World) (args : Args) :
  Forall (fun c => In c (codes_of_format (args_format args)))
         (error_codes (trace (main w args)))
  /\ Forall (fun c => In c error_code_set /\ c <> "UNKNOWN")
            (error_codes (trace (main w args))).
Proof.
  assert (H : Forall (fun c => In c (codes_of_format (args_format args)))
                     (error_codes (trace (main w args)))).
  { rewrite trace_main. apply error_codes_within.
    apply always_main_script; [apply main_body_codes | exact I |].
    intros msg. destruct (args_format args); cbn; tauto. }
  split; [exact H|].
  eapply Forall_impl; [|exact H]. intros c Hc.
  destruct (args_format args); cbn in Hc;
    repeat destruct Hc as [<-|Hc]; try contradiction;
    (split; [cbn; tauto | discriminate]).
Qed.

(** *** What a run writes *)

Ltac close_rule :=
  cbn [write_rule snd] in *;
  repeat match goal with
         | a : unit |- _ => destruct a
         | H : snd (call _ _) = _ |- _ => unfold call in H; cbn [snd] in H
         end;
  try exact I; auto; repeat split; eauto.

Lemma main_body_writes w args :
  always (write_rule w args) (main_body w args).
Proof.
  unfold main_body, parse_input_shape.
  apply always_bind; [apply map_int_always | intros shape _].
  unfold load_pytorch_model, load_checkpoint, classify_checkpoint,
    materialize, py_eval, py_state_dict, convert_to_coreml, convert_to_mlx,
    choose_input_type, compile_and_save, report_conversion_error,
    extract_state_dict, save_tensors, py_items, py_state_dict.
  destruct (args_format args) eqn:Hfmt; always_walk; close_rule.
Qed.

Lemma main_writes w args :
  Forall (write_rule w args) (trace (main w args)).
Proof.
  rewrite trace_main. apply always_main_script;
    [apply main_body_writes | exact I | intros; exact I].
Qed.

(** X6: where and when a run writes. An archive is written only by an mlx run,
    at the output path; a sidecar document only after the archive was
    written, at that path with the suffix .json, with format mlx, a layer
    count equal to the length of its layer list and the architecture
    inferred from that list; a package is saved only by a coreml run, at
    the output path, after the compiler and the annotation succeeded. *)
Theorem writes_follow_the_format (w : World) (args : Args) :
  (forall ts p,
     In (Call (SaveFile ts p)) (trace (main w args)) ->
     args_format args = mlx /\ p = path_str w (args_output args))
  /\ (forall p md,
        In (Call (JsonDump p md)) (trace (main w args)) ->
        args_format args = mlx
        /\ (exists ts,
              save_file w ts (path_str w (args_output args)) = Returns tt)
        /\ with_suffix w (path_str w (args_output args)) ".json" = Returns p
        /\ format md = "mlx"
        /\ layerCount md = Z.of_nat (List.length (layers md))
        /\ architectureType md = infer_architecture (layers md))
  /\ (forall p,
        In (Call (MlmodelSave p)) (trace (main w args)) ->
        args_format args = coreml /\ p = args_output args
        /\ (exists traced ty, ct_convert w traced ty = Returns tt)
        /\ mlmodel_annotate w "Performant3"
             ("Converted from PyTorch: " ++ args_name args) = Returns tt).
Proof.
  pose proof (main_writes w args) as H. rewrite Forall_forall in H.
  repeat split; intros; match goal with Hin : In _ _ |- _ =>
    apply H in Hin; cbn [write_rule] in Hin; tauto end.
Qed.

(** *** The error event ends the run *)

Lemma error_only_last_app a b :
  filter is_error a = [] ->
  error_only_last (a ++ b) = error_only_last b.
Proof.
  induction a as [|e a IH]; intros H; [reflexivity|].
  cbn [filter] in H. destruct (is_error e) eqn:E; [discriminate|].
  cbn [app error_only_last]. rewrite E. cbn. now apply IH.
Qed.

Section FinalError.

Lemma final_ret {A} (a : A) : final_error (ret a).
Proof. split; [reflexivity | now left]. Qed.

Lemma final_raise {A} (e : exn) : final_error (@raise A e).
Proof. split; [reflexivity | now left]. Qed.

Lemma final_call {A} c (r : outcome A) : final_error (call c r).
Proof. split; [reflexivity | now left]. Qed.

Lemma final_emit e : is_error e = false -> final_error (emit e).
Proof.
  intros H. split; [cbn; now rewrite H|]. left. unfold error_events.
  cbn. now rewrite H.
Qed.

Lemma final_error_exit {A} msg code :
  final_error (bind (error msg code) (fun _ => @sys_exit A 1)).
Proof. split; [reflexivity | now right]. Qed.

Lemma final_bind {A B} (m : M A) (f : A -> M B) :
  final_error m -> (forall a, final_error (f a)) -> final_error (bind m f).
Proof.
  unfold final_error. destruct m as [t [a|e]]; cbn [bind fst snd];
    intros [Hl Hq] Hf.
  2:{ split; [exact Hl|]. destruct Hq as [Hq|Hq]; [now left|].
      right. now injection Hq as ->. }
  destruct Hq as [Hq|Hq]; [|discriminate].
  specialize (Hf a). destruct (f a) as [t' r]. cbn [fst snd] in *.
  rewrite events_app, error_events_app, Hq. cbn [app].
  rewrite error_only_last_app by exact Hq. exact Hf.
Qed.

Lemma final_try {A} (m : M A) handler :
  final_error m ->
  (forall c, handler (SystemExit c) = None) ->
  (forall e h, handler e = Some h -> final_error h) ->
  final_error (try_except m handler).
Proof.
  unfold final_error. destruct m as [t [a|e]]; cbn [try_except fst snd];
    intros [Hl Hq] Hx Hh; [now split|].
  destruct (handler e) as [h|] eqn:E; [|now split].
  destruct Hq as [Hq|Hq]; [|injection Hq as ->; rewrite Hx in E; discriminate].
  specialize (Hh e h E). destruct h as [t' r]. cbn [fst snd] in *.
  rewrite events_app, error_events_app, Hq. cbn [app].
  rewrite error_only_last_app by exact Hq. exact Hh.
Qed.

Lemma final_try_Exception {A} (m : M A) h :
  final_error m -> (forall e, final_error (h e)) ->
  final_error (try_except m (except_Exception h)).
Proof.
  intros Hm Hh. apply final_try; [exact Hm | reflexivity |]. intros e x.
  unfold except_Exception. destruct (is_Exception e); [|discriminate].
  intros [= <-]. apply Hh.
Qed.

Lemma final_try_ImportError {A} (m : M A) h :
  final_error m -> final_error h ->
  final_error (try_except m (except_ImportError h)).
Proof.
  intros Hm Hh. apply final_try; [exact Hm | reflexivity |]. intros e x.
  unfold except_ImportError. destruct e; try discriminate.
  intros [= <-]. exact Hh.
Qed.

End FinalError.

Ltac final_step :=
  lazymatch goal with
  | |- final_error (bind (error _ _) (fun _ => sys_exit 1)) =>
      apply final_error_exit
  | |- final_error (bind (match ?x with _ => _ end) _) => destruct x
  | |- final_error (bind _ _) => apply final_bind; [|intros]
  | |- final_error (try_except _ (except_Exception _)) =>
      apply final_try_Exception; [|intros]
  | |- final_error (try_except _ (except_ImportError _)) =>
      apply final_try_ImportError
  | |- final_error (ret _) => apply final_ret
  | |- final_error (raise _) => apply final_raise
  | |- final_error (sys_exit _) => apply final_raise
  | |- final_error (call _ _) => apply final_call
  | |- final_error (log _ _) => apply final_emit; reflexivity
  | |- final_error (progress _ _) => apply final_emit; reflexivity
  | |- final_error (completed _ _ _) => apply final_emit; reflexivity
  | |- final_error (match ?x with _ => _ end) => destruct x
  | |- final_error (let x := _ in _) => cbv zeta
  end.

Lemma map_int_final toks : final_error (map_int toks).
Proof.
  unfold final_error, error_events. rewrite map_int_pure.
  split; [reflexivity | now left].
Qed.

Lemma main_body_final w args : final_error (main_body w args).
Proof.
  unfold main_body, parse_input_shape.
  apply final_bind; [apply map_int_final | intros shape].
  unfold load_pytorch_model, load_checkpoint, classify_checkpoint,
    materialize, py_eval, py_state_dict, convert_to_coreml, convert_to_mlx,
    choose_input_type, compile_and_save, report_conversion_error,
    extract_state_dict, save_tensors, py_items, py_state_dict.
  repeat final_step.
Qed.

Lemma main_script_final w args : final_error (main_script w args).
Proof.
  unfold main_script. apply final_try;
    [apply main_body_final | reflexivity |].
  intros e h. destruct e; intros [= <-];
    (split; [reflexivity | first [left; reflexivity | right; reflexivity]]).
Qed.

Lemma error_only_last_split es : forall pre e post,
  error_only_last es = true -> es = (pre ++ e :: post)%list ->
  is_error e = true -> post = [] /\ filter is_error pre = [].
Proof.
  induction es as [|x es IH]; intros pre e post Hok Heq He.
  - destruct pre; discriminate.
  - cbn [error_only_last] in Hok. apply andb_true_iff in Hok.
    destruct Hok as [Hx Hok]. destruct pre as [|y pre]; cbn [app] in Heq;
      injection Heq as Hxy Hes; subst.
    + rewrite He in Hx. cbn in Hx. destruct post; [now split | discriminate].
    + destruct (IH pre e post Hok eq_refl He) as [-> Hpre].
      split; [reflexivity|]. cbn [filter].
      destruct (is_error y) eqn:Ex; [|exact Hpre].
      cbn in Hx. destruct pre; discriminate.
Qed.

(** X7: in every run an error event is the last thing printed: nothing follows
    it, no other error event comes before it, and the exit status is 1. *)
Theorem error_event_ends_the_run (w : World) (args : Args) :
  forall pre e post,
    events (trace (main w args)) = (pre ++ e :: post)%list ->
    is_error e = true ->
    post = [] /\ filter is_error pre = []
    /\ filter is_completed pre = []
    /\ exit_status (main w args) = 1.
Proof.
  intros pre e post Heq He.
  pose proof (main_script_final w args) as [Hok Hexit].
  rewrite <- trace_main in Hok, Hexit.
  destruct (error_only_last_split _ _ _ _ Hok Heq He) as [-> Hpre].
  split; [reflexivity|]. split; [exact Hpre|].
  assert (Herr : error_events (trace (main w args)) <> []).
  { unfold error_events. rewrite Heq, filter_app. cbn [filter].
    rewrite He. intros H. destruct (filter is_error pre); discriminate. }
  split.
  - destruct (main_completed_last w args)
      as [Hnone|(t0 & out & fmt & md & ps & Ht & _)].
    + unfold completed_events in Hnone. rewrite Heq, filter_app in Hnone.
      now apply app_eq_nil in Hnone.
    + exfalso. rewrite Ht, events_app in Heq. cbn in Heq.
      apply app_inj_tail in Heq. destruct Heq as [_ <-]. discriminate.
  - rewrite exit_status_main. destruct Hexit as [Hq|Hq]; [contradiction|].
    now rewrite Hq.
Qed.

(** *** The completed event *)

Lemma no_completed_events t :
  Forall not_completed t -> completed_events t = [].
Proof.
  unfold completed_events, events.
  induction 1 as [|x t Hx Ht IH]; [reflexivity|].
  destruct x as [e|c]; cbn [flat_map app filter]; [|exact IH].
  destruct e; cbn [is_completed]; try exact IH. contradiction.
Qed.

Lemma returns_if_completed_bind {A B} (m : M A) (f : A -> M B) :
  always not_completed m -> (forall a, returns_if_completed (f a)) ->
  returns_if_completed (bind m f).
Proof.
  unfold returns_if_completed, always. intros Hm Hf.
  apply no_completed_events in Hm.
  destruct m as [t [a|e]]; cbn [bind fst snd] in *; [|now left].
  specialize (Hf a). destruct (f a) as [t' r]. cbn [fst snd] in *.
  rewrite completed_events_app, Hm. exact Hf.
Qed.

Lemma load_pytorch_model_not_completed w path shape :
  always not_completed (load_pytorch_model w path shape).
Proof.
  unfold load_pytorch_model, load_checkpoint, classify_checkpoint,
    materialize, py_eval, py_state_dict.
  always_walk; exact I.
Qed.

Lemma convert_to_coreml_not_completed w traced shape out nm :
  always not_completed (convert_to_coreml w traced shape out nm).
Proof.
  unfold convert_to_coreml, choose_input_type, compile_and_save,
    report_conversion_error.
  always_walk; exact I.
Qed.

Lemma convert_to_mlx_not_completed w sd shape out ck :
  always not_completed (convert_to_mlx w sd shape out ck).
Proof.
  unfold convert_to_mlx, extract_state_dict, save_tensors, py_items,
    py_state_dict.
  always_walk; exact I.
Qed.

Lemma main_body_returns_if_completed w args :
  returns_if_completed (main_body w args).
Proof.
  unfold main_body.
  apply returns_if_completed_bind; [apply map_int_always | intros shape].
  apply returns_if_completed_bind; [always_walk; exact I | intros _].
  apply returns_if_completed_bind; [always_walk; exact I | intros _].
  apply returns_if_completed_bind;
    [apply load_pytorch_model_not_completed | intros [[tm sd] ck]].
  apply returns_if_completed_bind.
  - destruct (args_format args); [destruct tm|]; always_walk;
      try exact I;
      [apply convert_to_coreml_not_completed
      | apply convert_to_mlx_not_completed].
  - intros md. right. now exists tt.
Qed.

(** X8: a run that prints a completed event ends well: the event is the last
    one printed, it is the only completed event, no error event is printed
    and the exit status is 0. *)
Theorem completed_means_success (w : World) (args : Args) :
  completed_events (trace (main w args)) <> [] ->
  (exists t0 out fmt md,
     trace (main w args) = (t0 ++ [Emit (Completed out fmt md)])%list
     /\ completed_events t0 = [])
  /\ error_events (trace (main w args)) = []
  /\ exit_status (main w args) = 0.
Proof.
  intros Hc.
  destruct (main_completed_last w args)
    as [Hnone|(t0 & out & fmt & md & ps & Ht & Hnone & _)];
    [contradiction|].
  split; [now exists t0, out, fmt, md|]. split.
  - pose proof (main_script_final w args) as [Hok _].
    rewrite <- trace_main, Ht, events_app in Hok. cbn in Hok.
    unfold error_events. rewrite Ht, events_app, filter_app. cbn.
    rewrite app_nil_r.
    destruct (filter is_error (events t0)) as [|e r] eqn:E; [reflexivity|].
    exfalso.
    assert (Hin : In e (events t0)).
    { apply (proj1 (filter_In is_error e (events t0))). rewrite E. now left. }
    assert (He : is_error e = true).
    { apply (proj2 (proj1 (filter_In is_error e (events t0))
                      ltac:(rewrite E; now left))). }
    apply in_split in Hin. destruct Hin as [l1 [l2 Hsplit]].
    rewrite Hsplit, <- app_assoc in Hok. cbn [app] in Hok.
    destruct (error_only_last_split _ l1 e (l2 ++ [Completed out fmt md])
                Hok eq_refl He) as [Hnil _].
    destruct l2; discriminate.
  - rewrite exit_status_main. unfold main_script.
    pose proof (main_body_returns_if_completed w args) as Hb.
    unfold returns_if_completed in Hb.
    rewrite trace_main in Hc. unfold main_script in Hc.
    destruct (main_body w args) as [t [a|e]]; cbn [try_except fst snd] in *;
      [reflexivity|].
    exfalso. destruct Hb as [Hb|[a Ha]]; [|discriminate].
    destruct e; try unfold_script; cbn [bind try_except fst snd] in Hc;
      rewrite ?completed_events_app, Hb in Hc; cbn in Hc; contradiction.
Qed.

Lemma completed_means_success_witness :
  error_events (trace (main (world_of (scenario_checkpoint true true))
                            (example_args mlx "1,3,224,224"))) = []
  /\ exit_status (main (world_of (scenario_checkpoint true true))
                       (example_args mlx "1,3,224,224")) = 0.
Proof.
  apply (completed_means_success
           (world_of (scenario_checkpoint true true))
           (example_args mlx "1,3,224,224")).
  vm_compute. discriminate.
Defined.

Lemma error_event_ends_the_run_witness :
  filter is_error
    (removelast (events (trace (main (world_of (scenario_checkpoint true true))
                                     (example_args coreml "1,3,224,224")))))
  = []
  /\ exit_status (main (world_of (scenario_checkpoint true true))
                       (example_args coreml "1,3,224,224")) = 1.
Proof.
  destruct (error_event_ends_the_run
              (world_of (scenario_checkpoint true true))
              (example_args coreml "1,3,224,224")
              (removelast (events (trace (main (world_of (scenario_checkpoint true true))
                                     (example_args coreml "1,3,224,224")))))
              (Error "CoreML conversion requires a traceable model. This checkpoint only contains weights (state_dict). Try MLX format instead." "STATE_DICT_ONLY")
              [] ltac:(vm_compute; reflexivity) eq_refl)
    as (_ & H1 & _ & H2).
  split; assumption.
Defined.

(** ** Runs that load a checkpoint *)

Lemma main_body_unfold w args :
  main_body w args
  = (input_shape <- parse_input_shape (args_input_shape args) ;;
     log "info" ("Input shape: " ++ PyStr.of_tuple input_shape) ;;
     (if (List.length input_shape <? 2)%nat then
        error "Input shape must have at least 2 dimensions" "INVALID_SHAPE" ;;
        sys_exit 1
      else ret tt) ;;
     loaded <- load_pytorch_model w (args_input args) input_shape ;;
     convert_and_complete w args input_shape loaded).
Proof.
  unfold main_body, convert_and_complete. f_equal.
Qed.

Lemma main_body_after_load w args shape loaded :
  snd (parse_input_shape (args_input_shape args)) = Returns shape ->
  (2 <= List.length shape)%nat ->
  snd (load_pytorch_model w (args_input args) shape) = Returns loaded ->
  main_body w args
  = ((shape_log shape :: fst (load_pytorch_model w (args_input args) shape)
      ++ fst (convert_and_complete w args shape loaded))%list,
     snd (convert_and_complete w args shape loaded)).
Proof.
  intros Hparse Hlen Hload. rewrite main_body_unfold.
  pose proof (parse_input_shape_pure (args_input_shape args)) as Hp.
  destruct (parse_input_shape (args_input_shape args)) as [tp rp].
  cbn [fst snd] in *. subst tp rp.
  assert (Hlt : (List.length shape <? 2)%nat = false)
    by (apply Nat.ltb_ge; exact Hlen).
  unfold_script. cbn [bind fst snd app]. rewrite Hlt. cbn [bind fst snd app].
  destruct (load_pytorch_model w (args_input args) shape) as [tl rl].
  cbn [fst snd] in *. subst rl. cbn [bind fst snd app].
  now destruct (convert_and_complete w args shape loaded).
Qed.

(** The run of [main], from the run of its [try] body. *)
Lemma main_of_body w args :
  main w args
  = match main_body w args with
    | (t, Returns _) => {| trace := t; exit_status := 0 |}
    | (t, Raises KeyboardInterrupt) =>
        {| trace := t ++ [Emit (Log "warning" "Conversion cancelled by user")];
           exit_status := 0 |}
    | (t, Raises (SystemExit c)) => {| trace := t; exit_status := c |}
    | (t, Raises e) =>
        {| trace := t ++ [Emit (Error (str e) "CONVERSION_FAILED")];
           exit_status := 1 |}
    end.
Proof.
  unfold main, main_script.
  destruct (main_body w args) as [t [a|e]]; [reflexivity|].
  destruct e; reflexivity.
Qed.

(** *** Cancellation *)

(** X9: a [KeyboardInterrupt] that leaves the body of [main] is no error: the
    run prints a warning log line after what it had printed, no error and
    no completed event, and exits with 0. *)
Theorem cancellation_exits_cleanly (w : World) (args : Args) :
  snd (main_body w args) = Raises KeyboardInterrupt ->
  trace (main w args)
  = (fst (main_body w args)
     ++ [Emit (Log "warning" "Conversion cancelled by user")])%list
  /\ error_events (trace (main w args)) = []
  /\ completed_events (trace (main w args)) = []
  /\ exit_status (main w args) = 0.
Proof.
  intros H. rewrite main_of_body.
  pose proof (main_body_disciplined w args) as (Hquiet & _ & Hdone).
  destruct (main_body w args) as [t r]. cbn [fst snd] in *. subst r.
  cbn [trace exit_status]. split; [reflexivity|].
  rewrite error_events_app, completed_events_app.
  rewrite (Hquiet eq_refl), (Hdone _ eq_refl). repeat split.
Qed.

(** An interrupt raised by the first [torch.load] is not taken for a load
    failure. *)
Lemma interrupted_load_is_not_retried w args shape :
  snd (parse_input_shape (args_input_shape args)) = Returns shape ->
  (2 <= List.length shape)%nat ->
  import_module w "torch" = Returns tt ->
  torch_load w (args_input args) false = Raises KeyboardInterrupt ->
  snd (main_body w args) = Raises KeyboardInterrupt
  /\ calls (fst (main_body w args))
     = [Import "torch"; TorchLoad (args_input args) false].
Proof.
  intros Hparse Hlen Himport Hload. rewrite main_body_unfold.
  pose proof (parse_input_shape_pure (args_input_shape args)) as Hp.
  destruct (parse_input_shape (args_input_shape args)) as [tp rp].
  cbn [fst snd] in *. subst tp rp.
  assert (Hlt : (List.length shape <? 2)%nat = false)
    by (apply Nat.ltb_ge; exact Hlen).
  unfold load_pytorch_model, load_checkpoint.
  unfold_script. cbn [bind fst snd app]. rewrite Hlt, Himport, Hload.
  split; reflexivity.
Qed.

Lemma cancellation_exits_cleanly_witness :
  exit_status (main (example_world (Raises KeyboardInterrupt)
                                   (Returns (PyDict [])) (Returns tt))
                    (example_args mlx "1,3,224,224")) = 0
  /\ error_events
       (trace (main (example_world (Raises KeyboardInterrupt)
                                   (Returns (PyDict [])) (Returns tt))
                    (example_args mlx "1,3,224,224"))) = [].
Proof.
  pose proof (cancellation_exits_cleanly
                (example_world (Raises KeyboardInterrupt)
                               (Returns (PyDict [])) (Returns tt))
                (example_args mlx "1,3,224,224")
                (proj1 (interrupted_load_is_not_retried
                          (example_world (Raises KeyboardInterrupt)
                                         (Returns (PyDict [])) (Returns tt))
                          (example_args mlx "1,3,224,224") [1; 3; 224; 224]
                          eq_refl ltac:(simpl; lia) eq_refl eq_refl))) as T.
  split; apply T.
Defined.

(** *** Missing packages *)

Lemma load_needs_torch w path shape loaded :
  snd (load_pytorch_model w path shape) = Returns loaded ->
  import_module w "torch" = Returns tt.
Proof.
  unfold load_pytorch_model. unfold call at 1.
  destruct (import_module w "torch") as [[]|e]; [reflexivity|].
  cbn [bind snd]. discriminate.
Qed.

(** X10: a coreml run whose [import coremltools] raises [ImportError] stops
    right after loading, with one MISSING_PACKAGE error and exit status 1;
    neither the input descriptor nor the compiler is called. *)
Theorem missing_coremltools_is_reported
    (w : World) (args : Args) (shape : list Z) (traced : ScriptModule)
    (state_dict checkpoint : PyObj) (msg : string) :
  args_format args = coreml ->
  snd (parse_input_shape (args_input_shape args)) = Returns shape ->
  (2 <= List.length shape)%nat ->
  snd (load_pytorch_model w (args_input args) shape)
  = Returns (Some traced, state_dict, checkpoint) ->
  import_module w "coremltools" = Raises (ImportError msg) ->
  trace (main w args)
  = (shape_log shape :: fst (load_pytorch_model w (args_input args) shape)
     ++ [Call (Import "coremltools");
         Emit (Error "coremltools not installed. Run: pip install coremltools"
                     "MISSING_PACKAGE")])%list
  /\ error_codes (trace (main w args)) = ["MISSING_PACKAGE"]
  /\ exit_status (main w args) = 1.
Proof.
  intros Hfmt Hparse Hlen Hload Himport.
  assert (E : main w args
              = {| trace := (shape_log shape
                             :: fst (load_pytorch_model w (args_input args) shape)
                             ++ [Call (Import "coremltools");
                                 Emit (Error "coremltools not installed. Run: pip install coremltools"
                                             "MISSING_PACKAGE")])%list;
                   exit_status := 1 |}).
  { rewrite main_of_body, (main_body_after_load _ _ _ _ Hparse Hlen Hload).
    unfold convert_and_complete, convert_to_coreml. rewrite Hfmt, Himport.
    reflexivity. }
  rewrite E. cbn [trace exit_status]. split; [reflexivity|].
  split; [|reflexivity].
  pose proof (load_pytorch_model_summary w (args_input args) shape)
    as (Herr & _).
  rewrite error_codes_of_events.
  change (shape_log shape :: ?l) with ([shape_log shape] ++ l)%list.
  rewrite !error_events_app, Herr. reflexivity.
Qed.

Lemma missing_coremltools_is_reported_witness :
  error_codes
    (trace (main (without_package "coremltools" (world_of (PyObject "Net" 0)))
                 (example_args coreml "1,3,224,224")))
  = ["MISSING_PACKAGE"].
Proof.
  apply (missing_coremltools_is_reported
           (without_package "coremltools" (world_of (PyObject "Net" 0)))
           (example_args coreml "1,3,224,224") [1; 3; 224; 224]
           (Traced (PyObject "Net" 0) [1; 3; 224; 224]) PyNone
           (PyObject "Net" 0) "No module named 'coremltools'"
           eq_refl eq_refl ltac:(simpl; lia) eq_refl eq_refl).
Defined.

(** X11: an mlx run whose [from safetensors.torch import save_file] raises
    [ImportError] stops right after loading, with one MISSING_PACKAGE error
    and exit status 1. *)
Theorem missing_safetensors_is_reported
    (w : World) (args : Args) (shape : list Z) (loaded : Loaded)
    (msg : string) :
  args_format args = mlx ->
  snd (parse_input_shape (args_input_shape args)) = Returns shape ->
  (2 <= List.length shape)%nat ->
  snd (load_pytorch_model w (args_input args) shape) = Returns loaded ->
  import_module w "safetensors.torch" = Raises (ImportError msg) ->
  trace (main w args)
  = (shape_log shape :: fst (load_pytorch_model w (args_input args) shape)
     ++ [Call (Import "torch"); Call (Import "safetensors.torch");
         Emit (Error "safetensors not installed. Run: pip install safetensors"
                     "MISSING_PACKAGE")])%list
  /\ error_codes (trace (main w args)) = ["MISSING_PACKAGE"]
  /\ exit_status (main w args) = 1.
Proof.
  intros Hfmt Hparse Hlen Hload Himport.
  pose proof (load_needs_torch _ _ _ _ Hload) as Htorch.
  assert (E : main w args
              = {| trace := (shape_log shape
                             :: fst (load_pytorch_model w (args_input args) shape)
                             ++ [Call (Import "torch");
                                 Call (Import "safetensors.torch");
                                 Emit (Error "safetensors not installed. Run: pip install safetensors"
                                             "MISSING_PACKAGE")])%list;
                   exit_status := 1 |}).
  { rewrite main_of_body, (main_body_after_load _ _ _ _ Hparse Hlen Hload).
    destruct loaded as [[tm sd] ck].
    unfold convert_and_complete, convert_to_mlx.
    rewrite Hfmt, Htorch, Himport. reflexivity. }
  rewrite E. cbn [trace exit_status]. split; [reflexivity|].
  split; [|reflexivity].
  pose proof (load_pytorch_model_summary w (args_input args) shape)
    as (Herr & _).
  rewrite error_codes_of_events.
  change (shape_log shape :: ?l) with ([shape_log shape] ++ l)%list.
  rewrite !error_events_app, Herr. reflexivity.
Qed.

Lemma missing_safetensors_is_reported_witness :
  error_codes
    (trace (main (without_package "safetensors.torch"
                    (world_of (scenario_checkpoint true true)))
                 (example_args mlx "1,3,224,224")))
  = ["MISSING_PACKAGE"].
Proof.
  apply (missing_safetensors_is_reported
           (without_package "safetensors.torch"
              (world_of (scenario_checkpoint true true)))
           (example_args mlx "1,3,224,224") [1; 3; 224; 224]
           (None, scenario_checkpoint true true, scenario_checkpoint true true)
           "No module named 'safetensors.torch'"
           eq_refl eq_refl ltac:(simpl; lia) eq_refl eq_refl).
Defined.

(** *** Running a script whose first part is known *)

Lemma bind_of_returns {A B} (m : M A) (f : A -> M B) a :
  snd m = Returns a ->
  bind m f = ((fst m ++ fst (f a))%list, snd (f a)).
Proof.
  destruct m as [t r]. cbn [fst snd]. intros ->. cbn [bind].
  now destruct (f a).
Qed.

Lemma bind_of_raises {A B} (m : M A) (f : A -> M B) e :
  snd m = Raises e -> bind m f = (fst m, Raises e).
Proof. destruct m as [t r]. cbn [fst snd]. now intros ->. Qed.

Lemma bind_returns_inv {A B} (m : M A) (f : A -> M B) b :
  snd (bind m f) = Returns b ->
  exists a, snd m = Returns a /\ snd (f a) = Returns b.
Proof.
  destruct m as [t [a|e]]; cbn [bind snd]; [|discriminate].
  intros H. exists a. split; [reflexivity|]. now destruct (f a).
Qed.

Lemma load_pytorch_model_classified w path shape ckpt model sd :
  import_module w "torch" = Returns tt ->
  snd (load_checkpoint w path) = Returns ckpt ->
  snd (classify_checkpoint ckpt) = Returns (model, sd) ->
  load_pytorch_model w path shape
  = ((classification_trace w path ckpt
      ++ fst (after_classification w model sd shape ckpt))%list,
     snd (after_classification w model sd shape ckpt)).
Proof.
  intros Himport Hload Hclass.
  unfold load_pytorch_model, classification_trace, after_classification.
  rewrite Himport. unfold_script. cbn [bind fst snd app].
  rewrite (bind_of_returns _ _ _ Hload). cbn [bind fst snd app].
  rewrite (bind_of_returns _ _ _ Hclass). cbn [bind fst snd app].
  destruct (is_None model), (is_None sd); cbn [andb negb bind fst snd app];
    try destruct (materialize w model shape ckpt) as [t3 r3];
    cbn [fst snd app]; f_equal; do 3 f_equal;
    rewrite <- !app_assoc; cbn [app]; now rewrite <- ?app_assoc.
Qed.

(** The run of [main] when the loader raises an exception. *)
Lemma main_after_load_failure w args shape e :
  snd (parse_input_shape (args_input_shape args)) = Returns shape ->
  (2 <= List.length shape)%nat ->
  snd (load_pytorch_model w (args_input args) shape) = Raises e ->
  is_Exception e = true ->
  main w args
  = {| trace := (shape_log shape
                 :: fst (load_pytorch_model w (args_input args) shape)
                 ++ [Emit (Error (str e) "CONVERSION_FAILED")])%list;
       exit_status := 1 |}.
Proof.
  intros Hparse Hlen Hload Hexc. rewrite main_of_body, main_body_unfold.
  pose proof (parse_input_shape_pure (args_input_shape args)) as Hp.
  destruct (parse_input_shape (args_input_shape args)) as [tp rp].
  cbn [fst snd] in *. subst tp rp.
  assert (Hlt : (List.length shape <? 2)%nat = false)
    by (apply Nat.ltb_ge; exact Hlen).
  unfold_script. cbn [bind fst snd app]. rewrite Hlt. cbn [bind fst snd app].
  rewrite (bind_of_raises _ _ _ Hload).
  destruct e; try discriminate; reflexivity.
Qed.

(** *** Checkpoints the loader cannot use *)



(** X13: when the classifier finds neither a model nor weights (the checkpoint
    is [None], or the entry it selects is [None]), the run fails with the
    loader's last message as CONVERSION_FAILED and calls nothing after
    [torch.load]. *)
Theorem nothing_to_convert_is_reported
    (w : World) (args : Args) (shape : list Z) (checkpoint : PyObj) :
  snd (parse_input_shape (args_input_shape args)) = Returns shape ->
  (2 <= List.length shape)%nat ->
  import_module w "torch" = Returns tt ->
  snd (load_checkpoint w (args_input args)) = Returns checkpoint ->
  snd (classify_checkpoint checkpoint) = Returns (PyNone, PyNone) ->
  error_events (trace (main w args))
  = [Error "Could not extract model or state_dict from checkpoint"
           "CONVERSION_FAILED"]
  /\ calls (trace (main w args))
     = (Import "torch" :: calls (fst (load_checkpoint w (args_input args))))
  /\ exit_status (main w args) = 1.
Proof.
  intros Hparse Hlen Himport Hload Hclass.
  pose proof (load_pytorch_model_classified w _ shape _ _ _
                Himport Hload Hclass) as E.
  cbn [after_classification is_None andb negb raise fst snd] in E.
  unfold after_classification in E. cbn [is_None andb negb raise fst snd] in E.
  rewrite app_nil_r in E.
  rewrite (main_after_load_failure w args shape _ Hparse Hlen
             ltac:(rewrite E; reflexivity) eq_refl).
  rewrite E. cbn [fst snd trace exit_status str].
  pose proof (load_checkpoint_silent w (args_input args)) as (_ & He1 & _).
  pose proof (classify_checkpoint_silent checkpoint) as (_ & He2 & _).
  pose proof (classify_checkpoint_calls checkpoint) as Hc2.
  unfold classification_trace, shape_log.
  obs. rewrite He1, He2, Hc2. cbn [app]. rewrite ?app_nil_r.
  repeat split.
Qed.

Lemma nothing_to_convert_is_reported_witness :
  error_events
    (trace (main (world_of (PyDict [("model", PyNone);
                                    ("state_dict", scenario_checkpoint true true)]))
                 (example_args mlx "1,3,224,224")))
  = [Error "Could not extract model or state_dict from checkpoint"
           "CONVERSION_FAILED"].
Proof.
  apply (nothing_to_convert_is_reported
           (world_of (PyDict [("model", PyNone);
                              ("state_dict", scenario_checkpoint true true)]))
           (example_args mlx "1,3,224,224") [1; 3; 224; 224]
           (PyDict [("model", PyNone);
                    ("state_dict", scenario_checkpoint true true)])
           eq_refl ltac:(simpl; lia) eq_refl eq_refl eq_refl).
Defined.

(** *** The materializer gives up *)

(** X14: when an object can be neither traced nor scripted and has no
    [state_dict], the run ends with the tracing error in the message of
    its error event; the scripting error only appears in a warning. *)
Theorem tracing_error_is_the_one_reported
    (w : World) (args : Args) (shape : list Z) (checkpoint sd : PyObj)
    (cls : string) (id : N) (e1 e2 : exn) :
  let model := PyObject cls id in
  snd (parse_input_shape (args_input_shape args)) = Returns shape ->
  (2 <= List.length shape)%nat ->
  import_module w "torch" = Returns tt ->
  snd (load_checkpoint w (args_input args)) = Returns checkpoint ->
  snd (classify_checkpoint checkpoint) = Returns (model, sd) ->
  model_eval w model = Returns tt ->
  jit_trace w model shape = Raises e1 -> is_Exception e1 = true ->
  jit_script w model = Raises e2 -> is_Exception e2 = true ->
  has_state_dict w model = false ->
  trace (main w args)
  = (shape_log shape :: classification_trace w (args_input args) checkpoint
     ++ [Call (ModelEval model);
         Emit (Log "info" ("Tracing model with input shape: "
                           ++ PyStr.of_tuple shape));
         Emit (Progress 0.4 "Tracing model");
         Call (JitTrace model shape);
         Emit (Log "warning" ("Tracing failed: " ++ str e1));
         Emit (Log "info" "Attempting scripting instead...");
         Call (JitScript model);
         Emit (Log "warning" ("Scripting also failed: " ++ str e2));
         Emit (Error ("Cannot process model: " ++ str e1)
                     "CONVERSION_FAILED")])%list
  /\ exit_status (main w args) = 1.
Proof.
  intros model Hparse Hlen Himport Hload Hclass Heval Htrace Hx1 Hscript Hx2
    Hattr.
  pose proof (load_pytorch_model_classified w _ shape _ _ _
                Himport Hload Hclass) as E.
  assert (Ha : after_classification w model sd shape checkpoint
               = ([Call (ModelEval model);
                   Emit (Log "info" ("Tracing model with input shape: "
                                     ++ PyStr.of_tuple shape));
                   Emit (Progress 0.4 "Tracing model");
                   Call (JitTrace model shape);
                   Emit (Log "warning" ("Tracing failed: " ++ str e1));
                   Emit (Log "info" "Attempting scripting instead...");
                   Call (JitScript model);
                   Emit (Log "warning" ("Scripting also failed: " ++ str e2))],
                  Raises (Exception ("Cannot process model: " ++ str e1)))).
  { unfold after_classification, materialize, py_eval,
      py_hasattr_state_dict. subst model. cbn [is_None andb negb].
    rewrite Heval, Htrace, Hscript, Hattr. unfold_script.
    cbn [bind try_except fst snd app]. rewrite Hx1.
    cbn [bind try_except fst snd app]. rewrite Hx2. reflexivity. }
  rewrite Ha in E. cbn [fst snd] in E.
  rewrite (main_after_load_failure w args shape _ Hparse Hlen
             ltac:(rewrite E; reflexivity) eq_refl).
  rewrite E. cbn [fst snd trace exit_status str].
  split; [|reflexivity]. f_equal. rewrite <- app_assoc. reflexivity.
Qed.

Lemma tracing_error_is_the_one_reported_witness :
  error_events
    (trace (main (with_jit (Raises (Exception "data-dependent control flow"))
                           (Raises (Exception "unsupported annotation"))
                           (world_of (PyObject "Net" 0)))
                 (example_args coreml "1,3,224,224")))
  = [Error "Cannot process model: data-dependent control flow"
           "CONVERSION_FAILED"]
  /\ exit_status
       (main (with_jit (Raises (Exception "data-dependent control flow"))
                       (Raises (Exception "unsupported annotation"))
                       (world_of (PyObject "Net" 0)))
             (example_args coreml "1,3,224,224")) = 1.
Proof.
  destruct (tracing_error_is_the_one_reported
              (with_jit (Raises (Exception "data-dependent control flow"))
                        (Raises (Exception "unsupported annotation"))
                        (world_of (PyObject "Net" 0)))
              (example_args coreml "1,3,224,224") [1; 3; 224; 224]
              (PyObject "Net" 0) PyNone "Net" 0%N
              (Exception "data-dependent control flow")
              (Exception "unsupported annotation")
              eq_refl ltac:(simpl; lia) eq_refl eq_refl eq_refl eq_refl
              eq_refl eq_refl eq_refl eq_refl eq_refl) as [Ht Hx].
  split; [|exact Hx]. rewrite Ht. reflexivity.
Defined.

(** *** A traced model without weights, for mlx *)

(** X15: an mlx run on a checkpoint that is no mapping, that the loader could
    trace or script, and that has no [state_dict], has no weights to
    convert: it stops before any tensor is processed, with one
    INVALID_CHECKPOINT error and exit status 1. *)
Theorem invalid_checkpoint_is_reported
    (w : World) (args : Args) (shape : list Z) (traced : option ScriptModule)
    (checkpoint : PyObj) :
  args_format args = mlx ->
  snd (parse_input_shape (args_input_shape args)) = Returns shape ->
  (2 <= List.length shape)%nat ->
  snd (load_pytorch_model w (args_input args) shape)
  = Returns (traced, PyNone, checkpoint) ->
  import_module w "safetensors.torch" = Returns tt ->
  (forall d, checkpoint <> PyDict d) ->
  py_hasattr_state_dict w checkpoint = false ->
  trace (main w args)
  = (shape_log shape :: fst (load_pytorch_model w (args_input args) shape)
     ++ [Call (Import "torch"); Call (Import "safetensors.torch");
         Emit (Log "info" "Converting to MLX safetensors format");
         Emit (Progress 0.5 "Extracting weights");
         Emit (Error "Cannot extract state_dict from checkpoint"
                     "INVALID_CHECKPOINT")])%list
  /\ error_codes (trace (main w args)) = ["INVALID_CHECKPOINT"]
  /\ exit_status (main w args) = 1.
Proof.
  intros Hfmt Hparse Hlen Hload Hsafe Hnd Hattr.
  pose proof (load_needs_torch _ _ _ _ Hload) as Htorch.
  assert (Hx : extract_state_dict w checkpoint
               = ([Emit (Error "Cannot extract state_dict from checkpoint"
                               "INVALID_CHECKPOINT")],
                  Raises (SystemExit 1))).
  { unfold extract_state_dict. rewrite Hattr.
    destruct checkpoint; try reflexivity. now elim (Hnd entries). }
  assert (E : main w args
              = {| trace := (shape_log shape
                             :: fst (load_pytorch_model w (args_input args) shape)
                             ++ [Call (Import "torch");
                                 Call (Import "safetensors.torch");
                                 Emit (Log "info" "Converting to MLX safetensors format");
                                 Emit (Progress 0.5 "Extracting weights");
                                 Emit (Error "Cannot extract state_dict from checkpoint"
                                             "INVALID_CHECKPOINT")])%list;
                   exit_status := 1 |}).
  { rewrite main_of_body, (main_body_after_load _ _ _ _ Hparse Hlen Hload).
    unfold convert_and_complete, convert_to_mlx.
    rewrite Hfmt, Htorch, Hsafe. cbn [is_None]. rewrite Hx. reflexivity. }
  rewrite E. cbn [trace exit_status]. split; [reflexivity|].
  split; [|reflexivity].
  pose proof (load_pytorch_model_summary w (args_input args) shape)
    as (Herr & _).
  rewrite error_codes_of_events.
  change (shape_log shape :: ?l) with ([shape_log shape] ++ l)%list.
  rewrite !error_events_app, Herr. reflexivity.
Qed.

Lemma invalid_checkpoint_is_reported_witness :
  error_codes (trace (main (world_of (PyObject "Net" 0))
                           (example_args mlx "1,3,224,224")))
  = ["INVALID_CHECKPOINT"].
Proof.
  apply (invalid_checkpoint_is_reported
           (world_of (PyObject "Net" 0)) (example_args mlx "1,3,224,224")
           [1; 3; 224; 224]
           (Some (Traced (PyObject "Net" 0) [1; 3; 224; 224]))
           (PyObject "Net" 0)
           eq_refl eq_refl ltac:(simpl; lia) eq_refl eq_refl
           ltac:(intros d; discriminate) eq_refl).
Defined.

(** ** What the loader returns *)

Lemma classify_checkpoint_returns c :
  exists model sd, snd (classify_checkpoint c) = Returns (model, sd).
Proof.
  unfold classify_checkpoint.
  destruct c; try (eexists; eexists; reflexivity).
  destruct (Dict.get "model" entries);
    [eexists; eexists; reflexivity|].
  destruct (Dict.get "state_dict" entries);
    [eexists; eexists; reflexivity|].
  destruct (Dict.get "model_state_dict" entries);
    [eexists; eexists; reflexivity|].
  destruct (forallb is_tensor (Dict.values entries));
    eexists; eexists; reflexivity.
Qed.

Lemma load_checkpoint_returns w path c :
  snd (load_checkpoint w path) = Returns c ->
  torch_load w path false = Returns c
  \/ (exists e, torch_load w path false = Raises e /\ is_Exception e = true
                /\ torch_load w path true = Returns c).
Proof.
  unfold load_checkpoint, call. cbn [try_except].
  destruct (torch_load w path false) as [c0|e] eqn:E1; cbn [snd].
  - intros [= ->]. now left.
  - unfold except_Exception. destruct (is_Exception e) eqn:Ex; cbn [snd];
      [|discriminate].
    cbn [try_except]. destruct (torch_load w path true) as [c1|e'] eqn:E2.
    + cbn [snd]. intros [= ->]. right. now exists e.
    + destruct (is_Exception e'); cbn; discriminate.
Qed.

Lemma materialize_returns w model shape ckpt traced sd ckpt' :
  snd (materialize w model shape ckpt) = Returns (traced, sd, ckpt') ->
  (exists cls id, model = PyObject cls id)
  /\ ckpt' = ckpt /\ materialized w model shape traced sd.
Proof.
  unfold materialize, materialized, py_eval, py_hasattr_state_dict,
    py_state_dict.
  destruct model; try (cbn; discriminate).
  set (model := PyObject cls id).
  destruct (model_eval w model) as [[]|e0] eqn:Eeval;
    [|cbn; discriminate].
  unfold_script. cbn [bind try_except fst snd app].
  destruct (jit_trace w model shape) as [[]|e1] eqn:Et;
    cbn [bind try_except fst snd app].
  { intros [= <- <- <-]. split; [now exists cls, id|].
    split; [reflexivity|]. split; [reflexivity|]. split; [reflexivity|].
    left. now split. }
  destruct (is_Exception e1) eqn:Ex1; cbn [bind try_except fst snd app];
    [|discriminate].
  destruct (jit_script w model) as [[]|e2] eqn:Es;
    cbn [bind try_except fst snd app].
  { intros [= <- <- <-]. split; [now exists cls, id|].
    split; [reflexivity|]. split; [reflexivity|]. split; [reflexivity|].
    right. split; [reflexivity|]. split; [now exists e1 | reflexivity]. }
  destruct (is_Exception e2) eqn:Ex2; cbn [bind try_except fst snd app];
    [|discriminate].
  destruct (has_state_dict w model) eqn:Eh; cbn [bind try_except fst snd app];
    [|discriminate].
  destruct (state_dict_of w model) as [sd'|e3] eqn:Esd;
    cbn [bind try_except fst snd app]; [|discriminate].
  intros [= <- <- <-]. split; [now exists cls, id|].
  split; [reflexivity|]. split; [reflexivity|].
  split; [now exists e1|]. split; [now exists e2|]. now split.
Qed.

(** X16: what a returned triple tells. The checkpoint is what [torch.load]
    answered, at the first attempt or, after an exception, at the second.
    A script module comes without weights, from an object the classifier
    took for the model, by tracing or, when tracing raised, by scripting.
    Weights without a script module are those the classifier found, or
    the [state_dict()] of a model that could be neither traced nor
    scripted. *)
Theorem loader_result_origin
    (w : World) (path : string) (shape : list Z)
    (traced : option ScriptModule) (sd checkpoint : PyObj) :
  snd (load_pytorch_model w path shape) = Returns (traced, sd, checkpoint) ->
  (torch_load w path false = Returns checkpoint
   \/ (exists e, torch_load w path false = Raises e /\ is_Exception e = true
                 /\ torch_load w path true = Returns checkpoint))
  /\ exists model sd0,
       snd (classify_checkpoint checkpoint) = Returns (model, sd0)
       /\ ((model = PyNone /\ traced = None /\ sd = sd0 /\ sd <> PyNone)
           \/ ((exists cls id, model = PyObject cls id)
               /\ materialized w model shape traced sd)).
Proof.
  intros H.
  pose proof (load_needs_torch _ _ _ _ H) as Himport.
  destruct (load_checkpoint w path) as [t1 [c|e]] eqn:Hl.
  2:{ unfold load_pytorch_model in H. rewrite Himport, Hl in H.
      discriminate H. }
  destruct (classify_checkpoint_returns c) as (model & sd0 & Hc).
  rewrite (load_pytorch_model_classified w path shape c model sd0 Himport
             ltac:(now rewrite Hl) Hc) in H.
  cbn [snd] in H. unfold after_classification in H.
  destruct (is_None model) eqn:Em; cbn [andb negb] in H.
  - destruct model; try discriminate.
    destruct (is_None sd0) eqn:Es; cbn [negb] in H; [discriminate H|].
    injection H as <- <- <-.
    split; [apply load_checkpoint_returns; now rewrite Hl|].
    exists PyNone, sd0. split; [exact Hc|]. left.
    repeat split. intros ->. discriminate.
  - destruct (materialize_returns _ _ _ _ _ _ _ H) as (Hobj & -> & Hm).
    split; [apply load_checkpoint_returns; now rewrite Hl|].
    exists model, sd0. split; [exact Hc|]. right. now split.
Qed.

Lemma loader_result_origin_witness :
  exists model sd0,
    snd (classify_checkpoint (PyObject "Net" 0)) = Returns (model, sd0)
    /\ ((model = PyNone
         /\ Some (Traced (PyObject "Net" 0) [1; 3; 224; 224]) = None
         /\ PyNone = sd0 /\ PyNone <> PyNone)
        \/ ((exists cls id, model = PyObject cls id)
            /\ materialized (world_of (PyObject "Net" 0)) model
                 [1; 3; 224; 224]
                 (Some (Traced (PyObject "Net" 0) [1; 3; 224; 224]))
                 PyNone)).
Proof.
  apply (loader_result_origin (world_of (PyObject "Net" 0)) "model.pt"
           [1; 3; 224; 224]
           (Some (Traced (PyObject "Net" 0) [1; 3; 224; 224])) PyNone
           (PyObject "Net" 0) eq_refl).
Defined.

(** ** The input description *)

(** X17: the input is declared as an image exactly for a shape of four
    dimensions with 1, 3 or 4 channels, with the RGB layout exactly for 3
    channels and channels first; as a plain tensor for every other shape.
    Either way it is named input and carries the shape unchanged, and the
    description was accepted by the library. *)
Theorem input_type_follows_shape
    (w : World) (shape : list Z) (ty : InputType) :
  snd (choose_input_type w shape) = Returns ty ->
  ct_input_type w ty = Returns tt
  /\ match ty with
     | ImageType nm s channel_first layout =>
         nm = "input" /\ s = shape /\ channel_first = true
         /\ image_shape shape
         /\ (layout = RGB <-> nth 1 shape 0 = 3)
     | TensorType nm s =>
         nm = "input" /\ s = shape /\ ~ image_shape shape
     end.
Proof.
  unfold choose_input_type, image_shape.
  assert (Htensor :
            snd (call (CtInputType (TensorType "input" shape))
                      (ct_input_type w (TensorType "input" shape)) ;;
                 log "info" ("Using TensorType input: "
                             ++ PyStr.of_tuple shape) ;;
                 ret (TensorType "input" shape)) = Returns ty ->
            ct_input_type w ty = Returns tt
            /\ ty = TensorType "input" shape).
  { unfold call.
    destruct (ct_input_type w (TensorType "input" shape)) as [[]|e] eqn:E;
      cbn; [|discriminate].
    intros [= <-]. now split. }
  cbv zeta.
  destruct shape as [|b [|c [|h [|wd [|x r]]]]];
    try (intros H; apply Htensor in H; destruct H as [Hok ->];
         split; [exact Hok|]; repeat split;
         intros (b' & c' & h' & wd' & Hs & _); discriminate).
  destruct (existsb (Z.eqb c) [1; 3; 4]) eqn:Ec.
  - unfold call.
    destruct (ct_input_type w (ImageType _ _ _ _)) as [[]|e] eqn:E; cbn [bind fst snd log emit];
      [|discriminate].
    intros [= <-]. split; [exact E|]. repeat split.
    + exists b, c, h, wd. split; [reflexivity|].
      cbn in Ec. rewrite !orb_true_iff, !Z.eqb_eq in Ec.
      destruct Ec as [->|[->|[->|Ef]]]; auto. discriminate.
    + cbn [nth]. destruct (Z.eqb_spec c 3); [auto | discriminate].
    + cbn [nth]. intros ->. reflexivity.
  - intros H; apply Htensor in H; destruct H as [Hok ->].
    split; [exact Hok|]. repeat split.
    intros (b' & c' & h' & wd' & [= -> -> -> ->] & Hc).
    cbn in Ec. rewrite !orb_false_iff, !Z.eqb_neq in Ec.
    destruct Ec as (H1 & H3 & H4 & _).
    destruct Hc as [-> | [-> | ->]]; congruence.
Qed.

Lemma input_type_follows_shape_witness :
  ct_input_type (world_of PyNone)
                (ImageType "input" [1; 3; 224; 224] true RGB) = Returns tt
  /\ "input" = "input" /\ [1; 3; 224; 224] = [1; 3; 224; 224] /\ true = true
  /\ image_shape [1; 3; 224; 224]
  /\ (RGB = RGB <-> nth 1 [1; 3; 224; 224] 0 = 3).
Proof.
  apply (input_type_follows_shape (world_of PyNone) [1; 3; 224; 224]
           (ImageType "input" [1; 3; 224; 224] true RGB) eq_refl).
Defined.

(** ** What the compiler is given *)

Lemma always_impl (P Q : Effect -> Prop) {A} (m : M A) :
  (forall x, P x -> Q x) -> always P m -> always Q m.
Proof. intros H. unfold always. apply Forall_impl. exact H. Qed.

Lemma load_pytorch_model_not_compile w path shape :
  always not_compile (load_pytorch_model w path shape).
Proof.
  unfold load_pytorch_model, load_checkpoint, classify_checkpoint,
    materialize, py_eval, py_state_dict.
  always_walk; exact I.
Qed.

Lemma convert_to_mlx_not_compile w sd shape out ck :
  always not_compile (convert_to_mlx w sd shape out ck).
Proof.
  unfold convert_to_mlx, extract_state_dict, save_tensors, py_items,
    py_state_dict.
  always_walk; exact I.
Qed.

Lemma choose_input_type_not_compile w shape :
  always not_compile (choose_input_type w shape).
Proof. unfold choose_input_type. always_walk; exact I. Qed.

Lemma convert_to_coreml_compiles w traced shape out nm :
  always (fun x => match x with
                   | Call (CtConvert m ty) =>
                       m = traced
                       /\ import_module w "coremltools" = Returns tt
                       /\ snd (choose_input_type w shape) = Returns ty
                   | _ => True
                   end)
         (convert_to_coreml w traced shape out nm).
Proof.
  unfold convert_to_coreml, compile_and_save, report_conversion_error.
  apply always_bind; [always_walk; exact I | intros u Himport].
  apply always_bind; [always_walk; exact I | intros _ _].
  apply always_bind; [always_walk; exact I | intros _ _].
  apply always_bind.
  { eapply always_impl; [|apply choose_input_type_not_compile].
    intros [e|c]; [trivial|]. destruct c; trivial. contradiction. }
  intros ty Hty.
  apply always_bind; [always_walk; exact I | intros _ _].
  always_walk; try exact I.
  split; [reflexivity|]. split; [|exact Hty].
  unfold try_except, call, except_ImportError in Himport.
  destruct (import_module w "coremltools") as [[]|e]; [reflexivity|].
  destruct e; discriminate.
Qed.

Lemma main_body_compiles w args :
  always (compile_rule w args) (main_body w args).
Proof.
  rewrite main_body_unfold. unfold parse_input_shape.
  apply always_bind; [apply map_int_always | intros shape Hshape].
  apply always_bind; [always_walk; exact I | intros _ _].
  apply always_bind; [always_walk; exact I | intros u Hlen].
  assert (Hlen' : (2 <= List.length shape)%nat).
  { destruct (List.length shape <? 2)%nat eqn:E; [discriminate Hlen|].
    now apply Nat.ltb_ge. }
  apply always_bind.
  { eapply always_impl; [|apply load_pytorch_model_not_compile].
    intros [e|c]; [trivial|]. destruct c; trivial. contradiction. }
  intros [[tm sd] ck] Hload. unfold convert_and_complete.
  apply always_bind; [|intros; always_walk; exact I].
  destruct (args_format args) eqn:Hfmt.
  - destruct tm as [traced|]; [|always_walk; exact I].
    apply always_bind; [|intros; always_walk].
    eapply always_impl; [|apply convert_to_coreml_compiles].
    intros [e|c]; [trivial|]. destruct c; trivial.
    intros (-> & Himport & Hty). split; [exact Hfmt|].
    exists shape, sd, ck. repeat split; assumption.
  - apply always_bind; [|intros; always_walk].
    eapply always_impl; [|apply convert_to_mlx_not_compile].
    intros [e|c]; [trivial|]. destruct c; trivial. contradiction.
Qed.

(** X18: the graph compiler is called only in a coreml run, after the shape
    was parsed and has two dimensions or more, the loader returned a script
    module and coremltools was imported; it is given that module and the
    input description chosen for that shape. *)
Theorem compiler_is_given_the_loaded_model
    (w : World) (args : Args) (m : ScriptModule) (ty : InputType) :
  In (Call (CtConvert m ty)) (trace (main w args)) ->
  args_format args = coreml
  /\ exists shape sd checkpoint,
       snd (parse_input_shape (args_input_shape args)) = Returns shape
       /\ (2 <= List.length shape)%nat
       /\ snd (load_pytorch_model w (args_input args) shape)
          = Returns (Some m, sd, checkpoint)
       /\ import_module w "coremltools" = Returns tt
       /\ snd (choose_input_type w shape) = Returns ty.
Proof.
  intros Hin.
  assert (H : Forall (compile_rule w args) (trace (main w args))).
  { rewrite trace_main. apply always_main_script;
      [apply main_body_compiles | exact I | intros; exact I]. }
  rewrite Forall_forall in H. exact (H _ Hin).
Qed.

Lemma compiler_is_given_the_loaded_model_witness :
  args_format (example_args coreml "1,3,224,224") = coreml
  /\ exists shape sd checkpoint,
       snd (parse_input_shape "1,3,224,224") = Returns shape
       /\ (2 <= List.length shape)%nat
       /\ snd (load_pytorch_model (world_of (PyObject "Net" 0)) "model.pt"
                                  shape)
          = Returns (Some (Traced (PyObject "Net" 0) [1; 3; 224; 224]),
                     sd, checkpoint)
       /\ import_module (world_of (PyObject "Net" 0)) "coremltools"
          = Returns tt
       /\ snd (choose_input_type (world_of (PyObject "Net" 0)) shape)
          = Returns (ImageType "input" [1; 3; 224; 224] true RGB).
Proof.
  apply (compiler_is_given_the_loaded_model
           (world_of (PyObject "Net" 0)) (example_args coreml "1,3,224,224")
           (Traced (PyObject "Net" 0) [1; 3; 224; 224])
           (ImageType "input" [1; 3; 224; 224] true RGB)).
  vm_compute. tauto.
Defined.

(** ** The archive as a dictionary *)

Lemma keys_set {V} k (v : V) d :
  Dict.keys (Dict.set k v d)
  = if Dict.mem k d then Dict.keys d else (Dict.keys d ++ [k])%list.
Proof.
  unfold Dict.keys, Dict.mem. induction d as [|[k0 v0] d IH]; [reflexivity|].
  cbn [Dict.set Dict.get]. destruct (String.eqb k k0); [reflexivity|].
  cbn [map fst]. rewrite IH. now destruct (Dict.get k d).
Qed.

Lemma mem_keys {V} k (d : list (string * V)) :
  Dict.mem k d = true <-> In k (Dict.keys d).
Proof.
  unfold Dict.keys, Dict.mem. induction d as [|[k0 v0] d IH]; cbn.
  - split; [discriminate | contradiction].
  - destruct (String.eqb_spec k k0) as [->|Hne].
    + split; auto.
    + rewrite IH. split; [auto | intros [E|H]; [congruence | exact H]].
Qed.

Lemma set_fresh {V} k (v : V) d :
  Dict.mem k d = false -> Dict.set k v d = (d ++ [(k, v)])%list.
Proof.
  unfold Dict.mem. induction d as [|[k0 v0] d IH]; [reflexivity|].
  cbn [Dict.set Dict.get app]. destruct (String.eqb k k0); [discriminate|].
  intros H. now rewrite IH.
Qed.

Lemma NoDup_snoc {A} (l : list A) x : NoDup l -> ~ In x l -> NoDup (l ++ [x]).
Proof.
  intros Hl Hx. apply NoDup_app; [exact Hl | repeat constructor; auto |].
  intros y Hy [<-|[]]. contradiction.
Qed.

Lemma store_fold_keys entries : forall ts,
  NoDup (Dict.keys ts) ->
  NoDup (Dict.keys (fold_left store entries ts))
  /\ (List.length (fold_left store entries ts)
      <= List.length ts + List.length entries)%nat.
Proof.
  induction entries as [|[k t] entries IH]; intros ts Hts; cbn [fold_left].
  - split; [exact Hts | lia].
  - assert (Hset : NoDup (Dict.keys (store ts (k, t)))
                   /\ (List.length (store ts (k, t)) <= S (List.length ts))%nat).
    { unfold store. cbn [fst snd]. split.
      - rewrite keys_set. destruct (Dict.mem k ts) eqn:E; [exact Hts|].
        apply NoDup_snoc; [exact Hts|]. rewrite <- mem_keys, E. discriminate.
      - rewrite <- (length_map fst). fold (Dict.keys (Dict.set k (retained t) ts)).
        rewrite keys_set. destruct (Dict.mem k ts); unfold Dict.keys;
          rewrite ?length_app, length_map; cbn; lia. }
    destruct Hset as [Hk Hl]. destruct (IH _ Hk) as [IH1 IH2].
    split; [exact IH1|]. cbn [List.length]. lia.
Qed.

Lemma store_fold_distinct entries : forall ts,
  NoDup (Dict.keys ts ++ Dict.keys entries) ->
  fold_left store entries ts
  = (ts ++ map (fun kt => (fst kt, retained (snd kt))) entries)%list.
Proof.
  induction entries as [|[k t] entries IH]; intros ts H; cbn [fold_left map].
  - now rewrite app_nil_r.
  - unfold Dict.keys in H. cbn [map fst] in H.
    assert (Hk : Dict.mem k ts = false).
    { destruct (Dict.mem k ts) eqn:E; [|reflexivity]. exfalso.
      apply mem_keys in E. apply NoDup_remove_2 in H. apply H.
      apply in_or_app. now left. }
    unfold store at 2. cbn [fst snd]. rewrite (set_fresh _ _ _ Hk).
    rewrite IH.
    + now rewrite <- app_assoc.
    + unfold Dict.keys. rewrite map_app. cbn [map fst].
      rewrite <- app_assoc. exact H.
Qed.

Lemma numel_retained t : numel (retained t) = numel t.
Proof. unfold numel. now rewrite retained_shape. Qed.

(** X19: the archive is a dictionary: no key occurs twice in it, and it never
    holds more tensors than the layer list has records (a key met twice is
    overwritten in the archive but recorded twice). *)
Theorem archive_has_unique_keys (items : list (string * PyObj)) :
  NoDup (Dict.keys (fst (process_tensors items)))
  /\ (List.length (fst (process_tensors items))
      <= List.length (snd (process_tensors items)))%nat
  /\ List.length (snd (process_tensors items))
     = List.length (filter (fun kv => is_tensor (snd kv)) items).
Proof.
  rewrite process_tensors_eq. cbn [fst snd].
  destruct (store_fold_keys (tensor_entries items) [] (NoDup_nil _))
    as [Hk Hl].
  split; [exact Hk|]. split; [rewrite length_map; exact Hl|].
  rewrite length_map. unfold tensor_entries. clear Hk Hl.
  induction items as [|[k v] items IH]; [reflexivity|].
  cbn [flat_map filter snd fst]. rewrite length_app, IH.
  destruct v; reflexivity.
Qed.

(** X20: when the tensor-valued items have distinct keys, as the items of a
    dictionary have, the archive holds one tensor per such item, in order,
    the layer count is the number of archived tensors, and the parameter
    total is the sum of the element counts of the source tensors. *)
Theorem distinct_keys_keep_every_tensor (items : list (string * PyObj)) :
  NoDup (Dict.keys (tensor_entries items)) ->
  fst (process_tensors items)
  = map (fun kt => (fst kt, retained (snd kt))) (tensor_entries items)
  /\ List.length (snd (process_tensors items))
     = List.length (fst (process_tensors items))
  /\ fold_right Z.add 0
       (map numel (Dict.values (fst (process_tensors items))))
     = fold_right Z.add 0 (map (fun kt => numel (snd kt))
                               (tensor_entries items)).
Proof.
  intros H. rewrite process_tensors_eq. cbn [fst snd].
  rewrite (store_fold_distinct _ [] H). cbn [app].
  split; [reflexivity|]. split; [now rewrite !length_map|].
  unfold Dict.values. rewrite !map_map. f_equal.
  apply map_ext. intros [k t]. cbn [fst snd]. apply numel_retained.
Qed.

Lemma distinct_keys_keep_every_tensor_witness :
  fold_right Z.add 0
    (map numel
         (Dict.values
            (fst (process_tensors
                    [("conv1.weight", PyTensor (mkTensor [16; 3; 3; 3] float16 true));
                     ("step", PyInt 7);
                     ("conv1.bias", PyTensor (mkTensor [16] bfloat16 false))]))))
  = 448.
Proof.
  destruct (distinct_keys_keep_every_tensor
              [("conv1.weight", PyTensor (mkTensor [16; 3; 3; 3] float16 true));
               ("step", PyInt 7);
               ("conv1.bias", PyTensor (mkTensor [16] bfloat16 false))])
    as (_ & _ & H).
  - vm_compute. repeat constructor; cbn; intuition discriminate.
  - rewrite H. reflexivity.
Defined.

(** ** The completed event *)

Lemma call_returns {A} c (r : outcome A) a :
  snd (call c r) = Returns a -> r = Returns a.
Proof. intros H. exact H. Qed.

Lemma save_tensors_returns w sd shape out s :
  snd (save_tensors w sd shape out) = Returns s ->
  exists items p,
    snd (py_items w sd) = Returns items
    /\ save_file w (fst (process_tensors items)) (path_str w out) = Returns tt
    /\ with_suffix w (path_str w out) ".json" = Returns p
    /\ json_dump w p (sidecar_of shape items) = Returns tt
    /\ s = summary_of (sidecar_of shape items).
Proof.
  unfold save_tensors. intros H.
  apply bind_returns_inv in H. destruct H as (_ & _ & H).
  apply bind_returns_inv in H. destruct H as (items & Hitems & H).
  exists items. unfold sidecar_of, summary_of.
  destruct (process_tensors items) as [tensors layer_info]. cbn [fst snd].
  apply bind_returns_inv in H. destruct H as (_ & _ & H).
  apply bind_returns_inv in H. destruct H as (_ & _ & H).
  apply bind_returns_inv in H. destruct H as ([] & Hsave & H).
  apply bind_returns_inv in H. destruct H as (_ & _ & H).
  apply bind_returns_inv in H. destruct H as (p & Hp & H).
  apply bind_returns_inv in H. destruct H as ([] & Hdump & H).
  apply bind_returns_inv in H. destruct H as (_ & _ & H).
  injection H as <-. exists p.
  apply call_returns in Hsave, Hp, Hdump. repeat split; assumption.
Qed.

Lemma convert_to_mlx_returns w sd shape out ck s :
  snd (convert_to_mlx w sd shape out ck) = Returns s ->
  exists items p,
    save_file w (fst (process_tensors items)) (path_str w out) = Returns tt
    /\ with_suffix w (path_str w out) ".json" = Returns p
    /\ json_dump w p (sidecar_of shape items) = Returns tt
    /\ s = summary_of (sidecar_of shape items).
Proof.
  unfold convert_to_mlx. intros H.
  apply bind_returns_inv in H. destruct H as (_ & _ & H).
  apply bind_returns_inv in H. destruct H as (_ & _ & H).
  apply bind_returns_inv in H. destruct H as (_ & _ & H).
  apply bind_returns_inv in H. destruct H as (sd' & _ & H).
  destruct (save_tensors_returns _ _ _ _ _ H) as (items & p & _ & Hrest).
  now exists items, p.
Qed.

Lemma compile_and_save_returns w traced ty shape out nm m :
  snd (compile_and_save w traced ty shape out nm) = Returns m ->
  m = {| cm_inputShape := shape;
         cm_format := "coreml";
         cm_computeUnits := "all";
         cm_deploymentTarget := "macOS14" |}
  /\ mlmodel_save w out = Returns tt.
Proof.
  unfold compile_and_save. cbv zeta. intros H.
  apply bind_returns_inv in H. destruct H as (_ & _ & H).
  apply bind_returns_inv in H. destruct H as (_ & _ & H).
  apply bind_returns_inv in H. destruct H as (_ & _ & H).
  apply bind_returns_inv in H. destruct H as (_ & _ & H).
  apply bind_returns_inv in H. destruct H as (_ & _ & H).
  apply bind_returns_inv in H. destruct H as ([] & Hsave & H).
  apply bind_returns_inv in H. destruct H as (_ & _ & H).
  injection H as <-. apply call_returns in Hsave. now split.
Qed.

Lemma try_Exception_exit_returns {A} (m : M A) (h : exn -> M A) a :
  (forall e, exists t c, h e = (t, Raises (SystemExit c))) ->
  snd (try_except m (except_Exception h)) = Returns a ->
  snd m = Returns a.
Proof.
  intros Hh. destruct m as [t [a0|e]]; cbn [try_except snd]; [auto|].
  unfold except_Exception. destruct (is_Exception e); [|discriminate].
  destruct (Hh e) as (t' & c & ->). discriminate.
Qed.

Lemma convert_to_coreml_returns w traced shape out nm m :
  snd (convert_to_coreml w traced shape out nm) = Returns m ->
  m = {| cm_inputShape := shape;
         cm_format := "coreml";
         cm_computeUnits := "all";
         cm_deploymentTarget := "macOS14" |}
  /\ mlmodel_save w out = Returns tt.
Proof.
  unfold convert_to_coreml. intros H.
  apply bind_returns_inv in H. destruct H as (_ & _ & H).
  apply bind_returns_inv in H. destruct H as (_ & _ & H).
  apply bind_returns_inv in H. destruct H as (_ & _ & H).
  apply bind_returns_inv in H. destruct H as (ty & _ & H).
  apply bind_returns_inv in H. destruct H as (_ & _ & H).
  apply try_Exception_exit_returns in H.
  - now apply compile_and_save_returns in H.
  - intros e. unfold report_conversion_error. cbv zeta.
    destruct (PyStr.contains "not supported" (PyStr.lower (str e)));
      [|destruct (PyStr.contains "shape" (PyStr.lower (str e)))];
      eexists; eexists; reflexivity.
Qed.

Lemma main_body_completes w args :
  always (completed_rule w args) (main_body w args).
Proof.
  assert (Hweak : forall A (m : M A),
             always not_completed m -> always (completed_rule w args) m).
  { intros A m. apply always_impl. intros [e|c]; [|trivial].
    destruct e; trivial. contradiction. }
  rewrite main_body_unfold. unfold parse_input_shape.
  apply always_bind; [apply map_int_always | intros shape Hshape].
  apply always_bind; [always_walk; exact I | intros _ _].
  apply always_bind; [always_walk; exact I | intros _ _].
  apply always_bind;
    [apply Hweak, load_pytorch_model_not_completed|].
  intros [[tm sd] ck] Hload. unfold convert_and_complete.
  apply always_bind.
  - destruct (args_format args); [destruct tm|]; always_walk;
      try exact I; apply Hweak;
      [apply convert_to_coreml_not_completed
      | apply convert_to_mlx_not_completed].
  - intros md Hmd. apply always_emit. cbn [completed_rule].
    split; [reflexivity|]. split; [reflexivity|].
    exists shape. split; [exact Hshape|].
    destruct (args_format args) eqn:Hfmt.
    + destruct tm as [traced|]; [|discriminate Hmd].
      apply bind_returns_inv in Hmd. destruct Hmd as (m & Hm & [= <-]).
      apply convert_to_coreml_returns in Hm. destruct Hm as [-> Hsave].
      now repeat split.
    + apply bind_returns_inv in Hmd. destruct Hmd as (s & Hs & [= <-]).
      apply convert_to_mlx_returns in Hs.
      destruct Hs as (items & p & H1 & H2 & H3 & ->).
      split; [reflexivity|]. now exists items, p.
Qed.

Lemma in_events e t : In e (events t) <-> In (Emit e) t.
Proof.
  unfold events. rewrite in_flat_map. split.
  - intros [[e'|c] [Hin H]]; [|contradiction].
    destruct H as [<-|[]]. exact Hin.
  - intros H. exists (Emit e). split; [exact H | now left].
Qed.

(** X21: what a completed event tells. Its output path and format are those
    asked for on the command line. For coreml its metadata is the parsed
    shape with the fixed labels, and the package was saved at the output
    path. For mlx its metadata is the summary of a sidecar document that
    was written next to an archive that was written, and whose layer count,
    architecture and parameter total it repeats. *)
Theorem completed_event_describes_output
    (w : World) (args : Args) (out fmt : string) (md : Metadata) :
  In (Completed out fmt md) (events (trace (main w args))) ->
  out = args_output args /\ fmt = format_str (args_format args)
  /\ exists shape,
       snd (parse_input_shape (args_input_shape args)) = Returns shape
       /\ match md with
          | OfCoreml m =>
              args_format args = coreml
              /\ m = {| cm_inputShape := shape;
                        cm_format := "coreml";
                        cm_computeUnits := "all";
                        cm_deploymentTarget := "macOS14" |}
              /\ mlmodel_save w (args_output args) = Returns tt
          | OfMlx s =>
              args_format args = mlx
              /\ exists items p,
                   save_file w (fst (process_tensors items))
                             (path_str w (args_output args)) = Returns tt
                   /\ with_suffix w (path_str w (args_output args)) ".json"
                      = Returns p
                   /\ json_dump w p (sidecar_of shape items) = Returns tt
                   /\ s = summary_of (sidecar_of shape items)
          end.
Proof.
  intros Hin. apply in_events in Hin.
  assert (H : Forall (completed_rule w args) (trace (main w args))).
  { rewrite trace_main. apply always_main_script;
      [apply main_body_completes | exact I | intros; exact I]. }
  rewrite Forall_forall in H. exact (H _ Hin).
Qed.

Lemma completed_event_describes_output_witness :
  "out/model" = args_output (example_args mlx "1,3,224,224")
  /\ "mlx" = format_str (args_format (example_args mlx "1,3,224,224"))
  /\ exists shape,
       snd (parse_input_shape "1,3,224,224") = Returns shape
       /\ args_format (example_args mlx "1,3,224,224") = mlx
       /\ exists items p,
            save_file (world_of (scenario_checkpoint true true))
                      (fst (process_tensors items)) "out/model" = Returns tt
            /\ with_suffix (world_of (scenario_checkpoint true true))
                           "out/model" ".json" = Returns p
            /\ json_dump (world_of (scenario_checkpoint true true)) p
                         (sidecar_of shape items) = Returns tt
            /\ scenario_summary 448 = summary_of (sidecar_of shape items).
Proof.
  apply (completed_event_describes_output
           (world_of (scenario_checkpoint true true))
           (example_args mlx "1,3,224,224") "out/model" "mlx"
           (OfMlx (scenario_summary 448))).
  vm_compute. tauto.
Defined.

(** ** What an error code tells *)

Lemma always_try_raised (Q : Effect -> Prop) {A} (m : M A) handler :
  always Q m ->
  (forall e h, snd m = Raises e -> handler e = Some h -> always Q h) ->
  always Q (try_except m handler).
Proof.
  unfold always. destruct m as [t [a|e]]; cbn [try_except fst snd];
    intros Hm Hh; [exact Hm|].
  destruct (handler e) as [h|] eqn:E; [|exact Hm].
  specialize (Hh e h eq_refl E). destruct h as [t' r]. cbn [fst] in *.
  apply Forall_app. now split.
Qed.

Lemma no_error_weaken (Q : string -> string -> Prop) {A} (m : M A) :
  always no_error m ->
  always (fun x => match x with Emit (Error msg code) => Q msg code
                             | _ => True end) m.
Proof.
  apply always_impl. intros [e|c]; [|trivial]. destruct e; trivial.
  contradiction.
Qed.

Lemma load_pytorch_model_no_error_event w path shape :
  always no_error (load_pytorch_model w path shape).
Proof.
  unfold load_pytorch_model, load_checkpoint, classify_checkpoint,
    materialize, py_eval, py_state_dict.
  always_walk; exact I.
Qed.

Lemma choose_input_type_no_error w shape :
  always no_error (choose_input_type w shape).
Proof. unfold choose_input_type. always_walk; exact I. Qed.

Lemma compile_and_save_no_error w t ty shape out nm :
  always no_error (compile_and_save w t ty shape out nm).
Proof. unfold compile_and_save. always_walk; exact I. Qed.

Lemma save_tensors_no_error w sd shape out :
  always no_error (save_tensors w sd shape out).
Proof. unfold save_tensors, py_items. always_walk; exact I. Qed.

Lemma report_conversion_error_cause {A} e :
  is_Exception e = true ->
  always (fun x => match x with
                   | Emit (Error msg code) => compiler_failure e msg code
                   | _ => True
                   end)
         (@report_conversion_error A e).
Proof.
  intros Hx. unfold report_conversion_error. cbv zeta.
  destruct (PyStr.contains "not supported" (PyStr.lower (str e))) eqn:E1;
    [|destruct (PyStr.contains "shape" (PyStr.lower (str e))) eqn:E2].
  - apply contains_lower_iff in E1. always_walk; try exact I.
    split; [exact Hx|]. left. now repeat split.
  - apply contains_lower_iff in E2.
    assert (~ occurs_ignoring_case "not supported" (str e))
      by (rewrite <- contains_lower_iff; congruence).
    always_walk; try exact I.
    split; [exact Hx|]. right. left. now repeat split.
  - assert (~ occurs_ignoring_case "not supported" (str e))
      by (rewrite <- contains_lower_iff; congruence).
    assert (~ occurs_ignoring_case "shape" (str e))
      by (rewrite <- contains_lower_iff; congruence).
    always_walk; try exact I.
    split; [exact Hx|]. right. right. now repeat split.
Qed.

Lemma convert_to_coreml_cause w t shape out nm :
  always (fun x => match x with
                   | Emit (Error msg code) =>
                       (code = "MISSING_PACKAGE"
                        /\ exists m, import_module w "coremltools"
                                     = Raises (ImportError m))
                       \/ (exists ty e,
                             snd (choose_input_type w shape) = Returns ty
                             /\ snd (compile_and_save w t ty shape out nm)
                                = Raises e
                             /\ compiler_failure e msg code)
                   | _ => True
                   end)
         (convert_to_coreml w t shape out nm).
Proof.
  unfold convert_to_coreml.
  apply always_bind.
  { apply always_try_raised; [always_walk; exact I|].
    intros e h Hraise. unfold except_ImportError.
    destruct e; try discriminate. intros [= <-].
    apply Forall_cons; [|apply Forall_nil]. left. split; [reflexivity|].
    now exists msg. }
  intros _ _.
  apply always_bind; [always_walk; exact I | intros _ _].
  apply always_bind; [always_walk; exact I | intros _ _].
  apply always_bind;
    [apply no_error_weaken, choose_input_type_no_error | intros ty Hty].
  apply always_bind; [always_walk; exact I | intros _ _].
  apply always_try_raised;
    [apply no_error_weaken, compile_and_save_no_error|].
  intros e h Hraise. unfold except_Exception.
  destruct (is_Exception e) eqn:Hx; [|discriminate]. intros [= <-].
  eapply always_impl; [|apply (report_conversion_error_cause e Hx)].
  intros [ev|c]; [|trivial]. destruct ev; trivial.
  intros Hc. right. now exists ty, e.
Qed.

Lemma convert_to_mlx_cause w sd shape out ck :
  import_module w "torch" = Returns tt ->
  always (fun x => match x with
                   | Emit (Error msg code) =>
                       (code = "MISSING_PACKAGE"
                        /\ exists m, import_module w "safetensors.torch"
                                     = Raises (ImportError m))
                       \/ (code = "INVALID_CHECKPOINT"
                           /\ sd = PyNone
                           /\ (forall d, ck <> PyDict d)
                           /\ py_hasattr_state_dict w ck = false)
                   | _ => True
                   end)
         (convert_to_mlx w sd shape out ck).
Proof.
  intros Htorch. unfold convert_to_mlx.
  apply always_bind.
  { apply always_try_raised; [always_walk; exact I|].
    intros e h Hraise. unfold except_ImportError.
    destruct e; try discriminate. intros [= <-].
    apply Forall_cons; [|apply Forall_nil]. left. split; [reflexivity|].
    exists msg. rewrite Htorch in Hraise. exact Hraise. }
  intros _ _.
  apply always_bind; [always_walk; exact I | intros _ _].
  apply always_bind; [always_walk; exact I | intros _ _].
  apply always_bind;
    [|intros; apply no_error_weaken, save_tensors_no_error].
  destruct sd; cbn [is_None]; try (always_walk; exact I).
  unfold extract_state_dict, py_state_dict.
  destruct ck;
    try (destruct (py_hasattr_state_dict w _) eqn:Hattr;
         always_walk; try exact I;
         right; split; [reflexivity|]; split; [reflexivity|];
         split; [intros d; discriminate | reflexivity]).
  always_walk; exact I.
Qed.

Lemma main_body_cause w args :
  always (fun x => match x with
                   | Emit (Error msg code) => error_cause w args msg code
                   | _ => True
                   end)
         (main_body w args).
Proof.
  rewrite main_body_unfold. unfold parse_input_shape.
  apply always_bind; [apply map_int_always | intros shape Hshape].
  apply always_bind; [always_walk; exact I | intros _ _].
  apply always_bind.
  { destruct (List.length shape <? 2)%nat eqn:E; always_walk; try exact I.
    right. exists shape. split; [exact Hshape|]. left.
    split; [reflexivity | now apply Nat.ltb_lt]. }
  intros u Hlen.
  assert (Hlen' : (2 <= List.length shape)%nat).
  { destruct (List.length shape <? 2)%nat eqn:E; [discriminate Hlen|].
    now apply Nat.ltb_ge. }
  apply always_bind;
    [apply no_error_weaken, load_pytorch_model_no_error_event|].
  intros [[tm sd] ck] Hload. unfold convert_and_complete.
  apply always_bind; [|intros; always_walk; exact I].
  destruct (args_format args) eqn:Hfmt.
  - destruct tm as [t|].
    + apply always_bind; [|intros; always_walk].
      eapply always_impl; [|apply convert_to_coreml_cause].
      intros [ev|c]; [|trivial]. destruct ev; trivial.
      intros Hc. right. exists shape. split; [exact Hshape|]. right.
      split; [exact Hlen'|]. exists (Some t), sd, ck.
      split; [exact Hload|]. rewrite Hfmt.
      destruct Hc as [[-> Hm]|(ty & e & Hty & He & Hc)].
      * right. left. split; [reflexivity|]. split; [discriminate | exact Hm].
      * right. right. now exists t, ty, e.
    + always_walk; try exact I.
      right. exists shape. split; [exact Hshape|]. right.
      split; [exact Hlen'|]. exists None, sd, ck.
      split; [exact Hload|]. rewrite Hfmt. left. now split.
  - apply always_bind; [|intros; always_walk].
    eapply always_impl;
      [|apply convert_to_mlx_cause, (load_needs_torch _ _ _ _ Hload)].
    intros [ev|c]; [|trivial]. destruct ev; trivial.
    intros Hc. right. exists shape. split; [exact Hshape|]. right.
    split; [exact Hlen'|]. exists tm, sd, ck.
    split; [exact Hload|]. rewrite Hfmt. exact Hc.
Qed.

(** X22: every error event has the cause its code names. INVALID_SHAPE: the
    shape parsed to fewer than two dimensions. STATE_DICT_ONLY: a coreml
    run whose loader returned no script module. MISSING_PACKAGE: the
    import of coremltools (coreml) or of safetensors.torch (mlx) raised
    [ImportError], after the model was loaded. INVALID_CHECKPOINT: an mlx
    run without weights on a checkpoint that is no mapping and has no
    [state_dict]. UNSUPPORTED_OP and SHAPE_MISMATCH: the compile-and-save
    block raised an exception whose message selects the code. And
    CONVERSION_FAILED: that block raised with a message selecting neither,
    or an exception left the body of [main] and the message is its
    text. *)
Theorem error_code_names_the_cause
    (w : World) (args : Args) (msg code : string) :
  In (Error msg code) (events (trace (main w args))) ->
  error_cause w args msg code.
Proof.
  intros Hin. apply in_events in Hin.
  assert (H : Forall (fun x => match x with
                               | Emit (Error msg code) =>
                                   error_cause w args msg code
                               | _ => True
                               end) (trace (main w args))).
  { rewrite trace_main. unfold main_script.
    apply always_try_raised; [apply main_body_cause|].
    intros e h Hraise.
    destruct e; intros [= <-];
      (apply Forall_cons; [|apply Forall_nil]); try exact I;
      left; (split; [reflexivity|]); eexists; (split; [exact Hraise|]);
      split; reflexivity. }
  rewrite Forall_forall in H. exact (H _ Hin).
Qed.

Lemma error_code_names_the_cause_witness :
  error_cause (world_of (PyObject "Net" 0)) (example_args mlx "1,3,224,224")
              "Cannot extract state_dict from checkpoint" "INVALID_CHECKPOINT".
Proof.
  apply (error_code_names_the_cause
           (world_of (PyObject "Net" 0)) (example_args mlx "1,3,224,224")).
  vm_compute. tauto.
Defined.

(** ** Validation comes first *)

Lemma bind_trace_prefix {A B} (m : M A) (f : A -> M B) :
  exists t, fst (bind m f) = (fst m ++ t)%list.
Proof.
  destruct m as [t0 [a|e]]; cbn [bind fst].
  - destruct (f a) as [t1 r]. now exists t1.
  - exists []. now rewrite app_nil_r.
Qed.

Lemma main_trace_prefix w args :
  exists t, trace (main w args) = (fst (main_body w args) ++ t)%list.
Proof.
  rewrite main_of_body. destruct (main_body w args) as [t0 [a|e]].
  - exists []. cbn. now rewrite app_nil_r.
  - destruct e; cbn [trace fst]; eexists; try reflexivity.
    now rewrite app_nil_r.
Qed.

Lemma load_starts_with_import w path shape :
  exists t, fst (load_pytorch_model w path shape) = Call (Import "torch") :: t.
Proof.
  unfold load_pytorch_model.
  match goal with
  | |- context [bind ?m ?f] => destruct (bind_trace_prefix m f) as [t Ht]
  end.
  exists t. exact Ht.
Qed.

(** X23: a run that calls any library has parsed the shape argument to two
    dimensions or more, and its first call is the import of torch: an
    unusable shape argument is rejected before torch is imported or the
    input file is read. *)
Theorem no_call_before_validation (w : World) (args : Args) :
  calls (trace (main w args)) <> [] ->
  exists shape,
    snd (parse_input_shape (args_input_shape args)) = Returns shape
    /\ (2 <= List.length shape)%nat
    /\ exists rest, calls (trace (main w args)) = Import "torch" :: rest.
Proof.
  intros Hcalls.
  pose proof (parse_input_shape_pure (args_input_shape args)) as Hp.
  destruct (parse_input_shape (args_input_shape args)) as [tp [shape|e]] eqn:E;
    cbn [fst] in Hp; subst tp.
  - destruct (List.length shape <? 2)%nat eqn:Hlt.
    + exfalso. apply Hcalls. rewrite main_of_body. unfold main_body.
      rewrite E. unfold_script. cbn [bind fst snd app]. rewrite Hlt.
      reflexivity.
    + exists shape. split; [reflexivity|].
      split; [now apply Nat.ltb_ge|].
      destruct (main_trace_prefix w args) as [t1 ->].
      rewrite main_body_unfold, E. unfold_script.
      cbn [bind fst snd app]. rewrite Hlt. cbn [bind fst snd app].
      match goal with
      | |- context [let '(t', r) := bind ?m ?f in _] =>
          destruct (bind_trace_prefix m f) as [t2 Ht2];
          destruct (bind m f) as [t3 r3]
      end.
      cbn [fst] in Ht2. subst t3.
      destruct (load_starts_with_import w (args_input args) shape)
        as [t4 Ht4].
      rewrite Ht4. cbn [fst app calls flat_map]. eexists. reflexivity.
  - exfalso. apply Hcalls. rewrite main_of_body. unfold main_body.
    rewrite E. cbn [bind]. destruct e; reflexivity.
Qed.

Lemma no_call_before_validation_witness :
  exists shape,
    snd (parse_input_shape "1,3,224,224") = Returns shape
    /\ (2 <= List.length shape)%nat
    /\ exists rest,
         calls (trace (main (world_of (PyDict []))
                            (example_args mlx "1,3,224,224")))
         = Import "torch" :: rest.
Proof.
  apply (no_call_before_validation (world_of (PyDict []))
           (example_args mlx "1,3,224,224")).
  vm_compute. discriminate.
Defined.
